(** * Host-side dispatch of the CUDA array kernels of ptypy

    A shallow embedding of [ptypy/accelerate/cuda_pycuda/array_utils.py]:
    the Python wrappers that validate their arguments, size grids and
    shared memory, and enqueue pre-compiled device kernels on a stream.

    Modelling conventions.
    - Python integers are [Z]; [//] is floor division ([Z.div]);
      [np.int32] wraps modulo 2^32 ([np_int32]) and the arithmetic on
      int64 arrays modulo 2^64 ([np_int64]).
    - The standard deviations of [convolution] and the shifts of
      [interpolate_shift] are floats ([pyfloat]): a finite value, an
      infinity or NaN.  Products and sums are rounded to binary64, to
      nearest, ties to even ([round64]); [np.float32] rounds to binary32
      ([round32]); the literals [0.1] and [1e-6] are the doubles nearest
      to 1/10 and 1/1000000; a comparison with NaN is false; [int] of an
      infinity or of NaN raises.  The sign of a zero is not kept: no
      branch of the host code depends on it.  The total that
      [mass_center] reads back and the bounds of
      [clip_magnitudes_to_range] are finite values, kept as rationals.
    - A device array is a handle: a buffer reference, a shape, a dtype.
      The device kernels are external, so a wrapper's effect is the
      sequence of events it enqueues (allocations, launches, copies),
      appended to the stream of the device in program order; a raised
      exception leaves the events enqueued so far in place.
    - Each wrapper class is a record of the fields its methods read or
      write ([self]); a method is a computation over the pair of the
      instance and the device, which may raise. *)

From Stdlib Require Import ZArith QArith Qround Qabs Lqa List String Ascii Bool Lia.
From stdpp Require Import gmap strings pretty.
Import ListNotations.

Open Scope string_scope.
Open Scope list_scope.
Open Scope Z_scope.

(** ** numpy element types *)

Inductive dtype : Type :=
  | float32 | float64 | complex64 | complex128 | int32 | int64
  | float16.  (* stands for the element types without a C mapping *)

Definition dtype_eqb (a b : dtype) : bool :=
  match a, b with
  | float32, float32 | float64, float64 | complex64, complex64
  | complex128, complex128 | int32, int32 | int64, int64
  | float16, float16 => true
  | _, _ => false
  end.

(** [np.iscomplexobj] *)
Definition iscomplex (d : dtype) : bool :=
  match d with complex64 | complex128 => true | _ => false end.

(** ** Exceptions *)

Inductive exn : Type :=
  | ValueError (msg : string)
  | AssertionError (msg : string)
  | NotImplementedError (msg : string)
  | MemoryError (msg : string)
  | IndexError
  | UnboundLocalError
  | ZeroDivisionError
  | OverflowError (msg : string).

(** ** Integers of the host code *)

(** [np.int32(z)]: two's complement wrap to 32 bits. *)
Definition np_int32 (z : Z) : Z := (z + 2 ^ 31) mod 2 ^ 32 - 2 ^ 31.

(** Arithmetic on [np.int64] values: two's complement wrap to 64 bits. *)
Definition np_int64 (z : Z) : Z := (z + 2 ^ 63) mod 2 ^ 64 - 2 ^ 63.

(** Python [int(q)] on a float: truncation towards zero. *)
Definition py_int (q : Q) : Z := Z.quot (Qnum q) (Z.pos (Qden q)).

(** [q1 < q2] on rationals, as a boolean. *)
Definition Qltb (a b : Q) : bool := negb (Qle_bool b a).

(** ** Floats of the host code *)

(** A Python float or a numpy floating scalar. *)
Inductive pyfloat : Type :=
  | Finite (q : Q)
  | PosInf
  | NegInf
  | NaN.

(** The binade of [n/d]: the [e] with [2^e <= n/d < 2^(e+1)]. *)
Definition binade (n d : positive) : Z :=
  let k := Z.log2 (Z.pos n) - Z.log2 (Z.pos d) in
  if (if 0 <=? k then Z.pos d * 2 ^ k <=? Z.pos n
      else Z.pos d <=? Z.pos n * 2 ^ (- k))
  then k else k - 1.

(** [num/den], for a positive [den], rounded to the nearest integer, ties
    to even. *)
Definition round_half_even (num den : Z) : Z :=
  let fl := num / den in
  let r2 := 2 * (num mod den) in
  if r2 <? den then fl
  else if den <? r2 then fl + 1
  else if Z.even fl then fl else fl + 1.

(** [m * 2^e] *)
Definition scale2 (m e : Z) : Q :=
  if 0 <=? e then inject_Z (m * 2 ^ e) else Qred (m # Z.to_pos (2 ^ (- e))).

(** The magnitude [n/d] rounded to a multiple [m] of the unit in the last
    place [2^u] of a binary format of precision [prec] whose finite values
    lie below [2^emax]: [(m, u)], or [None] on overflow.  Below the least
    normal binade [2^(2 - emax)] the unit is that of the subnormals. *)
Definition round_magnitude (prec emax : Z) (n d : positive) : option (Z * Z) :=
  let e := Z.max (binade n d) (2 - emax) in
  let u := e - (prec - 1) in
  let m := if 0 <=? u then round_half_even (Z.pos n) (Z.pos d * 2 ^ u)
           else round_half_even (Z.pos n * 2 ^ (- u)) (Z.pos d) in
  if (emax <=? e) || (2 ^ (emax - u) <=? m) then None else Some (m, u).

(** Rounding of a rational to the binary format, to nearest, ties to even. *)
Definition round_binary (prec emax : Z) (q : Q) : pyfloat :=
  match Qnum (Qred q) with
  | 0 => Finite 0
  | Z.pos n =>
      match round_magnitude prec emax n (Qden (Qred q)) with
      | Some (m, u) => Finite (scale2 m u)
      | None => PosInf
      end
  | Z.neg n =>
      match round_magnitude prec emax n (Qden (Qred q)) with
      | Some (m, u) => Finite (- scale2 m u)
      | None => NegInf
      end
  end.

(** binary64, the Python float, and binary32, [np.float32] *)
Definition round64 : Q -> pyfloat := round_binary 53 1024.
Definition round32 : Q -> pyfloat := round_binary 24 128.

(** [np.float32(x)], [np.asarray(x, dtype=np.float32)] on a float *)
Definition to_float32 (x : pyfloat) : pyfloat :=
  match x with
  | Finite q => round32 q
  | _ => x
  end.

(** [np.abs(x)] *)
Definition fabs (x : pyfloat) : pyfloat :=
  match x with
  | Finite q => Finite (Qabs q)
  | PosInf | NegInf => PosInf
  | NaN => NaN
  end.

(** [a * b] and [a + b] on Python floats *)
Definition fmul (a b : pyfloat) : pyfloat :=
  match a, b with
  | NaN, _ | _, NaN => NaN
  | Finite x, Finite y => round64 (x * y)
  | Finite x, PosInf | PosInf, Finite x =>
      match (x ?= 0)%Q with Eq => NaN | Gt => PosInf | Lt => NegInf end
  | Finite x, NegInf | NegInf, Finite x =>
      match (x ?= 0)%Q with Eq => NaN | Gt => NegInf | Lt => PosInf end
  | PosInf, PosInf | NegInf, NegInf => PosInf
  | PosInf, NegInf | NegInf, PosInf => NegInf
  end.

Definition fadd (a b : pyfloat) : pyfloat :=
  match a, b with
  | NaN, _ | _, NaN => NaN
  | Finite x, Finite y => round64 (x + y)
  | PosInf, NegInf | NegInf, PosInf => NaN
  | PosInf, _ | _, PosInf => PosInf
  | NegInf, _ | _, NegInf => NegInf
  end.

(** [a < b], [a <= b], [a > b], [a == b]: false when one side is NaN. *)
Definition flt (a b : pyfloat) : bool :=
  match a, b with
  | NaN, _ | _, NaN => false
  | Finite x, Finite y => Qltb x y
  | NegInf, NegInf => false
  | NegInf, _ => true
  | _, NegInf => false
  | PosInf, _ => false
  | Finite _, PosInf => true
  end.
Definition fle (a b : pyfloat) : bool :=
  match a, b with
  | NaN, _ | _, NaN => false
  | _, _ => negb (flt b a)
  end.
Definition fgt (a b : pyfloat) : bool := flt b a.
Definition feq (a b : pyfloat) : bool :=
  match a, b with
  | Finite x, Finite y => Qeq_bool x y
  | PosInf, PosInf | NegInf, NegInf => true
  | _, _ => false
  end.

(** Python [int(x)] on a float. *)
Definition int_of_float (x : pyfloat) : exn + Z :=
  match x with
  | Finite q => inr (py_int q)
  | PosInf | NegInf => inl (OverflowError "cannot convert float infinity to integer")
  | NaN => inl (ValueError "cannot convert float NaN to integer")
  end.

(** [np.modf(x)]: the fractional and the integral part, both with the
    sign of [x]. *)
Definition np_modf (x : pyfloat) : pyfloat * pyfloat :=
  match x with
  | Finite q => (Finite (q - inject_Z (py_int q)), Finite (inject_Z (py_int q)))
  | PosInf => (Finite 0, PosInf)
  | NegInf => (Finite 0, NegInf)
  | NaN => (NaN, NaN)
  end.

(** ** Device arrays, kernels, events *)

Record gpuarray : Type := GpuArray {
  ref : nat;            (* the device buffer the handle points to *)
  shape : list Z;
  adtype : dtype
}.

Definition ndim (a : gpuarray) : Z := Z.of_nat (length (shape a)).
Definition prod (l : list Z) : Z := fold_right Z.mul 1 l.
Definition size (a : gpuarray) : Z := prod (shape a).

(** A compiled kernel, as [load_kernel(name, subs)] returns it. *)
Record kernel : Type := Kernel {
  kname : string;
  subs : list (string * string)
}.

Inductive arg : Type :=
  | ABuf (r : nat)
  | AInt32 (z : Z)
  | AFloat32 (q : Q)
  | AFloat (x : pyfloat)      (* a [np.float32] that need not be finite *)
  | AInt32Cast (x : pyfloat). (* [np.int32(x)] of a float that is no int32 *)

(** [np.int32(x)] on a [np.float32]: the truncation when that is an int32;
    of any other float the conversion is left to the platform. *)
Definition int32_of_float (x : pyfloat) : arg :=
  match x with
  | Finite q =>
      if (- 2 ^ 31 <=? py_int q) && (py_int q <? 2 ^ 31)
      then AInt32 (py_int q) else AInt32Cast x
  | _ => AInt32Cast x
  end.

Definition dim3 : Type := Z * Z * Z.

Record launch : Type := MkLaunch {
  lkernel : kernel;
  largs : list arg;
  lblock : dim3;
  lgrid : dim3;
  lshared : Z
}.

Inductive event : Type :=
  | Alloc (a : gpuarray) (zeroed : bool)   (* gpuarray.zeros / gpuarray.empty *)
  | Launch (l : launch)                    (* kernel(..., block=, grid=, shared=, stream=) *)
  | Upload (dst : nat) (r : Z) (std : pyfloat)   (* kernel_gpu[:r+1] = taps(r, std) *)
  | Copy (dst src : nat)                   (* dst[:] = src[:] *)
  | SumGet (src : nat).                    (* gpuarray.sum(src).get() *)

Record device : Type := Device {
  next_ref : nat;
  stream : list event
}.

Definition launches (es : list event) : list launch :=
  flat_map (fun e => match e with Launch l => [l] | _ => [] end) es.

(** ** Computations of a method: state of instance and device, or an exception *)

Record world (K : Type) : Type := World { self : K; dev : device }.
Arguments World {K} _ _.
Arguments self {K} _.
Arguments dev {K} _.

Definition M (K A : Type) : Type := world K -> world K * (exn + A).

Definition ret {K A} (a : A) : M K A := fun w => (w, inr a).
Definition raise {K A} (e : exn) : M K A := fun w => (w, inl e).
Definition bind {K A B} (m : M K A) (f : A -> M K B) : M K B :=
  fun w => match m w with
           | (w', inr a) => f a w'
           | (w', inl e) => (w', inl e)
           end.

Declare Scope py_scope.
Delimit Scope py_scope with py.
Notation "x <- m ;; k" := (bind m (fun x => k))
  (at level 100, m at next level, right associativity) : py_scope.
Notation "m ;;; k" := (bind m (fun _ => k))
  (at level 100, right associativity) : py_scope.
Open Scope py_scope.

Definition get_self {K} : M K K := fun w => (w, inr (self w)).
Definition set_self {K} (k : K) : M K unit :=
  fun w => (World k (dev w), inr tt).

(** [assert c, msg] *)
Definition py_assert {K} (c : bool) (msg : string) : M K unit :=
  if c then ret tt else raise (AssertionError msg).

Definition enqueue {K} (e : event) : M K unit :=
  fun w => (World (self w) (Device (next_ref (dev w)) (stream (dev w) ++ [e])), inr tt).

(** [gpuarray.zeros(shape, dtype)] and [gpuarray.empty(shape, dtype)]:
    a fresh buffer. *)
Definition alloc {K} (zeroed : bool) (sh : list Z) (d : dtype) : M K gpuarray :=
  fun w =>
    let a := GpuArray (next_ref (dev w)) sh d in
    (World (self w) (Device (S (next_ref (dev w))) (stream (dev w) ++ [Alloc a zeroed])),
     inr a).

Definition gpu_zeros {K} := @alloc K true.
Definition gpu_empty {K} := @alloc K false.

Definition run_kernel {K} (k : kernel) (args : list arg)
    (block grid : dim3) (shared : Z) : M K unit :=
  enqueue (Launch (MkLaunch k args block grid shared)).

(** The events a call appended to the stream. *)
Definition new_events (before after : device) : list event :=
  skipn (length (stream before)) (stream after).

(** ** [map2ctype] *)

Definition map2ctype (dt : dtype) : exn + string :=
  match dt with
  | float32 => inr "float"
  | float64 => inr "double"
  | complex64 => inr "complex<float>"
  | complex128 => inr "complex<double>"
  | int32 => inr "int"
  | int64 => inr "long long"
  | float16 => inl (ValueError "No mapping for dtype")
  end.

Definition lift_exn {K A} (r : exn + A) : M K A :=
  match r with inl e => raise e | inr a => ret a end.

(** ** [ArrayUtilsKernel] *)

Record ArrayUtilsKernel : Type := MkArrayUtilsKernel {
  acc_dtype : dtype;
  cdot_cuda : kernel;
  dot_cuda : kernel;
  full_reduce_cuda : kernel;
  Ctmp : option gpuarray
}.

Definition acc_ctype (acc : dtype) : string :=
  if dtype_eqb acc float64 then "double" else "float".

(** [ArrayUtilsKernel.__init__] *)
Definition ArrayUtilsKernel_init (acc : dtype) : ArrayUtilsKernel :=
  {| acc_dtype := acc;
     cdot_cuda := Kernel "dot"
       [("IN_TYPE", "complex<float>"); ("ACC_TYPE", acc_ctype acc)];
     dot_cuda := Kernel "dot"
       [("IN_TYPE", "float"); ("ACC_TYPE", acc_ctype acc)];
     full_reduce_cuda := Kernel "full_reduce"
       [("IN_TYPE", acc_ctype acc); ("OUT_TYPE", acc_ctype acc);
        ("ACC_TYPE", acc_ctype acc); ("BDIM_X", "1024")];
     Ctmp := None |}.

Definition set_Ctmp (k : ArrayUtilsKernel) (c : gpuarray) : ArrayUtilsKernel :=
  {| acc_dtype := acc_dtype k; cdot_cuda := cdot_cuda k; dot_cuda := dot_cuda k;
     full_reduce_cuda := full_reduce_cuda k; Ctmp := Some c |}.

(** The local [elsize] is bound only for the two accumulator types. *)
Definition elsize_of (acc : dtype) : option Z :=
  if dtype_eqb acc float32 then Some 4
  else if dtype_eqb acc float64 then Some 8
  else None.

(** Number of blocks of phase 1: [int((B.size + 1023) // 1024)]. *)
Definition dot_grid (B : gpuarray) : Z := (size B + 1023) / 1024.

(** [self.Ctmp = gpuarray.zeros((n,), dtype=self.acc_dtype)] *)
Definition grow_Ctmp (n : Z) : M ArrayUtilsKernel gpuarray :=
  s <- get_self ;;
  c <- gpu_zeros [n] (acc_dtype s) ;;
  set_self (set_Ctmp s c) ;;;
  ret c.

(** [ArrayUtilsKernel.dot] *)
Definition dot (A B : gpuarray) (out : option gpuarray)
    : M ArrayUtilsKernel gpuarray :=
  py_assert (dtype_eqb (adtype A) (adtype B))
    "Input arrays must be of same data type" ;;;
  py_assert (size A =? size B) "Input arrays must be of the same size" ;;;
  s <- get_self ;;
  out <- match out with
         | None => gpu_zeros [1] (acc_dtype s)
         | Some o => ret o
         end ;;
  let block : dim3 := (1024, 1, 1) in
  let grid : dim3 := (dot_grid B, 1, 1) in
  let elsize := elsize_of (acc_dtype s) in
  (* if self.Ctmp is None or self.Ctmp.size < grid[0]: ...; Ctmp = self.Ctmp *)
  scratch <- match Ctmp s with
             | None => grow_Ctmp (dot_grid B)
             | Some c => if size c <? dot_grid B
                         then grow_Ctmp (dot_grid B) else ret c
             end ;;
  let Ctmp' := if dot_grid B =? 1 then out else scratch in
  elsize <- match elsize with
            | Some e => ret e
            | None => raise UnboundLocalError
            end ;;
  s <- get_self ;;
  run_kernel (if iscomplex (adtype B) then cdot_cuda s else dot_cuda s)
    [ABuf (ref A); ABuf (ref B); AInt32 (np_int32 (size A)); ABuf (ref Ctmp')]
    block grid (1024 * elsize) ;;;
  (if dot_grid B >? 1
   then run_kernel (full_reduce_cuda s)
          [ABuf (ref scratch); ABuf (ref out); AInt32 (np_int32 (dot_grid B))]
          (1024, 1, 1) (1, 1, 1) (elsize * 1024)
   else ret tt) ;;;
  ret out.

(** [ArrayUtilsKernel.norm2] *)
Definition norm2 (A : gpuarray) (out : option gpuarray)
    : M ArrayUtilsKernel gpuarray :=
  dot A A out.

(** A sequence of calls on one instance; a call that raises leaves the
    instance and the device as they were when it raised, and the caller
    goes on. *)
Inductive reduction_call : Type :=
  | CallDot (A B : gpuarray) (out : option gpuarray)
  | CallNorm2 (A : gpuarray) (out : option gpuarray).

Definition run_call (c : reduction_call) (w : world ArrayUtilsKernel)
    : world ArrayUtilsKernel :=
  match c with
  | CallDot A B out => fst (dot A B out w)
  | CallNorm2 A out => fst (norm2 A out w)
  end.

Definition run_calls (cs : list reduction_call) (w : world ArrayUtilsKernel)
    : world ArrayUtilsKernel :=
  fold_left (fun w c => run_call c w) cs w.

(** Capacity of the scratch buffer; an instance without one has none. *)
Definition scratch_size (k : ArrayUtilsKernel) : Z :=
  match Ctmp k with
  | None => 0
  | Some c => size c
  end.

(** ** Shapes: Python indexing and slicing *)

(** [sh[i]] for [i >= 0]. *)
Definition py_index {K} (sh : list Z) (i : nat) : M K Z :=
  match nth_error sh i with
  | Some v => ret v
  | None => raise IndexError
  end.

(** [sh[-i]] for [1 <= i <= len(sh)]; 0 outside, where the callers never look. *)
Definition from_end (sh : list Z) (i : nat) : Z := nth (i - 1) (rev sh) 0.

(** [sh[:-n]] *)
Definition but_last {T} (n : nat) (sh : list T) : list T := firstn (length sh - n) sh.

Definition list_eqb (a b : list Z) : bool :=
  (Nat.eqb (length a) (length b)) && forallb (fun p => fst p =? snd p) (combine a b).

(** ** [TransposeKernel] *)

Record TransposeKernel : Type := MkTransposeKernel {
  transpose_cuda : kernel
}.

Definition TransposeKernel_init : TransposeKernel :=
  {| transpose_cuda := Kernel "transpose" [("DTYPE", "int"); ("BDIM", "16")] |}.

(** [TransposeKernel.transpose] *)
Definition transpose (input output : gpuarray) : M TransposeKernel unit :=
  if negb (Nat.eqb (length (shape input)) 2)
  then raise (ValueError "Only 2D tranpose is supported - reshape as desired")
  else
  i0 <- py_index (shape input) 0 ;;
  o1 <- py_index (shape output) 1 ;;
  flipped0 <- (if negb (i0 =? o1) then ret false
               else i1 <- py_index (shape input) 1 ;;
                    o0 <- py_index (shape output) 0 ;;
                    ret (i1 =? o0)) ;;
  if negb flipped0
  then raise (ValueError "Input/Output must be of flipped shape")
  else
  if negb (dtype_eqb (adtype input) int32) || negb (dtype_eqb (adtype output) int32)
  then raise (ValueError "Only int types are supported at the moment")
  else
  width <- py_index (shape input) 1 ;;
  height <- py_index (shape input) 0 ;;
  let blk : dim3 := (16, 16, 1) in
  let grd : dim3 := ((width + 15) / 16, (height + 15) / 16, 1) in
  s <- get_self ;;
  run_kernel (transpose_cuda s)
    [ABuf (ref input); ABuf (ref output);
     AInt32 (np_int32 width); AInt32 (np_int32 height)]
    blk grd 0.

(** ** [CropPadKernel] *)

Record CropPadKernel : Type := MkCropPadKernel {
  fill3D_cuda : gmap string kernel   (* lazily loaded, keyed by the two C types *)
}.

Definition CropPadKernel_init : CropPadKernel := {| fill3D_cuda := ∅ |}.

(** numpy vectors of three components *)
Definition vec3 : Type := Z * Z * Z.
Definition map3 (f : Z -> Z) (v : vec3) : vec3 :=
  let '(a, b, c) := v in (f a, f b, f c).
Definition zip3 {A} (f : Z -> Z -> A) (u v : vec3) : A * A * A :=
  let '(a, b, c) := u in let '(a', b', c') := v in (f a a', f b b', f c c').
Definition all3 (v : bool * bool * bool) : bool :=
  let '(a, b, c) := v in a && b && c.

(** [np.array(sh[-3:])] *)
Definition last3 (sh : list Z) : vec3 := (from_end sh 3, from_end sh 2, from_end sh 1).

(** [off = np.array(offset)] is an int64 array, as are the extents
    [Alim] and [Blim]: the arithmetic on them wraps to 64 bits.
    [Ao = off.copy(); Ao[Ao < 0] = 0] and [Bo = -off.copy(); Bo[Bo < 0] = 0] *)
Definition A_start (off : vec3) : vec3 := map3 (fun o => if o <? 0 then 0 else o) off.
Definition B_start (off : vec3) : vec3 :=
  map3 (fun o => if np_int64 (- o) <? 0 then 0 else np_int64 (- o)) off.

(** The two overlap lengths of [fill3D]: [min(off + Blim, Alim) - Ao] and
    [min(Alim - off, Blim) - Bo], computed on int64 and stored as int32;
    the start offsets were converted to int32 before. *)
Definition lengths (Alim Blim off : vec3) : vec3 :=
  let Ao := map3 np_int32 (A_start off) in
  zip3 (fun m a => np_int32 (np_int64 (m - a)))
       (zip3 Z.min (zip3 (fun o b => np_int64 (o + b)) off Blim) Alim) Ao.
Definition lengths2 (Alim Blim off : vec3) : vec3 :=
  let Bo := map3 np_int32 (B_start off) in
  zip3 (fun m b => np_int32 (np_int64 (m - b)))
       (zip3 Z.min (zip3 (fun a o => np_int64 (a - o)) Alim off) Blim) Bo.

Definition vec3_eqb (u v : vec3) : bool := all3 (zip3 Z.eqb u v).

(** [not misfit[:-n].any()] where [misfit] is the difference of the shapes *)
Definition leading_match (n : nat) (ash bsh : list Z) : bool :=
  forallb (fun p => fst p - snd p =? 0) (but_last n (combine bsh ash)).

Definition no_overlap_msg : string := "At least one dimension lacks overlap".
Definition mismatch_msg : string := "left and right lenghts are not matching".

(** [CropPadKernel.fill3D]; [offset] is the three-component offset list. *)
Definition fill3D (A B : gpuarray) (offset : vec3) : M CropPadKernel unit :=
  if (ndim A <? 3) || (ndim B <? 3)
  then raise (ValueError "Input arrays must each be at least 3D")
  else
  py_assert (ndim A =? ndim B)
    "Input and Output must have the same number of dimensions." ;;;
  py_assert (leading_match 3 (shape A) (shape B))
    "Input and Output must have the same shape everywhere but the last three axes." ;;;
  let Alim := last3 (shape A) in
  let Blim := last3 (shape B) in
  let off := offset in
  let Ao := A_start off in
  let Bo := B_start off in
  py_assert (all3 (zip3 Z.ltb Bo Blim) && all3 (zip3 Z.ltb Ao Alim))
    no_overlap_msg ;;;
  let Ao := map3 np_int32 Ao in
  let Bo := map3 np_int32 Bo in
  let len := lengths Alim Blim off in
  let len2 := lengths2 Alim Blim off in
  py_assert (vec3_eqb len len2) mismatch_msg ;;;
  let batch := prod (but_last 3 (shape A)) in
  (* lazy loading depending on data type *)
  tb <- lift_exn (map2ctype (adtype B)) ;;
  ta <- lift_exn (map2ctype (adtype A)) ;;
  let version := (tb ++ "," ++ ta)%string in
  s <- get_self ;;
  k <- match fill3D_cuda s !! version with
       | Some k => ret k
       | None =>
           let k := Kernel "fill3D" [("IN_TYPE", tb); ("OUT_TYPE", ta)] in
           set_self {| fill3D_cuda := <[version := k]> (fill3D_cuda s) |} ;;;
           ret k
       end ;;
  let bx := 32 in
  let by_ := 32 in
  let '(a3, a2, a1) := Alim in
  let '(b3, b2, b1) := Blim in
  let '(ao0, ao1, ao2) := Ao in
  let '(bo0, bo1, bo2) := Bo in
  let '(l0, l1, l2) := len in
  run_kernel k
    [ABuf (ref A); ABuf (ref B);
     AInt32 (np_int32 a3); AInt32 (np_int32 a2); AInt32 (np_int32 a1);
     AInt32 (np_int32 b3); AInt32 (np_int32 b2); AInt32 (np_int32 b1);
     AInt32 ao0; AInt32 ao1; AInt32 ao2;
     AInt32 bo0; AInt32 bo1; AInt32 bo2;
     AInt32 l0; AInt32 l1; AInt32 l2]
    (bx, by_, 1)
    ((l2 + bx - 1) / bx, (l1 + by_ - 1) / by_, batch)
    0.

(** [A.reshape((1,) + A.shape)]: a view of the same buffer. *)
Definition reshape_batched (a : gpuarray) : gpuarray :=
  GpuArray (ref a) (1 :: shape a) (adtype a).

(** The offset [crop_pad_2d_simple] hands to [fill3D]. *)
Definition center_offset (A B : gpuarray) : vec3 :=
  let a1 := from_end (shape A) 2 in
  let a2 := from_end (shape A) 1 in
  let b1 := from_end (shape B) 2 in
  let b2 := from_end (shape B) 1 in
  (0, a1 / 2 - b1 / 2, a2 / 2 - b2 / 2).

(** [CropPadKernel.crop_pad_2d_simple] *)
Definition crop_pad_2d_simple (A B : gpuarray) : M CropPadKernel unit :=
  py_assert (ndim A >=? 2) "Arrays must have more than 2 dimensions." ;;;
  py_assert (ndim A =? ndim B)
    "Input and Output must have the same number of dimensions." ;;;
  py_assert (leading_match 2 (shape B) (shape A))
    "Input and Output must have the same shape everywhere but the last two axes." ;;;
  let A := if ndim A =? 2 then reshape_batched A else A in
  let B := if ndim B =? 2 then reshape_batched B else B in
  let offset := center_offset A B in
  fill3D A B offset.

(** ** [GaussianSmoothingKernel] *)

Record GaussianSmoothingKernel : Type := MkGaussianSmoothingKernel {
  kernel_type : string;
  num_stdevs : pyfloat;
  blockdim_x : Z;
  blockdim_y : Z;
  max_shared_per_block : Z;
  max_shared_per_block_complex : Q;
  max_kernel_radius : Z;
  convolution_row : kernel;
  convolution_col : kernel;
  kernel_gpu : gpuarray;
  cached_r : Z;       (* self.r *)
  cached_std : pyfloat      (* self.std *)
}.

(** The fields [GaussianSmoothingKernel.__init__] sets, the tap buffer
    being the fresh buffer [kg_ref]. *)
Definition GaussianSmoothingKernel_fields (nstd : pyfloat) (ktype : string) (kg_ref : nat)
    : GaussianSmoothingKernel :=
  let bdx := 4 in
  let bdy := 16 in
  (* At least 2 blocks per SM *)
  let msb := 48 * 1024 / 2 in
  let msbc := (inject_Z msb / 2 * 4)%Q in
  let mkr := py_int (msbc / inject_Z bdy)%Q in
  {| kernel_type := ktype;
     num_stdevs := nstd;
     blockdim_x := bdx;
     blockdim_y := bdy;
     max_shared_per_block := msb;
     max_shared_per_block_complex := msbc;
     max_kernel_radius := mkr;
     convolution_row := Kernel "convolution_row"
       [("BDIM_X", "4"); ("BDIM_Y", "16");
        ("DTYPE", "complex<float>"); ("MATH_TYPE", ktype)];
     convolution_col := Kernel "convolution_col"
       [("BDIM_X", "16"); ("BDIM_Y", "4");
        ("DTYPE", "complex<float>"); ("MATH_TYPE", ktype)];
     (* pre-allocate kernel memory on gpu, with max-radius to accomodate *)
     kernel_gpu := GpuArray kg_ref [mkr]
                     (if String.eqb ktype "float" then float32 else float64);
     cached_r := 0;
     cached_std := Finite 0 |}.

(** [GaussianSmoothingKernel.__init__]; it allocates the tap buffer. *)
Definition GaussianSmoothingKernel_init (nstd : pyfloat) (ktype : string) (d : device)
    : device * (exn + GaussianSmoothingKernel) :=
  if negb (String.eqb ktype "float" || String.eqb ktype "double")
  then (d, inl (ValueError "Invalid data type for kernel"))
  else
    let k := GaussianSmoothingKernel_fields nstd ktype (next_ref d) in
    (Device (S (next_ref d)) (stream d ++ [Alloc (kernel_gpu k) false]), inr k).

Definition set_taps (k : GaussianSmoothingKernel) (r : Z) (std : pyfloat)
    : GaussianSmoothingKernel :=
  {| kernel_type := kernel_type k; num_stdevs := num_stdevs k;
     blockdim_x := blockdim_x k; blockdim_y := blockdim_y k;
     max_shared_per_block := max_shared_per_block k;
     max_shared_per_block_complex := max_shared_per_block_complex k;
     max_kernel_radius := max_kernel_radius k;
     convolution_row := convolution_row k; convolution_col := convolution_col k;
     kernel_gpu := kernel_gpu k;
     cached_r := r; cached_std := std |}.

(** The activation threshold [0.1] of a pass: the double nearest to
    1/10, which is 3602879701896397 / 2^55. *)
Definition threshold : pyfloat := Finite (3602879701896397 # 36028797018963968).

(** The literal [0.5] *)
Definition half : pyfloat := Finite (1 # 2).

(** [int(self.num_stdevs * std + 0.5)] *)
Definition radius (k : GaussianSmoothingKernel) (std : pyfloat) : exn + Z :=
  int_of_float (fadd (fmul (num_stdevs k) std) half).

(** [if r != self.r or std != self.std:] recalculate the taps and transfer them. *)
Definition update_taps (r : Z) (std : pyfloat) : M GaussianSmoothingKernel unit :=
  s <- get_self ;;
  if negb (r =? cached_r s) || negb (feq std (cached_std s))
  then enqueue (Upload (ref (kernel_gpu s)) r std) ;;;
       set_self (set_taps s r std)
  else ret tt.

(** [np.dtype(np.complex64).itemsize] *)
Definition complex64_itemsize : Z := 8.

(** The row pass: the body of [if stdx > 0.1:] up to the launch. *)
Definition row_pass (stdx : pyfloat) (y x batches : Z) (input output : gpuarray)
    : M GaussianSmoothingKernel unit :=
  s <- get_self ;;
  r <- lift_exn (radius s stdx) ;;
  if r >? max_kernel_radius s
  then raise (ValueError "Size of Gaussian kernel too large")
  else
  update_taps r stdx ;;;
  let bx := blockdim_x s in
  let by_ := blockdim_y s in
  let shared := (bx + 2 * r) * by_ * complex64_itemsize in
  if shared >? max_shared_per_block s
  then raise (MemoryError "Cannot run kernel in shared memory")
  else
  let blk : dim3 := (bx, by_, 1) in
  let grd : dim3 := ((y + bx - 1) / bx, (x + by_ - 1) / by_, batches) in
  run_kernel (convolution_row s)
    [ABuf (ref input); ABuf (ref output); AInt32 (np_int32 y); AInt32 (np_int32 x);
     ABuf (ref (kernel_gpu s)); AInt32 (np_int32 r)]
    blk grd shared.

(** The column pass: the body of [if stdy > 0.1:]. *)
Definition col_pass (stdy : pyfloat) (y x batches : Z) (input output : gpuarray)
    : M GaussianSmoothingKernel unit :=
  s <- get_self ;;
  r <- lift_exn (radius s stdy) ;;
  if r >? max_kernel_radius s
  then raise (ValueError "Size of Gaussian kernel too large")
  else
  update_taps r stdy ;;;
  let bx := blockdim_y s in
  let by_ := blockdim_x s in
  let shared := (by_ + 2 * r) * bx * complex64_itemsize in
  if shared >? max_shared_per_block s
  then raise (MemoryError "Cannot run kernel in shared memory")
  else
  let blk : dim3 := (bx, by_, 1) in
  let grd : dim3 := ((y + bx - 1) / bx, (x + by_ - 1) / by_, batches) in
  run_kernel (convolution_col s)
    [ABuf (ref input); ABuf (ref output); AInt32 (np_int32 y); AInt32 (np_int32 x);
     ABuf (ref (kernel_gpu s)); AInt32 (np_int32 r)]
    blk grd shared.

(** The unpacking of [shape] and [mfs] by number of dimensions:
    [(batches, y, x, stdy, stdx)]; [None] in the [else] branch. *)
Definition unpack_dims (sh : list Z) (mfs : pyfloat * pyfloat)
    : option (Z * Z * Z * pyfloat * pyfloat) :=
  match sh with
  | [batches; y; x] => Some (batches, y, x, fst mfs, snd mfs)
  | [y; x] => Some (1, y, x, fst mfs, snd mfs)
  | [y] => Some (1, y, 1, fst mfs, Finite 0)
  | _ => None
  end.

(** [shape == tmp.shape and data.dtype == tmp.dtype] *)
Definition same_layout (data tmp : gpuarray) : bool :=
  list_eqb (shape data) (shape tmp) && dtype_eqb (adtype data) (adtype tmp).

(** [GaussianSmoothingKernel.convolution] *)
Definition convolution (data : gpuarray) (mfs : pyfloat * pyfloat) (tmp : option gpuarray)
    : M GaussianSmoothingKernel unit :=
  let shape_ := shape data in
  (* Create temporary array (if not given) *)
  tmp <- match tmp with
         | None => gpu_empty shape_ (adtype data)
         | Some t => ret t
         end ;;
  py_assert (same_layout data tmp) "" ;;;
  (* Check input dimensions *)
  dims <- match unpack_dims shape_ mfs with
          | Some dims => ret dims
          | None => raise (NotImplementedError
                             "input needs to be of dimensions 0 < ndims <= 3")
          end ;;
  let '(batches, y, x, stdy, stdx) := dims in
  let input := data in
  let output := tmp in
  (* Row convolution kernel *)
  io <- (if fgt stdx threshold
         then row_pass stdx y x batches input output ;;;
              ret (output, data)
         else ret (input, output)) ;;
  let '(input, output) := io in
  (* Column convolution kernel *)
  (if fgt stdy threshold
   then col_pass stdy y x batches input output
   else ret tt) ;;;
  if fle stdx threshold && fle stdy threshold
  then ret tt     (* nothing to do *)
  else if fgt stdx threshold && fgt stdy threshold
  then ret tt     (* both parts have run, output is back in data *)
  else enqueue (Copy (ref data) (ref tmp)).
                  (* only one of them has run, output is in tmp *)

(** ** [MassCenterKernel] *)

Record MassCenterKernel : Type := MkMassCenterKernel {
  threadsPerBlock : Z;
  indexed_sum_middim_cuda : kernel;
  indexed_sum_lastdim_cuda : kernel;
  final_sums_cuda : kernel
}.

Definition MassCenterKernel_init : MassCenterKernel :=
  {| threadsPerBlock := 256;
     indexed_sum_middim_cuda := Kernel "indexed_sum_middim"
       [("IN_TYPE", "float"); ("BDIM_X", "256"); ("BDIM_Y", "1")];
     indexed_sum_lastdim_cuda := Kernel "indexed_sum_lastdim"
       [("IN_TYPE", "float"); ("BDIM_X", "32"); ("BDIM_Y", "32")];
     final_sums_cuda := Kernel "final_sums"
       [("IN_TYPE", "float"); ("BDIM_X", "256"); ("BDIM_Y", "1")] |}.

(** Length of the output vector: [3 if n>1 else 2]. *)
Definition out_len (n : Z) : Z := if n >? 1 then 3 else 2.

(** [MassCenterKernel.mass_center]; [total] is the value that
    [gpuarray.sum(array).get()] reads back from the device. *)
Definition mass_center (array : gpuarray) (total : Q) : M MassCenterKernel gpuarray :=
  if negb (dtype_eqb (adtype array) float32)
  then raise (NotImplementedError "mass_center is only implemented for float32")
  else
  sh0 <- py_index (shape array) 0 ;;
  sh1 <- py_index (shape array) 1 ;;
  let i := np_int32 sh0 in
  let m := np_int32 sh1 in
  n <- (if ndim array >=? 3
        then sh2 <- py_index (shape array) 2 ;; ret (np_int32 sh2)
        else ret (np_int32 1)) ;;
  enqueue (SumGet (ref array)) ;;;
  sc <- (if Qeq_bool total 0 then raise ZeroDivisionError else ret (1 / total)%Q) ;;
  i_sum <- gpu_empty [sh0] float32 ;;
  m_sum <- gpu_empty [sh1] float32 ;;
  n_sum <- gpu_empty [n] float32 ;;
  out <- gpu_empty [out_len n] float32 ;;
  s <- get_self ;;
  (* sum all dims except the first, multiplying by the index and scaling factor *)
  run_kernel (indexed_sum_middim_cuda s)
    [ABuf (ref array); ABuf (ref i_sum); AInt32 (np_int32 1); AInt32 i;
     AInt32 (np_int32 (n * m)); AFloat32 sc]
    (threadsPerBlock s, 1, 1) (i, 1, 1) (threadsPerBlock s * 4) ;;;
  (if ndim array >=? 3
   then
     (* 3d case *)
     run_kernel (indexed_sum_middim_cuda s)
       [ABuf (ref array); ABuf (ref m_sum); AInt32 i; AInt32 n; AInt32 m; AFloat32 sc]
       (threadsPerBlock s, 1, 1) (m, 1, 1) (threadsPerBlock s * 4) ;;;
     run_kernel (indexed_sum_lastdim_cuda s)
       [ABuf (ref array); ABuf (ref n_sum); AInt32 (np_int32 (i * m)); AInt32 n;
        AFloat32 sc]
       (32, 32, 1) (1, (n + 32 - 1) / 32, 1) (32 * 32 * 4)
   else
     (* 2d case *)
     run_kernel (indexed_sum_lastdim_cuda s)
       [ABuf (ref array); ABuf (ref m_sum); AInt32 i; AInt32 m; AFloat32 sc]
       (32, 32, 1) (1, (m + 32 - 1) / 32, 1) (32 * 32 * 4)) ;;;
  run_kernel (final_sums_cuda s)
    [ABuf (ref i_sum); AInt32 i; ABuf (ref m_sum); AInt32 m; ABuf (ref n_sum);
     AInt32 n; ABuf (ref out)]
    (256, 1, 1) (out_len n, 1, 1) (256 * 4) ;;;
  ret out.

(** ** [InterpolatedShiftKernel] *)

Record InterpolatedShiftKernel : Type := MkInterpolatedShiftKernel {
  integer_shift_cuda : kernel;
  linear_interpolate_cuda : kernel
}.

Definition shift_subs : list (string * string) :=
  [("IN_TYPE", "complex<float>"); ("OUT_TYPE", "complex<float>");
   ("BDIM_X", "32"); ("BDIM_Y", "32")].

Definition InterpolatedShiftKernel_init : InterpolatedShiftKernel :=
  {| integer_shift_cuda := Kernel "integer_shift_kernel" shift_subs;
     linear_interpolate_cuda := Kernel "linear_interpolate_kernel" shift_subs |}.

(** The tolerance [1e-6] on a fractional part: the double nearest to
    1/1000000, which is 4722366482869645 / 2^72. *)
Definition epsilon : pyfloat := Finite (4722366482869645 # 4722366482869645213696).

(** [np.abs(frac) < 1e-6], on a [np.float32] and a Python float: numpy
    (before 2.0, for which this module is written) compares the two as
    doubles, and [frac] is a double as it is. *)
Definition frac_is_zero (frac : pyfloat) : bool := flt (fabs frac) epsilon.

(** [InterpolatedShiftKernel.interpolate_shift] *)
Definition interpolate_shift (array : gpuarray) (shift : list pyfloat)
    : M InterpolatedShiftKernel gpuarray :=
  let shift := map to_float32 shift in
  match shift with
  | [offsetRow; offsetCol] =>
      if negb (dtype_eqb (adtype array) complex64)
      then raise (NotImplementedError "Only complex single precision supported")
      else
      dims <- match shape array with
              | [items; rows; columns] => ret (items, rows, columns)
              | [rows; columns] => ret (1, rows, columns)
              | _ => raise (NotImplementedError
                              "Only 2- or 3-dimensional arrays supported")
              end ;;
      let '(items, rows, columns) := dims in
      let '(offsetRowFrac, offsetRowInt) := np_modf offsetRow in
      let '(offsetColFrac, offsetColInt) := np_modf offsetCol in
      out <- gpu_empty (shape array) (adtype array) ;;
      let block_ : dim3 := (32, 32, 1) in
      let grid_ : dim3 := ((rows + 31) / 32, (columns + 31) / 32, items) in
      s <- get_self ;;
      if frac_is_zero offsetRowFrac && frac_is_zero offsetColFrac
      then
        if feq offsetRowInt (Finite 0) && feq offsetColInt (Finite 0)
        then
          (* no transformation at all *)
          ret array
        else
          (* no fractional part, so we can just use a shifted copy *)
          run_kernel (integer_shift_cuda s)
            [ABuf (ref array); ABuf (ref out); AInt32 (np_int32 rows);
             AInt32 (np_int32 columns); int32_of_float offsetRow;
             int32_of_float offsetCol]
            block_ grid_ 0 ;;;
          ret out
      else
        run_kernel (linear_interpolate_cuda s)
          [ABuf (ref array); ABuf (ref out); AInt32 (np_int32 rows);
           AInt32 (np_int32 columns); AFloat offsetRow; AFloat offsetCol]
          block_ grid_ ((32 + 2) ^ 2 * 8 + 32 * (32 + 2) * 8) ;;;
        ret out
  | _ => raise (NotImplementedError "Shift only applied to 2D array.")
  end.

(** ** Device memory under the events of a convolution

    The kernels are external: what a launch of a convolution kernel
    leaves in its output buffer is some function [conv_result] of the
    launch and of the device memory it finds, and it writes nothing
    else; [taps_result] is what an upload leaves in the tap buffer. *)

Section DeviceMemory.
Context {contents : Type}.
Variable conv_result : launch -> gmap nat contents -> contents.
Variable taps_result : Z -> pyfloat -> gmap nat contents -> contents.
Variable zero_contents : gpuarray -> contents.

(** The output buffer of a convolution launch: its second argument. *)
Definition output_of (l : launch) : option nat :=
  match largs l with
  | _ :: ABuf o :: _ => Some o
  | _ => None
  end.

Definition input_of (l : launch) : option nat :=
  match largs l with
  | ABuf i :: _ => Some i
  | _ => None
  end.

Definition exec_event (h : gmap nat contents) (e : event) : gmap nat contents :=
  match e with
  | Alloc a true => <[ref a := zero_contents a]> h
  | Alloc a false => h          (* uninitialised: the memory is what it was *)
  | Launch l =>
      match output_of l with
      | Some o => <[o := conv_result l h]> h
      | None => h
      end
  | Upload dst r std => <[dst := taps_result r std h]> h
  | Copy dst src =>
      match h !! src with
      | Some c => <[dst := c]> h
      | None => delete dst h
      end
  | SumGet _ => h
  end.

Definition exec_events (es : list event) (h : gmap nat contents)
    : gmap nat contents :=
  fold_left exec_event es h.
End DeviceMemory.

(** ** Vocabulary of the properties *)

(** One scratch state is no larger than another. *)
Definition scratch_le (a b : option gpuarray) : Prop :=
  match a, b with
  | None, _ => True
  | Some c, Some c' => size c <= size c'
  | Some _, None => False
  end.

Definition call_grid (c : reduction_call) : Z :=
  match c with
  | CallDot _ B _ => dot_grid B
  | CallNorm2 A _ => dot_grid A
  end.

(** The two assertions at the head of [dot] pass. *)
Definition call_valid (c : reduction_call) : bool :=
  match c with
  | CallDot A B _ => dtype_eqb (adtype A) (adtype B) && (size A =? size B)
  | CallNorm2 A _ => true
  end.



(** Overlap of [B], placed at offset [o], with [A] along one axis of extents
    [a] and [b]: [min(o + b, a) - max(o, 0)]. *)
Definition overlap (a b o : Z) : Z := Z.min (o + b) a - Z.max o 0.

Definition overlap3 (Alim Blim off : vec3) : vec3 :=
  let '(a0, a1, a2) := Alim in
  let '(b0, b1, b2) := Blim in
  let '(o0, o1, o2) := off in
  (overlap a0 b0 o0, overlap a1 b1 o1, overlap a2 b2 o2).

Definition some_nonpositive (v : vec3) : Prop :=
  let '(x, y, z) := v in x <= 0 \/ y <= 0 \/ z <= 0.

(** The offset on an axis that is past the end of both arrays, or before
    the start by more than both extents. *)
Definition beyond_both (a b o : Z) : Prop :=
  (a <= o /\ b <= o) \/ (o <= - a /\ o <= - b).

(** The array [crop_pad_2d_simple] works on: a two-dimensional array is
    viewed as a batch of one. *)
Definition batched (a : gpuarray) : gpuarray :=
  if ndim a =? 2 then reshape_batched a else a.

(** The correction by which [a // 2 - b // 2] exceeds [(a - b) // 2]. *)
Definition half_excess (a b : Z) : Z := if Z.even a && Z.odd b then 1 else 0.

(** The third extent as [mass_center] sees it: [n]. *)
Definition third_extent (a : gpuarray) : Z :=
  match shape a with
  | _ :: _ :: e :: _ => np_int32 e
  | _ => np_int32 1
  end.

(** The rational [q] is the sum of the integer [n] and the fraction [f],
    which is below 1 in magnitude and has the sign of [q]. *)
Definition splits (q : Q) (n : Z) (f : Q) : Prop :=
  (q == inject_Z n + f)%Q /\ (Qabs f < 1)%Q /\
  ((0 <= q)%Q -> (0 <= f)%Q) /\ ((q <= 0)%Q -> (f <= 0)%Q).

(** The fractional and the integral part of a float: of a finite value
    the fraction and the integer it splits into, of an infinity zero and
    the infinity, of NaN twice NaN. *)
Inductive parts_of : pyfloat -> pyfloat -> pyfloat -> Prop :=
  | parts_finite q n f :
      splits q n f -> parts_of (Finite q) (Finite f) (Finite (inject_Z n))
  | parts_posinf : parts_of PosInf (Finite 0) PosInf
  | parts_neginf : parts_of NegInf (Finite 0) NegInf
  | parts_nan : parts_of NaN NaN NaN.

(** The values of [1e-6] as a double and as a float32; the second is the
    smaller one.  A float32 below the second is below [1e-6] whether the
    comparison is made in double or in single precision. *)
Definition eps64 : Q := 4722366482869645 # 4722366482869645213696.
Definition eps32 : Q := 8796093 # 8796093022208.

(** A float that is finite and of magnitude below [e]; a float that is
    not, NaN included. *)
Definition below (e : Q) (x : pyfloat) : Prop :=
  match x with
  | Finite f => (Qabs f < e)%Q
  | _ => False
  end.
Definition at_least (e : Q) (x : pyfloat) : Prop :=
  match x with
  | Finite f => (e <= Qabs f)%Q
  | _ => True
  end.

(** A float that is zero. *)
Definition is_zero (x : pyfloat) : Prop :=
  match x with
  | Finite q => (q == 0)%Q
  | _ => False
  end.

(** The temporary array [convolution] works with: the one given, or the
    fresh one it allocates. *)
Definition the_tmp (d : device) (data : gpuarray) (tmp : option gpuarray) : gpuarray :=
  match tmp with
  | Some t => t
  | None => GpuArray (next_ref d) (shape data) (adtype data)
  end.

(** The radius of a pass whose conversion to an integer goes through. *)
Definition radius_value (s : GaussianSmoothingKernel) (std : pyfloat) : Z :=
  match radius s std with
  | inr r => r
  | inl _ => 0
  end.

(** The launches of the row and of the column pass. *)
Definition row_launch (s : GaussianSmoothingKernel) (stdx : pyfloat) (y x batches : Z)
    (input output : gpuarray) : launch :=
  MkLaunch (convolution_row s)
    [ABuf (ref input); ABuf (ref output); AInt32 (np_int32 y); AInt32 (np_int32 x);
     ABuf (ref (kernel_gpu s)); AInt32 (np_int32 (radius_value s stdx))]
    (blockdim_x s, blockdim_y s, 1)
    ((y + blockdim_x s - 1) / blockdim_x s, (x + blockdim_y s - 1) / blockdim_y s,
     batches)
    ((blockdim_x s + 2 * radius_value s stdx) * blockdim_y s * complex64_itemsize).

Definition col_launch (s : GaussianSmoothingKernel) (stdy : pyfloat) (y x batches : Z)
    (input output : gpuarray) : launch :=
  MkLaunch (convolution_col s)
    [ABuf (ref input); ABuf (ref output); AInt32 (np_int32 y); AInt32 (np_int32 x);
     ABuf (ref (kernel_gpu s)); AInt32 (np_int32 (radius_value s stdy))]
    (blockdim_y s, blockdim_x s, 1)
    ((y + blockdim_y s - 1) / blockdim_y s, (x + blockdim_x s - 1) / blockdim_x s,
     batches)
    ((blockdim_x s + 2 * radius_value s stdy) * blockdim_y s * complex64_itemsize).

(** The ways a pass can go: the conversion of the radius to an integer
    raises, the radius is too large, the shared memory does not suffice,
    or the kernel is launched. *)
Inductive pass_result : Type :=
  | PassConvert (e : exn)
  | PassRadius
  | PassShared
  | PassOk.

Definition pass_check (s : GaussianSmoothingKernel) (std : pyfloat) : pass_result :=
  match radius s std with
  | inl e => PassConvert e
  | inr r =>
      if r >? max_kernel_radius s then PassRadius
      else if (blockdim_x s + 2 * r) * blockdim_y s * complex64_itemsize
                >? max_shared_per_block s
           then PassShared
           else PassOk
  end.

(** The standard deviation of a pass exceeds 0.1, the double nearest to
    1/10: the pass is active; it is at most 0.1: the pass is at rest.  A
    NaN is neither. *)
Definition tenth : Q := 3602879701896397 # 36028797018963968.
Definition active (std : pyfloat) : bool :=
  match std with
  | Finite q => Qltb tenth q
  | PosInf => true
  | NegInf | NaN => false
  end.
Definition at_rest (std : pyfloat) : bool :=
  match std with
  | Finite q => Qle_bool q tenth
  | NegInf => true
  | PosInf | NaN => false
  end.

(** Instance and events of [update_taps]. *)
Definition taps_changed (s : GaussianSmoothingKernel) (r : Z) (std : pyfloat) : bool :=
  negb (r =? cached_r s) || negb (feq std (cached_std s)).
Definition tap_self (s : GaussianSmoothingKernel) (std : pyfloat)
    : GaussianSmoothingKernel :=
  if taps_changed s (radius_value s std) std
  then set_taps s (radius_value s std) std else s.
Definition tap_events (s : GaussianSmoothingKernel) (std : pyfloat) : list event :=
  if taps_changed s (radius_value s std) std
  then [Upload (ref (kernel_gpu s)) (radius_value s std) std] else [].

(** The device with more events enqueued. *)
Definition more (d : device) (es : list event) : device :=
  Device (next_ref d) (stream d ++ es).

Definition too_large : exn := ValueError "Size of Gaussian kernel too large".
Definition no_shared : exn := MemoryError "Cannot run kernel in shared memory".


(** An instance as [GaussianSmoothingKernel()] constructs it on a new
    device, and the device after the construction. *)
Definition gauss : GaussianSmoothingKernel :=
  GaussianSmoothingKernel_fields (Finite 4) "float" 0.
Definition gauss_dev : device := Device 2 [Alloc (kernel_gpu gauss) false].

(** Devices of the example runs. *)
Definition reduction_dev : device := Device 4 [].
Definition crop_dev : device := Device 2 [].
Definition centroid_dev : device := Device 1 [].
Definition shift_dev : device := Device 1 [].

(** ** Python indexing and slicing with signed indices *)

(** [sh[i]] for any integer [i]: counted from the end when negative. *)
Definition py_getitem {K} (sh : list Z) (i : Z) : M K Z :=
  let n := Z.of_nat (length sh) in
  let j := if i <? 0 then i + n else i in
  if (0 <=? j) && (j <? n)
  then ret (nth (Z.to_nat j) sh 0)
  else raise IndexError.

(** The start or stop of a slice, as Python clamps it to [0 .. len]. *)
Definition slice_bound (sh : list Z) (i : Z) : nat :=
  let n := Z.of_nat (length sh) in
  Z.to_nat (Z.max 0 (Z.min n (if i <? 0 then i + n else i))).

(** [sh[i:]] and [sh[:i]] *)
Definition py_slice_from (sh : list Z) (i : Z) : list Z := skipn (slice_bound sh i) sh.
Definition py_slice_to (sh : list Z) (i : Z) : list Z := firstn (slice_bound sh i) sh.

(** ** [MaxAbs2Kernel] *)

Record max_abs2_entry : Type := MkMaxAbs2Entry {
  step1 : kernel;
  step2 : kernel;
  scratchmem : gpuarray
}.

Record MaxAbs2Kernel : Type := MkMaxAbs2Kernel {
  max_abs2_cuda : gmap string max_abs2_entry   (* kernels and scratch, lazily loaded *)
}.

Definition MaxAbs2Kernel_init : MaxAbs2Kernel := {| max_abs2_cuda := ∅ |}.

(** ['{},{},{}'.format(tin, tout, gy)] *)
Definition max_abs2_version (tin tout : string) (gy : Z) : string :=
  (tin ++ "," ++ tout ++ "," ++ pretty gy)%string.

(** [MaxAbs2Kernel.max_abs2] *)
Definition max_abs2 (X out : gpuarray) : M MaxAbs2Kernel unit :=
  sh2 <- py_getitem (shape X) (-2) ;;
  let rows := np_int32 sh2 in
  sh1 <- py_getitem (shape X) (-1) ;;
  let cols := np_int32 sh1 in
  let firstdims := np_int32 (prod (py_slice_to (shape X) (-2))) in
  let gy := rows in
  (* lazy-loading, keeping scratch memory and both kernels in the same dictionary *)
  let bx := 64 in
  tin <- lift_exn (map2ctype (adtype X)) ;;
  tout <- lift_exn (map2ctype (adtype out)) ;;
  let version := max_abs2_version tin tout gy in
  s <- get_self ;;
  entry <- match max_abs2_cuda s !! version with
           | Some entry => ret entry
           | None =>
               let subs := [("IN_TYPE", tin); ("OUT_TYPE", tout); ("BDIM_X", "64")] in
               scratch <- gpu_empty [gy] (adtype out) ;;
               let entry := {| step1 := Kernel "max_abs2_step1" subs;
                               step2 := Kernel "max_abs2_step2" subs;
                               scratchmem := scratch |} in
               set_self {| max_abs2_cuda := <[version := entry]> (max_abs2_cuda s) |} ;;;
               ret entry
           end ;;
  let scratch := scratchmem entry in
  run_kernel (step1 entry)
    [ABuf (ref X); AInt32 firstdims; AInt32 rows; AInt32 cols; ABuf (ref scratch)]
    (bx, 1, 1) (1, gy, 1) 0 ;;;
  run_kernel (step2 entry)
    [ABuf (ref scratch); AInt32 (np_int32 gy); ABuf (ref out)]
    (bx, 1, 1) (1, 1, 1) 0.

(** ** [DerivativesKernel] *)

Record DerivativesKernel : Type := MkDerivativesKernel {
  dk_dtype : dtype;                 (* self.dtype *)
  last_axis_block : dim3;
  mid_axis_block : dim3;
  delxf_last : kernel;
  delxf_mid : kernel;
  delxb_last : kernel;
  delxb_mid : kernel
}.

Definition delx_subs (forward stype : string) : list (string * string) :=
  [("IS_FORWARD", forward); ("BDIM_X", "256"); ("BDIM_Y", "4");
   ("IN_TYPE", stype); ("OUT_TYPE", stype)].

(** [DerivativesKernel.__init__] *)
Definition DerivativesKernel_init (dt : dtype) : exn + DerivativesKernel :=
  match (if dtype_eqb dt float32 then Some "float"
         else if dtype_eqb dt complex64 then Some "complex<float>"
         else None) with
  | None => inl (NotImplementedError
                   "delxf is only implemented for float32 and complex64")
  | Some stype =>
      inr {| dk_dtype := dt;
             last_axis_block := (256, 4, 1);
             mid_axis_block := (256, 4, 1);
             delxf_last := Kernel "delx_last" (delx_subs "true" stype);
             delxf_mid := Kernel "delx_mid" (delx_subs "true" stype);
             delxb_last := Kernel "delx_last" (delx_subs "false" stype);
             delxb_mid := Kernel "delx_mid" (delx_subs "false" stype) |}
  end.

Definition dim_x (b : dim3) : Z := fst (fst b).
Definition dim_y (b : dim3) : Z := snd (fst b).

(** [DerivativesKernel.delxf] *)
Definition delxf (input out : gpuarray) (axis : Z) : M DerivativesKernel unit :=
  s <- get_self ;;
  if negb (dtype_eqb (adtype input) (dk_dtype s))
  then raise (ValueError "Invalid input data type")
  else
  let axis := if axis <? 0 then ndim input + axis else axis in
  let axis := np_int32 axis in
  if axis =? ndim input - 1
  then
    let flat_dim := np_int32 (prod (py_slice_to (shape input) (-1))) in
    extent <- py_getitem (shape input) axis ;;
    run_kernel (delxf_last s)
      [ABuf (ref input); ABuf (ref out); AInt32 flat_dim; AInt32 (np_int32 extent)]
      (last_axis_block s)
      ((flat_dim + dim_y (last_axis_block s) - 1) / dim_y (last_axis_block s), 1, 1)
      0
  else
    let lower_dim := np_int32 (prod (py_slice_from (shape input) (axis + 1))) in
    let higher_dim := np_int32 (prod (py_slice_to (shape input) axis)) in
    let gx := (lower_dim + dim_x (mid_axis_block s) - 1) / dim_x (mid_axis_block s) in
    let gy := 1 in
    let gz := higher_dim in
    extent <- py_getitem (shape input) axis ;;
    run_kernel (delxf_mid s)
      [ABuf (ref input); ABuf (ref out); AInt32 lower_dim; AInt32 higher_dim;
       AInt32 (np_int32 extent)]
      (mid_axis_block s) (gx, gy, gz) 0.

(** [DerivativesKernel.delxb] *)
Definition delxb (input out : gpuarray) (axis : Z) : M DerivativesKernel unit :=
  s <- get_self ;;
  if negb (dtype_eqb (adtype input) (dk_dtype s))
  then raise (ValueError "Invalid input data type")
  else
  let axis := if axis <? 0 then ndim input + axis else axis in
  let axis := np_int32 axis in
  if axis =? ndim input - 1
  then
    let flat_dim := np_int32 (prod (py_slice_to (shape input) (-1))) in
    extent <- py_getitem (shape input) axis ;;
    run_kernel (delxb_last s)
      [ABuf (ref input); ABuf (ref out); AInt32 flat_dim; AInt32 (np_int32 extent)]
      (last_axis_block s)
      ((flat_dim + dim_y (last_axis_block s) - 1) / dim_y (last_axis_block s), 1, 1)
      0
  else
    let lower_dim := np_int32 (prod (py_slice_from (shape input) (axis + 1))) in
    let higher_dim := np_int32 (prod (py_slice_to (shape input) axis)) in
    let gx := (lower_dim + dim_x (mid_axis_block s) - 1) / dim_x (mid_axis_block s) in
    let gy := 1 in
    let gz := higher_dim in
    extent <- py_getitem (shape input) axis ;;
    run_kernel (delxb_mid s)
      [ABuf (ref input); ABuf (ref out); AInt32 lower_dim; AInt32 higher_dim;
       AInt32 (np_int32 extent)]
      (mid_axis_block s) (gx, gy, gz) 0.

(** ** [ClipMagnitudesKernel] *)

Record ClipMagnitudesKernel : Type := MkClipMagnitudesKernel {
  clip_magnitudes_cuda : kernel
}.

Definition ClipMagnitudesKernel_init : ClipMagnitudesKernel :=
  {| clip_magnitudes_cuda := Kernel "clip_magnitudes" [("IN_TYPE", "complex<float>")] |}.

(** [ClipMagnitudesKernel.clip_magnitudes_to_range] *)
Definition clip_magnitudes_to_range (array : gpuarray) (clip_min clip_max : Q)
    : M ClipMagnitudesKernel unit :=
  let cmin := clip_min in
  let cmax := clip_max in
  let npixel := np_int32 (prod (shape array)) in
  let bx := 256 in
  let gx := (npixel + bx - 1) / bx in
  s <- get_self ;;
  run_kernel (clip_magnitudes_cuda s)
    [ABuf (ref array); AFloat32 cmin; AFloat32 cmax; AInt32 npixel]
    (bx, 1, 1) (gx, 1, 1) 0.

(** ** [Abs2SumKernel] *)

Record Abs2SumKernel : Type := MkAbs2SumKernel {
  in_stype : string;
  out_stype : string;
  out_dtype : dtype;
  abs2sum_threads : Z;              (* self.threadsPerBlock *)
  abs2sum_cuda : kernel
}.

(** [Abs2SumKernel.__init__]; the second comparison is against the string
    the source spells ['copmlex<double>']. *)
Definition Abs2SumKernel_init (dt : dtype) : exn + Abs2SumKernel :=
  match map2ctype dt with
  | inl e => inl e
  | inr ins =>
      let '(outs, outd) :=
        if String.eqb ins "complex<float>" then ("float", float32)
        else if String.eqb ins "copmlex<double>" then ("double", float64)
        else (ins, dt) in
      inr {| in_stype := ins;
             out_stype := outs;
             out_dtype := outd;
             abs2sum_threads := 32;
             abs2sum_cuda := Kernel "abs2sum"
               [("IN_TYPE", ins); ("OUT_TYPE", outs); ("BDIM_X", "32")] |}
  end.

(** [Abs2SumKernel.abs2sum] *)
Definition abs2sum (array : gpuarray) : M Abs2SumKernel gpuarray :=
  sh0 <- py_getitem (shape array) 0 ;;
  let nmodes := np_int32 sh0 in
  (* row, col = array.shape[1:] *)
  match py_slice_from (shape array) 1 with
  | [row; col] =>
      s <- get_self ;;
      out <- gpu_empty (py_slice_from (shape array) 1) (out_dtype s) ;;
      let block_ : dim3 := (32, 1, 1) in
      let grid_ : dim3 := (1, row, 1) in
      run_kernel (abs2sum_cuda s)
        [ABuf (ref array); AInt32 nmodes; AInt32 (np_int32 row);
         AInt32 (np_int32 col); ABuf (ref out)]
        block_ grid_ 0 ;;;
      ret out
  | [] => raise (ValueError "not enough values to unpack (expected 2, got 0)")
  | [_] => raise (ValueError "not enough values to unpack (expected 2, got 1)")
  | _ => raise (ValueError "too many values to unpack (expected 2)")
  end.

(** ** Vocabulary of the further properties *)

(** The allocations and uploads among events. *)
Definition allocs (es : list event) : list gpuarray :=
  flat_map (fun e => match e with Alloc a _ => [a] | _ => [] end) es.
Definition uploads (es : list event) : list (Z * pyfloat) :=
  flat_map (fun e => match e with Upload _ r std => [(r, std)] | _ => [] end) es.

(** Values that [np.int32] leaves as they are. *)
Definition int32_range (z : Z) : Prop := - 2 ^ 31 <= z < 2 ^ 31.

(** Values of an int64 array. *)
Definition int64_range (z : Z) : Prop := - 2 ^ 63 <= z < 2 ^ 63.

(** An axis on which the int64 arithmetic of [fill3D] is exact: the offset
    can be negated, and neither [o + b] nor [a - o] leaves the range. *)
Definition axis_exact (a b o : Z) : Prop :=
  - 2 ^ 63 < o < 2 ^ 63 /\ int64_range (o + b) /\ int64_range (a - o).
Definition exact3 (Alim Blim off : vec3) : Prop :=
  let '(a0, a1, a2) := Alim in
  let '(b0, b1, b2) := Blim in
  let '(o0, o1, o2) := off in
  axis_exact a0 b0 o0 /\ axis_exact a1 b1 o1 /\ axis_exact a2 b2 o2.

(** Offsets that [-off] negates without wrapping. *)
Definition negatable (off : vec3) : Prop :=
  let '(o0, o1, o2) := off in
  - 2 ^ 63 < o0 < 2 ^ 63 /\ - 2 ^ 63 < o1 < 2 ^ 63 /\ - 2 ^ 63 < o2 < 2 ^ 63.

(** Extents and offsets of at most 62 bits. *)
Definition moderate (Alim Blim off : vec3) : Prop :=
  let '(a0, a1, a2) := Alim in
  let '(b0, b1, b2) := Blim in
  let '(o0, o1, o2) := off in
  (0 <= a0 < 2 ^ 62 /\ 0 <= a1 < 2 ^ 62 /\ 0 <= a2 < 2 ^ 62) /\
  (0 <= b0 < 2 ^ 62 /\ 0 <= b1 < 2 ^ 62 /\ 0 <= b2 < 2 ^ 62) /\
  (- 2 ^ 62 <= o0 <= 2 ^ 62 /\ - 2 ^ 62 <= o1 <= 2 ^ 62 /\ - 2 ^ 62 <= o2 <= 2 ^ 62).

(** The kernel [fill3D] loads for a pair of C types. *)
Definition fill3D_kernel (tb ta : string) : kernel :=
  Kernel "fill3D" [("IN_TYPE", tb); ("OUT_TYPE", ta)].

(** Every cached [fill3D] kernel is the one its key names. *)
Definition fill3D_cache_ok (s : CropPadKernel) : Prop :=
  forall key k, fill3D_cuda s !! key = Some k ->
    exists db da tb ta,
      map2ctype db = inr tb /\ map2ctype da = inr ta /\
      key = (tb ++ "," ++ ta)%string /\ k = fill3D_kernel tb ta.

(** Calls of [fill3D] on one instance, raising calls included. *)
Definition run_fill3D (c : gpuarray * gpuarray * vec3) (w : world CropPadKernel)
    : world CropPadKernel :=
  let '(A, B, off) := c in fst (fill3D A B off w).

(** The launch of [fill3D] with kernel [k]. *)
Definition fill3D_launch (k : kernel) (A B : gpuarray) (off : vec3) : launch :=
  let '(a3, a2, a1) := last3 (shape A) in
  let '(b3, b2, b1) := last3 (shape B) in
  let '(ao0, ao1, ao2) := map3 np_int32 (A_start off) in
  let '(bo0, bo1, bo2) := map3 np_int32 (B_start off) in
  let '(l0, l1, l2) := lengths (last3 (shape A)) (last3 (shape B)) off in
  MkLaunch k
    [ABuf (ref A); ABuf (ref B);
     AInt32 (np_int32 a3); AInt32 (np_int32 a2); AInt32 (np_int32 a1);
     AInt32 (np_int32 b3); AInt32 (np_int32 b2); AInt32 (np_int32 b1);
     AInt32 ao0; AInt32 ao1; AInt32 ao2;
     AInt32 bo0; AInt32 bo1; AInt32 bo2;
     AInt32 l0; AInt32 l1; AInt32 l2]
    (32, 32, 1)
    ((l2 + 32 - 1) / 32, (l1 + 32 - 1) / 32, prod (but_last 3 (shape A)))
    0.

(** The kernel a call of [fill3D] uses: the cached one, or the one it loads. *)
Definition fill3D_pick (s : CropPadKernel) (tb ta : string) : kernel :=
  match fill3D_cuda s !! (tb ++ "," ++ ta)%string with
  | Some k => k
  | None => fill3D_kernel tb ta
  end.

Definition fill3D_load (s : CropPadKernel) (tb ta : string) : CropPadKernel :=
  match fill3D_cuda s !! (tb ++ "," ++ ta)%string with
  | Some _ => s
  | None => {| fill3D_cuda := <[(tb ++ "," ++ ta)%string := fill3D_kernel tb ta]>
                                (fill3D_cuda s) |}
  end.

(** A string without a comma. *)
Fixpoint no_comma (s : string) : bool :=
  match s with
  | EmptyString => true
  | String c s => negb (Ascii.eqb c ","%char) && no_comma s
  end.

Definition all_positive (v : vec3) : Prop :=
  let '(x, y, z) := v in 0 < x /\ 0 < y /\ 0 < z.
Definition all_int32 (v : vec3) : Prop :=
  let '(x, y, z) := v in int32_range x /\ int32_range y /\ int32_range z.
Definition vec3_le (u v : vec3) : Prop :=
  let '(x, y, z) := u in let '(x', y', z') := v in x <= x' /\ y <= y' /\ z <= z'.
Definition vec3_add (u v : vec3) : vec3 := zip3 Z.add u v.

(** The leading dimensions of the batched view of an array whose leading
    dimensions are [la]. *)
Definition batch_dims (la : list Z) : list Z :=
  match la with
  | [] => [1]
  | _ => la
  end.

(** The instance between the two passes of a call, and after them. *)
Definition self_after_row (s : GaussianSmoothingKernel) (stdx : pyfloat)
    : GaussianSmoothingKernel :=
  if active stdx then tap_self s stdx else s.
Definition self_after_col (s : GaussianSmoothingKernel) (stdy stdx : pyfloat)
    : GaussianSmoothingKernel :=
  if active stdy then tap_self (self_after_row s stdx) stdy
  else self_after_row s stdx.

(** The cache entry [max_abs2] creates, with scratch buffer [r], and the
    two launches it makes with an entry. *)
Definition max_abs2_new_entry (tin tout : string) (gy : Z) (out : gpuarray) (r : nat)
    : max_abs2_entry :=
  {| step1 := Kernel "max_abs2_step1"
       [("IN_TYPE", tin); ("OUT_TYPE", tout); ("BDIM_X", "64")];
     step2 := Kernel "max_abs2_step2"
       [("IN_TYPE", tin); ("OUT_TYPE", tout); ("BDIM_X", "64")];
     scratchmem := GpuArray r [gy] (adtype out) |}.

Definition max_abs2_step1_launch (e : max_abs2_entry) (X : gpuarray)
    (lead : list Z) (rows cols : Z) : launch :=
  MkLaunch (step1 e)
    [ABuf (ref X); AInt32 (np_int32 (prod lead)); AInt32 (np_int32 rows);
     AInt32 (np_int32 cols); ABuf (ref (scratchmem e))]
    (64, 1, 1) (1, np_int32 rows, 1) 0.

Definition max_abs2_step2_launch (e : max_abs2_entry) (out : gpuarray) (rows : Z)
    : launch :=
  MkLaunch (step2 e)
    [ABuf (ref (scratchmem e)); AInt32 (np_int32 (np_int32 rows)); ABuf (ref out)]
    (64, 1, 1) (1, 1, 1) 0.

(** Every cached entry is the one its key names: kernels for the two C
    types of the key, scratch of as many elements as the row count of the
    key. *)
Definition max_abs2_cache_ok (s : MaxAbs2Kernel) : Prop :=
  forall key e, max_abs2_cuda s !! key = Some e ->
    exists din dout tin tout gy r,
      map2ctype din = inr tin /\ map2ctype (adtype dout) = inr tout /\
      key = max_abs2_version tin tout gy /\
      e = max_abs2_new_entry tin tout gy dout r.

Definition run_max_abs2 (c : gpuarray * gpuarray) (w : world MaxAbs2Kernel)
    : world MaxAbs2Kernel :=
  fst (max_abs2 (fst c) (snd c) w).

(** The launch of a difference along the axis that splits the shape into
    [hi ++ e :: lo], with the kernel [klast] when the axis is the last one
    and [kmid] otherwise. *)
Definition delx_launch (klast kmid : kernel) (s : DerivativesKernel)
    (input out : gpuarray) (hi : list Z) (e : Z) (lo : list Z) : launch :=
  match lo with
  | [] =>
      MkLaunch klast
        [ABuf (ref input); ABuf (ref out); AInt32 (np_int32 (prod hi));
         AInt32 (np_int32 e)]
        (last_axis_block s)
        ((np_int32 (prod hi) + dim_y (last_axis_block s) - 1) / dim_y (last_axis_block s),
         1, 1)
        0
  | _ =>
      MkLaunch kmid
        [ABuf (ref input); ABuf (ref out); AInt32 (np_int32 (prod lo));
         AInt32 (np_int32 (prod hi)); AInt32 (np_int32 e)]
        (mid_axis_block s)
        ((np_int32 (prod lo) + dim_x (mid_axis_block s) - 1) / dim_x (mid_axis_block s),
         1, np_int32 (prod hi))
        0
  end.

(** The instance with forward and backward kernels exchanged. *)
Definition swap_direction (s : DerivativesKernel) : DerivativesKernel :=
  {| dk_dtype := dk_dtype s;
     last_axis_block := last_axis_block s;
     mid_axis_block := mid_axis_block s;
     delxf_last := delxb_last s;
     delxf_mid := delxb_mid s;
     delxb_last := delxf_last s;
     delxb_mid := delxf_mid s |}.

(** The value or the exception of [sh[i]]. *)
Definition getitem_result (sh : list Z) (i : Z) : exn + Z :=
  let n := Z.of_nat (length sh) in
  let j := if i <? 0 then i + n else i in
  if (0 <=? j) && (j <? n) then inr (nth (Z.to_nat j) sh 0) else inl IndexError.

(** The instance [DerivativesKernel(np.float32)]. *)
Definition deriv : DerivativesKernel :=
  {| dk_dtype := float32;
     last_axis_block := (256, 4, 1);
     mid_axis_block := (256, 4, 1);
     delxf_last := Kernel "delx_last" (delx_subs "true" "float");
     delxf_mid := Kernel "delx_mid" (delx_subs "true" "float");
     delxb_last := Kernel "delx_last" (delx_subs "false" "float");
     delxb_mid := Kernel "delx_mid" (delx_subs "false" "float") |}.

(** * Properties *)

(** ** Generic facts on the computations *)

Lemma new_events_app (d : device) (es : list event) n :
  new_events d (Device n (stream d ++ es)) = es.
Proof.
  unfold new_events. simpl.
  rewrite List.skipn_app, List.skipn_all, Nat.sub_diag. reflexivity.
Qed.

Lemma new_events_same (d : device) : new_events d d = [].
Proof. unfold new_events. apply List.skipn_all. Qed.

Lemma launches_app (a b : list event) :
  launches (a ++ b) = launches a ++ launches b.
Proof. unfold launches. apply flat_map_app. Qed.

Ltac unfold_py :=
  unfold bind, ret, raise, py_assert, get_self, set_self, gpu_zeros, gpu_empty,
    alloc, run_kernel, enqueue, lift_exn in *.

(** ** The reduction scratch buffer *)

Lemma scratch_le_refl a : scratch_le a a.
Proof. destruct a; simpl; [lia | exact I]. Qed.

Lemma scratch_le_trans a b c : scratch_le a b -> scratch_le b c -> scratch_le a c.
Proof. destruct a, b, c; simpl; intros; try lia; tauto. Qed.

Lemma dtype_eqb_refl a : dtype_eqb a a = true.
Proof. destruct a; reflexivity. Qed.

Lemma dtype_eqb_eq a b : dtype_eqb a b = true <-> a = b.
Proof. split; [destruct a, b; simpl; congruence | intros ->; apply dtype_eqb_refl]. Qed.

(** What [dot] leaves in [self.Ctmp]. *)
Lemma dot_Ctmp A B out w :
  Ctmp (self (fst (dot A B out w))) =
    if dtype_eqb (adtype A) (adtype B) && (size A =? size B)
    then match Ctmp (self w) with
         | Some c =>
             if size c <? dot_grid B
             then Some (GpuArray (match out with
                                  | None => S (next_ref (dev w))
                                  | Some _ => next_ref (dev w)
                                  end) [dot_grid B] (acc_dtype (self w)))
             else Some c
         | None => Some (GpuArray (match out with
                                   | None => S (next_ref (dev w))
                                   | Some _ => next_ref (dev w)
                                   end) [dot_grid B] (acc_dtype (self w)))
         end
    else Ctmp (self w).
Proof.
  unfold dot, grow_Ctmp. unfold_py.
  destruct w as [s d]; simpl.
  destruct (dtype_eqb (adtype A) (adtype B)); simpl; [| reflexivity].
  destruct (size A =? size B); simpl; [| reflexivity].
  destruct out as [o|], (Ctmp s) as [c|] eqn:HC; simpl;
    try destruct (size c <? dot_grid B); simpl;
    destruct (elsize_of (acc_dtype s)); simpl;
    try destruct (dot_grid B >? 1); simpl; try rewrite HC; reflexivity.
Qed.

Lemma size_singleton n r t : size (GpuArray r [n] t) = n.
Proof. unfold size, prod. simpl. lia. Qed.

Lemma dot_scratch_le A B out w :
  scratch_le (Ctmp (self w)) (Ctmp (self (fst (dot A B out w)))).
Proof.
  rewrite dot_Ctmp.
  destruct (dtype_eqb (adtype A) (adtype B) && (size A =? size B));
    [| apply scratch_le_refl].
  destruct (Ctmp (self w)) as [c|]; [| exact I].
  destruct (size c <? dot_grid B) eqn:E; simpl; [| lia].
  rewrite size_singleton. apply Z.ltb_lt in E. lia.
Qed.

Lemma run_call_dot c w :
  exists A B out, run_call c w = fst (dot A B out w) /\ call_grid c = dot_grid B /\
    call_valid c = dtype_eqb (adtype A) (adtype B) && (size A =? size B).
Proof.
  destruct c as [A B out | A out].
  - exists A, B, out. auto.
  - exists A, A, out. simpl. unfold norm2.
    rewrite dtype_eqb_refl, Z.eqb_refl. auto.
Qed.

Lemma run_call_scratch_le c w :
  scratch_le (Ctmp (self w)) (Ctmp (self (run_call c w))).
Proof.
  destruct (run_call_dot c w) as (A & B & out & -> & _). apply dot_scratch_le.
Qed.

Lemma run_calls_scratch_le cs : forall w,
  scratch_le (Ctmp (self w)) (Ctmp (self (run_calls cs w))).
Proof.
  induction cs as [| c cs IH]; intros w; simpl.
  - apply scratch_le_refl.
  - eapply scratch_le_trans; [apply run_call_scratch_le | apply IH].
Qed.

(** C9: the scratch buffer of an [ArrayUtilsKernel] never shrinks.  After
    any history [cs] of [dot]/[norm2] calls the scratch is at least what it
    was; one more call [c] does not shrink it; if [c] got past its
    assertions the scratch then holds at least the block count [c]
    required; and if the scratch already held that many elements the very
    same buffer is kept. *)
Theorem scratch_monotone (cs : list reduction_call) (c : reduction_call)
    (w : world ArrayUtilsKernel) :
  let w1 := run_calls cs w in
  let w2 := run_call c w1 in
  scratch_le (Ctmp (self w)) (Ctmp (self w1)) /\
  scratch_le (Ctmp (self w1)) (Ctmp (self w2)) /\
  (call_valid c = true ->
     exists c', Ctmp (self w2) = Some c' /\ call_grid c <= size c') /\
  (forall c0, Ctmp (self w1) = Some c0 -> call_grid c <= size c0 ->
     Ctmp (self w2) = Some c0).
Proof.
  intros w1 w2. split; [apply run_calls_scratch_le |].
  split; [apply run_call_scratch_le |].
  subst w2. destruct (run_call_dot c w1) as (A & B & out & -> & -> & ->).
  rewrite dot_Ctmp. split.
  - intros ->. destruct (Ctmp (self w1)) as [c0|].
    + destruct (size c0 <? dot_grid B) eqn:E; eexists; split; try reflexivity.
      * rewrite size_singleton. lia.
      * apply Z.ltb_ge in E. lia.
    + eexists; split; [reflexivity |]. rewrite size_singleton. lia.
  - intros c0 -> Hle.
    destruct (dtype_eqb (adtype A) (adtype B) && (size A =? size B)); [| reflexivity].
    apply Z.ltb_ge in Hle. rewrite Hle. reflexivity.
Qed.

(** ** The two phases of [dot] *)




Ltac flatten_stream :=
  repeat rewrite <- List.app_assoc; simpl List.app;
  rewrite ?new_events_app.




(** A run of [scratch_monotone]: a [dot] over 3072 elements, then a [norm2]
    over 2048. *)
Lemma scratch_monotone_witness :
  let w := World (ArrayUtilsKernel_init float64) reduction_dev in
  let cs := [CallDot (GpuArray 0 [3072] float32) (GpuArray 1 [3072] float32) None] in
  let c := CallNorm2 (GpuArray 2 [2048] float32) None in
  call_valid c = true /\
  (exists c', Ctmp (self (run_call c (run_calls cs w))) = Some c' /\
              call_grid c <= size c') /\
  (Ctmp (self (run_calls cs w)) = Some (GpuArray 5 [3] float64) /\
   call_grid c <= size (GpuArray 5 [3] float64) /\
   Ctmp (self (run_call c (run_calls cs w))) = Some (GpuArray 5 [3] float64)).
Proof.
  intros w cs c.
  pose proof (scratch_monotone cs c w) as (_ & _ & Hv & Hk).
  split; [reflexivity |].
  split; [apply Hv; reflexivity |].
  assert (H1 : Ctmp (self (run_calls cs w)) = Some (GpuArray 5 [3] float64))
    by reflexivity.
  assert (H2 : call_grid c <= size (GpuArray 5 [3] float64))
    by (vm_compute; discriminate).
  split; [exact H1 |]. split; [exact H2 |].
  apply (Hk _ H1 H2).
Defined.

(** ** [fill3D]: overlap *)

Lemma np_int32_shift z k : np_int32 (z + k * 2 ^ 32) = np_int32 z.
Proof.
  unfold np_int32.
  replace (z + k * 2 ^ 32 + 2 ^ 31) with (z + 2 ^ 31 + k * 2 ^ 32) by lia.
  rewrite Z_mod_plus_full. reflexivity.
Qed.

Lemma np_int32_sub_wrapped x y : np_int32 (x - np_int32 y) = np_int32 (x - y).
Proof.
  unfold np_int32 at 2.
  pose proof (Z.div_mod (y + 2 ^ 31) (2 ^ 32) ltac:(lia)) as H.
  replace (x - ((y + 2 ^ 31) mod 2 ^ 32 - 2 ^ 31))
    with (x - y + ((y + 2 ^ 31) / 2 ^ 32) * 2 ^ 32) by lia.
  apply np_int32_shift.
Qed.

Lemma np_int64_small z : int64_range z -> np_int64 z = z.
Proof. unfold int64_range, np_int64. intros H. rewrite Z.mod_small; lia. Qed.

(** The cast to int32 does not see the wrap to 64 bits. *)
Lemma np_int32_int64 z : np_int32 (np_int64 z) = np_int32 z.
Proof.
  unfold np_int64.
  pose proof (Z.div_mod (z + 2 ^ 63) (2 ^ 64) ltac:(lia)) as H.
  replace ((z + 2 ^ 63) mod 2 ^ 64 - 2 ^ 63)
    with (z + (- ((z + 2 ^ 63) / 2 ^ 64) * 2 ^ 32) * 2 ^ 32) by lia.
  apply np_int32_shift.
Qed.

Lemma np_int64_opp o : - 2 ^ 63 < o < 2 ^ 63 -> np_int64 (- o) = - o.
Proof. intros H. apply np_int64_small. unfold int64_range. lia. Qed.

Lemma length_axis_agree a b o :
  axis_exact a b o ->
  np_int32 (np_int64 (Z.min (np_int64 (o + b)) a - np_int32 (if o <? 0 then 0 else o))) =
  np_int32 (np_int64 (Z.min (np_int64 (a - o)) b
                      - np_int32 (if np_int64 (- o) <? 0 then 0 else np_int64 (- o)))).
Proof.
  intros (Ho & Hob & Hao).
  rewrite (np_int64_small _ Hob), (np_int64_small _ Hao), (np_int64_opp o Ho).
  rewrite !np_int32_int64, !np_int32_sub_wrapped. f_equal.
  destruct (Z.ltb_spec o 0), (Z.ltb_spec (- o) 0); lia.
Qed.

(** Where the int64 arithmetic is exact the two lengths agree. *)
Lemma lengths_agree (Alim Blim off : vec3) :
  exact3 Alim Blim off -> lengths Alim Blim off = lengths2 Alim Blim off.
Proof.
  destruct Alim as [[a0 a1] a2], Blim as [[b0 b1] b2], off as [[o0 o1] o2].
  intros (H0 & H1 & H2).
  unfold lengths, lengths2, A_start, B_start, zip3, map3.
  rewrite (length_axis_agree _ _ _ H0), (length_axis_agree _ _ _ H1),
    (length_axis_agree _ _ _ H2). reflexivity.
Qed.

Lemma moderate_exact (Alim Blim off : vec3) :
  moderate Alim Blim off -> exact3 Alim Blim off.
Proof.
  destruct Alim as [[a0 a1] a2], Blim as [[b0 b1] b2], off as [[o0 o1] o2].
  unfold moderate, exact3, axis_exact, int64_range. lia.
Qed.

Lemma int32_exact (Alim Blim off : vec3) :
  all_int32 Alim -> all_int32 Blim -> all_int32 off -> exact3 Alim Blim off.
Proof.
  destruct Alim as [[a0 a1] a2], Blim as [[b0 b1] b2], off as [[o0 o1] o2].
  unfold all_int32, int32_range, exact3, axis_exact, int64_range. lia.
Qed.

Lemma exact_negatable (Alim Blim off : vec3) : exact3 Alim Blim off -> negatable off.
Proof.
  destruct Alim as [[a0 a1] a2], Blim as [[b0 b1] b2], off as [[o0 o1] o2].
  unfold exact3, axis_exact, negatable. tauto.
Qed.

Lemma vec3_eqb_refl v : vec3_eqb v v = true.
Proof.
  destruct v as [[a b] c]. unfold vec3_eqb, zip3, all3.
  rewrite !Z.eqb_refl. reflexivity.
Qed.

Lemma vec3_eqb_eq u v : vec3_eqb u v = true -> u = v.
Proof.
  destruct u as [[a b] c], v as [[a' b'] c']. unfold vec3_eqb, zip3, all3.
  rewrite !andb_true_iff, !Z.eqb_eq. intros [[-> ->] ->]. reflexivity.
Qed.

(** On one axis the two start checks of [fill3D] pass exactly when the
    overlap is positive, for an offset whose negation does not wrap. *)
Lemma start_checks_axis a b o :
  - 2 ^ 63 < o < 2 ^ 63 ->
  ((if np_int64 (- o) <? 0 then 0 else np_int64 (- o)) <? b)
    && ((if o <? 0 then 0 else o) <? a) = true
  <-> 0 < overlap a b o.
Proof.
  intros Ho. rewrite (np_int64_opp o Ho).
  unfold overlap. rewrite andb_true_iff, !Z.ltb_lt.
  destruct (Z.ltb_spec o 0), (Z.ltb_spec (- o) 0); lia.
Qed.

Lemma start_checks_overlap (Alim Blim off : vec3) :
  negatable off ->
  all3 (zip3 Z.ltb (B_start off) Blim) && all3 (zip3 Z.ltb (A_start off) Alim) = false
  <-> some_nonpositive (overlap3 Alim Blim off).
Proof.
  destruct Alim as [[a0 a1] a2], Blim as [[b0 b1] b2], off as [[o0 o1] o2].
  intros (N0 & N1 & N2).
  unfold A_start, B_start, zip3, map3, all3, overlap3, some_nonpositive.
  pose proof (start_checks_axis a0 b0 o0 N0) as H0.
  pose proof (start_checks_axis a1 b1 o1 N1) as H1.
  pose proof (start_checks_axis a2 b2 o2 N2) as H2.
  rewrite andb_true_iff in H0, H1, H2.
  destruct (_ <? b0), (_ <? b1), (_ <? b2), (_ <? a0), (_ <? a1), (_ <? a2);
    simpl in *; split; intros H; try discriminate; try lia;
    try (exfalso; lia).
Qed.

Lemma ndim_ltb_3 A : 3 <= ndim A -> (ndim A <? 3) = false.
Proof. intros H. apply Z.ltb_ge. exact H. Qed.

(** The call of [fill3D] on arrays that pass the dimension checks, when
    an axis lacks overlap: the assertion fails with nothing enqueued and
    no kernel loaded. *)
Lemma fill3D_without_overlap (w : world CropPadKernel) (A B : gpuarray) (off : vec3) :
  3 <= ndim A ->
  ndim A = ndim B ->
  leading_match 3 (shape A) (shape B) = true ->
  negatable off ->
  some_nonpositive (overlap3 (last3 (shape A)) (last3 (shape B)) off) ->
  fill3D A B off w = (w, inl (AssertionError no_overlap_msg)).
Proof.
  intros HA HAB Hlead Hneg Hno.
  apply (start_checks_overlap _ _ _ Hneg) in Hno.
  unfold fill3D.
  rewrite <- HAB, (ndim_ltb_3 A HA), Z.eqb_refl. simpl.
  unfold_py. rewrite Hlead, Hno. reflexivity.
Qed.

Lemma beyond_both_no_overlap a b o :
  0 <= a -> 0 <= b -> beyond_both a b o -> overlap a b o <= 0.
Proof. unfold beyond_both, overlap. lia. Qed.

(** C7: [fill3D] on two 8x8x8 arrays at the offset [-2^63] on the first
    axis.  That offset lies beyond both extents and the overlap
    [min(offset + B_extent, A_extent) - max(offset, 0)] is negative, yet
    the call does not raise: the int64 negation [-off] wraps back to
    [-2^63], is set to zero as a negative start, both start checks pass,
    the two wrapped lengths agree, and one kernel is launched that copies
    the whole array from start 0 of both. *)
Theorem fill3D_wrapped_offset_launches :
  let w := World CropPadKernel_init crop_dev in
  let A := GpuArray 0 [8; 8; 8] complex64 in
  let B := GpuArray 1 [8; 8; 8] complex64 in
  let off := (- 2 ^ 63, 0, 0) in
  let res := fill3D A B off w in
  beyond_both 8 8 (- 2 ^ 63) /\
  some_nonpositive (overlap3 (last3 (shape A)) (last3 (shape B)) off) /\
  B_start off = (0, 0, 0) /\
  lengths (last3 (shape A)) (last3 (shape B)) off = (8, 8, 8) /\
  snd res = inr tt /\
  new_events (dev w) (dev (fst res))
    = [Launch (fill3D_launch (fill3D_kernel "complex<float>" "complex<float>") A B off)].
Proof.
  intros w A B off res.
  split; [right; split; vm_compute; discriminate |].
  split; [left; vm_compute; discriminate |].
  repeat split; vm_compute; reflexivity.
Qed.

(** Apart from that wrap the check is as the overlap has it: with offsets
    above [-2^63], the offset beyond both extents on the last axis makes
    the call raise. *)
Lemma fill3D_offset_beyond_extents (w : world CropPadKernel) (A B : gpuarray) o0 o1 o2 :
  3 <= ndim A ->
  ndim A = ndim B ->
  leading_match 3 (shape A) (shape B) = true ->
  negatable (o0, o1, o2) ->
  0 <= from_end (shape A) 1 -> 0 <= from_end (shape B) 1 ->
  beyond_both (from_end (shape A) 1) (from_end (shape B) 1) o2 ->
  fill3D A B (o0, o1, o2) w = (w, inl (AssertionError no_overlap_msg)).
Proof.
  intros HA HAB Hlead Hneg Ha Hb Hbeyond.
  apply fill3D_without_overlap; try assumption.
  unfold last3, overlap3, some_nonpositive. right. right.
  apply beyond_both_no_overlap; assumption.
Qed.

(** Conversely, the no-overlap assertion is raised only when an axis lacks
    overlap. *)
Lemma fill3D_assertion_only_without_overlap (w : world CropPadKernel) (A B : gpuarray) (off : vec3) :
  negatable off ->
  snd (fill3D A B off w) = inl (AssertionError no_overlap_msg) ->
  some_nonpositive (overlap3 (last3 (shape A)) (last3 (shape B)) off).
Proof.
  intros Hneg.
  unfold fill3D. unfold_py.
  destruct ((ndim A <? 3) || (ndim B <? 3)); simpl; [discriminate |].
  destruct (ndim A =? ndim B); simpl; [| discriminate].
  destruct (leading_match 3 (shape A) (shape B)); simpl; [| discriminate].
  destruct (all3 (zip3 Z.ltb (B_start off) (last3 (shape B))) &&
            all3 (zip3 Z.ltb (A_start off) (last3 (shape A)))) eqn:E; simpl.
  - destruct (vec3_eqb _ _); simpl; [| discriminate].
    destruct (map2ctype (adtype B)) as [e|tb] eqn:EB; simpl;
      [destruct (adtype B); simpl in EB; inversion EB; discriminate |].
    destruct (map2ctype (adtype A)) as [e|ta] eqn:EA; simpl;
      [destruct (adtype A); simpl in EA; inversion EA; discriminate |].
    destruct (fill3D_cuda (self w) !! _); simpl;
      destruct (last3 (shape A)) as [[? ?] ?], (last3 (shape B)) as [[? ?] ?],
        (map3 np_int32 (A_start off)) as [[? ?] ?],
        (map3 np_int32 (B_start off)) as [[? ?] ?],
        (lengths _ _ off) as [[? ?] ?]; simpl; discriminate.
  - intros _. exact (proj1 (start_checks_overlap _ _ _ Hneg) E).
Qed.

(** ** [fill3D]: the consistency check *)

(** C10: [fill3D] on an 8x8x8 array [A] and a 6x8x8 array [B] at the
    offset [-2^63] on the first axis.  Both start checks pass (the wrapped
    [-off] is set to zero), the first length is
    [min(offset + 6, 8) - 0] and the second [min(8 - offset, 6) - 0] with
    [8 - offset] wrapped to [-2^63 + 8]; stored as int32 they are 6 and 8,
    and the call raises the 'left and right lengths are not matching'
    assertion. *)
Theorem fill3D_wrapped_offset_mismatch :
  let w := World CropPadKernel_init crop_dev in
  let A := GpuArray 0 [8; 8; 8] complex64 in
  let B := GpuArray 1 [6; 8; 8] complex64 in
  let off := (- 2 ^ 63, 0, 0) in
  all3 (zip3 Z.ltb (B_start off) (last3 (shape B)))
    && all3 (zip3 Z.ltb (A_start off) (last3 (shape A))) = true /\
  lengths (last3 (shape A)) (last3 (shape B)) off = (6, 8, 8) /\
  lengths2 (last3 (shape A)) (last3 (shape B)) off = (8, 8, 8) /\
  fill3D A B off w = (w, inl (AssertionError mismatch_msg)).
Proof.
  intros w A B off.
  repeat split; vm_compute; reflexivity.
Qed.

(** ** [crop_pad_2d_simple]: the centring offset *)

Lemma from_end_last2 (l : list Z) a1 a2 :
  from_end (l ++ [a1; a2]) 2 = a1 /\ from_end (l ++ [a1; a2]) 1 = a2.
Proof. unfold from_end. rewrite List.rev_app_distr. simpl. auto. Qed.

Lemma half_difference a b : a / 2 - b / 2 = (a - b) / 2 + half_excess a b.
Proof.
  unfold half_excess.
  pose proof (Z.div_mod a 2 ltac:(lia)) as Ha.
  pose proof (Z.div_mod b 2 ltac:(lia)) as Hb.
  pose proof (Z.div_mod (a - b) 2 ltac:(lia)) as Hab.
  pose proof (Z.mod_pos_bound (a - b) 2 ltac:(lia)).
  rewrite Zmod_even in Ha. rewrite Zmod_odd in Hb.
  destruct (Z.even a), (Z.odd b); simpl; lia.
Qed.

Lemma batched_shape A :
  shape (batched A) = shape A \/ shape (batched A) = 1 :: shape A.
Proof. unfold batched. destruct (ndim A =? 2); simpl; auto. Qed.

Lemma batched_last2 A l a1 a2 :
  shape A = l ++ [a1; a2] ->
  from_end (shape (batched A)) 2 = a1 /\ from_end (shape (batched A)) 1 = a2.
Proof.
  intros H. destruct (batched_shape A) as [-> | ->]; rewrite H.
  - apply from_end_last2.
  - apply (from_end_last2 (1 :: l)).
Qed.

(** C4 (as amended): for arrays [A], [B] that [crop_pad_2d_simple] accepts,
    with trailing extents [(a1, a2)] and [(b1, b2)], the call is the call
    of [fill3D] on the batched views with offset
    [(0, a1 // 2 - b1 // 2, a2 // 2 - b2 // 2)]: the element at index
    [b // 2] of [B] lands on index [a // 2] of [A].  That offset is
    [(a - b) // 2] except when [a] is even and [b] is odd, where it is one
    more. *)
Theorem crop_pad_offset (w : world CropPadKernel) (A B : gpuarray)
    (la lb : list Z) (a1 a2 b1 b2 : Z) :
  shape A = la ++ [a1; a2] ->
  shape B = lb ++ [b1; b2] ->
  ndim A = ndim B ->
  leading_match 2 (shape B) (shape A) = true ->
  crop_pad_2d_simple A B w
    = fill3D (batched A) (batched B) (0, a1 / 2 - b1 / 2, a2 / 2 - b2 / 2) w /\
  a1 / 2 - b1 / 2 = (a1 - b1) / 2 + half_excess a1 b1 /\
  a2 / 2 - b2 / 2 = (a2 - b2) / 2 + half_excess a2 b2.
Proof.
  intros HA HB Hn Hlead.
  split; [| split; apply half_difference].
  assert (Hge : (ndim A >=? 2) = true).
  { unfold ndim. rewrite HA, List.length_app. simpl.
    apply Z.geb_le. lia. }
  unfold crop_pad_2d_simple. unfold_py.
  rewrite Hge, Hn, Z.eqb_refl, Hlead. simpl.
  fold (batched B). rewrite <- Hn. fold (batched A).
  unfold center_offset.
  destruct (batched_last2 A la a1 a2 HA) as [-> ->].
  destruct (batched_last2 B lb b1 b2 HB) as [-> ->].
  reflexivity.
Qed.

(** A run of [crop_pad_offset]: a 3x3 array centred in a 4x4 array. *)
Lemma crop_pad_offset_witness :
  let w := World CropPadKernel_init crop_dev in
  let A := GpuArray 0 [4; 4] complex64 in
  let B := GpuArray 1 [3; 3] complex64 in
  crop_pad_2d_simple A B w
    = fill3D (batched A) (batched B) (0, 4 / 2 - 3 / 2, 4 / 2 - 3 / 2) w /\
  4 / 2 - 3 / 2 = (4 - 3) / 2 + half_excess 4 3 /\
  4 / 2 - 3 / 2 = (4 - 3) / 2 + half_excess 4 3.
Proof.
  intros w A B.
  apply (crop_pad_offset w A B [] [] 4 4 3 3); reflexivity.
Defined.

(** C4 as stated fails on the code: with 4x4 [A] and 3x3 [B] the offset
    handed to [fill3D] is 1 on both trailing axes, while
    [(A_extent - B_extent) // 2] is 0; the kernel launch differs from the
    one the claimed offset would give. *)
Lemma crop_pad_offset_not_half_difference :
  let w := World CropPadKernel_init crop_dev in
  let A := GpuArray 0 [4; 4] complex64 in
  let B := GpuArray 1 [3; 3] complex64 in
  center_offset (batched A) (batched B) = (0, 1, 1) /\
  (4 - 3) / 2 = 0 /\
  stream (dev (fst (crop_pad_2d_simple A B w)))
    = stream (dev (fst (fill3D (batched A) (batched B) (0, 1, 1) w))) /\
  stream (dev (fst (crop_pad_2d_simple A B w)))
    <> stream (dev (fst (fill3D (batched A) (batched B)
                           (0, (4 - 3) / 2, (4 - 3) / 2) w))).
Proof.
  cbv zeta. repeat split; try reflexivity.
  vm_compute. discriminate.
Qed.

(** ** [transpose] *)

(** What [transpose] has checked when it launches: the input is
    two-dimensional, both arrays are int32, and the first two extents of
    the output are the input's extents flipped; the launch is the only
    event. *)
Lemma transpose_launch_conditions (w : world TransposeKernel) (input output : gpuarray) :
  snd (transpose input output w) = inr tt ->
  length (shape input) = 2%nat /\
  adtype input = int32 /\ adtype output = int32 /\
  firstn 2 (shape output) = rev (shape input) /\
  length (launches (new_events (dev w) (dev (fst (transpose input output w))))) = 1%nat.
Proof.
  unfold transpose. unfold_py.
  destruct (shape input) as [| i0 [| i1 [| ? ?]]] eqn:Hi; simpl; try discriminate.
  destruct (shape output) as [| o0 [| o1 so]] eqn:Ho; simpl; try discriminate.
  destruct (Z.eqb_spec i0 o1); simpl; [| discriminate].
  destruct (Z.eqb_spec i1 o0); simpl; [| discriminate].
  destruct (dtype_eqb (adtype input) int32) eqn:Ei; simpl; [| discriminate].
  destruct (dtype_eqb (adtype output) int32) eqn:Eo; simpl; [| discriminate].
  intros _. apply dtype_eqb_eq in Ei, Eo. subst.
  destruct w as [s [n st]]; simpl.
  rewrite new_events_app. auto.
Qed.

(** C8 fails on the code: with a 2x3 int32 input and a 3x2x5 int32 output,
    which is not two-dimensional and whose shape is not the reverse of the
    input's, [transpose] raises nothing and launches the kernel. *)
Lemma transpose_accepts_3d_output :
  let w := World TransposeKernel_init (Device 2 []) in
  let input := GpuArray 0 [2; 3] int32 in
  let output := GpuArray 1 [3; 2; 5] int32 in
  length (shape output) <> 2%nat /\
  shape output <> rev (shape input) /\
  snd (transpose input output w) = inr tt /\
  launches (stream (dev (fst (transpose input output w))))
    = [MkLaunch (transpose_cuda TransposeKernel_init)
         [ABuf 0; ABuf 1; AInt32 3; AInt32 2] (16, 16, 1) (1, 1, 1) 0].
Proof.
  cbv zeta. repeat split; try reflexivity; simpl; discriminate.
Qed.

(** ** [mass_center]: length of the output *)

Lemma np_int32_small z : - 2 ^ 31 <= z < 2 ^ 31 -> np_int32 z = z.
Proof.
  intros H. unfold np_int32. rewrite Z.mod_small; lia.
Qed.

(** C5 (as amended): for a float32 array of at least two dimensions whose
    total is not zero, [mass_center] returns a vector of [out_len n]
    components, [n] being the third extent (1 for a two-dimensional
    array): 2 components for a two-dimensional input, 3 for an input with
    a third extent greater than 1, and 2 again when the third extent is 1. *)
Theorem mass_center_out_length (w : world MassCenterKernel) (array : gpuarray)
    (total : Q) :
  adtype array = float32 ->
  Qeq_bool total 0 = false ->
  (2 <= length (shape array))%nat ->
  exists out,
    snd (mass_center array total w) = inr out /\
    shape out = [out_len (third_extent array)] /\
    (length (shape array) = 2%nat -> shape out = [2]) /\
    (forall e, nth_error (shape array) 2 = Some e -> 1 < e < 2 ^ 31 -> shape out = [3]) /\
    (nth_error (shape array) 2 = Some 1 -> shape out = [2]).
Proof.
  intros Hd Ht Hn.
  destruct (shape array) as [| a [| b sh]] eqn:Hs; simpl in Hn; try lia.
  unfold mass_center, third_extent. rewrite Hd, Hs.
  destruct sh as [| c sh].
  - assert (G : (ndim array >=? 3) = false) by (unfold ndim; rewrite Hs; reflexivity).
    rewrite G. unfold_py. simpl. rewrite Ht. simpl.
    eexists. split; [reflexivity |]. simpl.
    repeat split; try reflexivity; intros; discriminate.
  - assert (G : (ndim array >=? 3) = true).
    { unfold ndim. rewrite Hs. apply Z.geb_le. simpl length. lia. }
    rewrite G. unfold_py. simpl. rewrite Ht. simpl.
    eexists. split; [reflexivity |]. simpl.
    split; [reflexivity |]. split; [intros; discriminate |].
    split.
    + intros e He Hr. inversion He; subst.
      rewrite np_int32_small by lia. unfold out_len.
      replace (e >? 1) with true by (symmetry; apply Z.gtb_gt; lia).
      reflexivity.
    + intros He. inversion He; subst. reflexivity.
Qed.

(** A run of [mass_center_out_length] on a 4x5x6 array of total 3. *)
Lemma mass_center_out_length_witness :
  exists out,
    snd (mass_center (GpuArray 0 [4; 5; 6] float32) 3
           (World MassCenterKernel_init centroid_dev)) = inr out /\
    shape out = [out_len (third_extent (GpuArray 0 [4; 5; 6] float32))] /\
    (length (shape (GpuArray 0 [4; 5; 6] float32)) = 2%nat -> shape out = [2]) /\
    (forall e, nth_error (shape (GpuArray 0 [4; 5; 6] float32)) 2 = Some e ->
               1 < e < 2 ^ 31 -> shape out = [3]) /\
    (nth_error (shape (GpuArray 0 [4; 5; 6] float32)) 2 = Some 1 -> shape out = [2]).
Proof.
  apply (mass_center_out_length (World MassCenterKernel_init centroid_dev)
           (GpuArray 0 [4; 5; 6] float32) 3).
  - reflexivity.
  - reflexivity.
  - simpl. lia.
Defined.

(** C5 as stated fails on the code: a float32 array of shape (4,5,1) has
    rank 3, and [mass_center] returns a vector of 2 components. *)
Lemma mass_center_rank3_length2 :
  let array := GpuArray 0 [4; 5; 1] float32 in
  let res := mass_center array 3 (World MassCenterKernel_init centroid_dev) in
  ndim array = 3 /\
  exists out, snd res = inr out /\ shape out = [2] /\ size out <> ndim array.
Proof.
  cbv zeta. split; [reflexivity |].
  eexists. split; [reflexivity |]. split; [reflexivity |].
  vm_compute. discriminate.
Qed.

(** ** Floats *)

Lemma Qltb_lt a b : Qltb a b = true <-> (a < b)%Q.
Proof.
  unfold Qltb. rewrite negb_true_iff. split.
  - intros H. apply Qnot_le_lt. intros Hle.
    apply Qle_bool_iff in Hle. congruence.
  - intros H. destruct (Qle_bool b a) eqn:E; [| reflexivity].
    apply Qle_bool_iff in E. apply Qlt_not_le in H. contradiction.
Qed.

Lemma Qltb_ge a b : Qltb a b = false <-> (b <= a)%Q.
Proof. unfold Qltb. rewrite negb_false_iff. apply Qle_bool_iff. Qed.

(** The constants of the host code are the roundings of its literals. *)
Lemma literals_rounded :
  threshold = round64 (1 # 10) /\ half = round64 (5 # 10) /\
  epsilon = round64 (1 # 1000000) /\ epsilon = Finite eps64 /\
  Finite eps32 = round32 (1 # 1000000) /\ (eps32 < eps64)%Q.
Proof. repeat split; vm_compute; reflexivity. Qed.

(** Some roundings: the double next to 1 - 2^-54 is 1, products beyond the
    largest double are infinite, and the float32 next to the double
    64.000002 is 64. *)
Lemma rounding_examples :
  round64 (1 - (1 # 18014398509481984)) = Finite 1 /\
  fmul (Finite 4) (round64 (10 ^ 308 # 1)) = PosInf /\
  to_float32 (round64 (64000002 # 1000000)) = Finite 64 /\
  round64 (1 # 3) = Finite (6004799503160661 # 18014398509481984).
Proof. repeat split; vm_compute; reflexivity. Qed.

(** [int(q)] is the floor of a non-negative [q]. *)
Lemma py_int_floor q : (0 <= q)%Q -> py_int q = Qfloor q.
Proof.
  destruct q as [n dq]. unfold Qle, py_int, Qfloor. simpl.
  intros H. apply Z.quot_div_nonneg; lia.
Qed.

Lemma py_int_opp q : py_int (- q) = - py_int q.
Proof. destruct q as [n dq]. unfold py_int. simpl. apply Z.quot_opp_l. lia. Qed.

Lemma py_int_compat q q' : (q == q')%Q -> py_int q = py_int q'.
Proof.
  intros H.
  destruct (Qlt_le_dec q 0) as [Hneg | Hpos].
  - assert (Hneg' : (q' < 0)%Q) by (rewrite <- H; exact Hneg).
    assert (E : py_int (- q) = py_int (- q')).
    { rewrite !py_int_floor.
      - apply Qfloor_comp. rewrite H. reflexivity.
      - apply Qlt_le_weak. apply (Qopp_lt_compat q' 0) in Hneg'. exact Hneg'.
      - apply Qlt_le_weak. apply (Qopp_lt_compat q 0) in Hneg. exact Hneg. }
    rewrite !py_int_opp in E. lia.
  - assert (Hpos' : (0 <= q')%Q) by (rewrite <- H; exact Hpos).
    rewrite !py_int_floor by assumption. apply Qfloor_comp. exact H.
Qed.

(** The floor of [q] is the integer [n] with [n <= q < n + 1]. *)
Lemma Qfloor_unique q n :
  (inject_Z n <= q)%Q -> (q < inject_Z n + 1)%Q -> Qfloor q = n.
Proof.
  intros Hle Hlt.
  pose proof (Qfloor_le q) as F1. pose proof (Qlt_floor q) as F2.
  assert (A : (inject_Z n < inject_Z (Qfloor q + 1))%Q)
    by (eapply Qle_lt_trans; eassumption).
  assert (B : (inject_Z (Qfloor q) < inject_Z (n + 1))%Q).
  { eapply Qle_lt_trans; [exact F1 |].
    rewrite inject_Z_plus. exact Hlt. }
  rewrite <- Zlt_Qlt in A, B. lia.
Qed.

(** The integer and the fraction a rational splits into are those that
    the truncation gives. *)
Lemma splits_int q n f : splits q n f -> n = py_int q.
Proof.
  intros (Hq & Hf & Hpos & Hneg).
  apply Qabs_Qlt_condition in Hf. destruct Hf as [Hf1 Hf2].
  destruct (Qlt_le_dec q 0) as [Hq0 | Hq0].
  - assert (Hf0 : (f <= 0)%Q) by (apply Hneg; lra).
    assert (E : py_int (- q) = - n).
    { rewrite py_int_floor by lra.
      apply Qfloor_unique; rewrite inject_Z_opp; lra. }
    rewrite py_int_opp in E. lia.
  - specialize (Hpos Hq0). rewrite py_int_floor by exact Hq0. symmetry.
    apply Qfloor_unique; lra.
Qed.

Lemma splits_frac q n f : splits q n f -> (q - inject_Z (py_int q) == f)%Q.
Proof.
  intros H. rewrite <- (splits_int q n f H).
  destruct H as (Hq & _). rewrite Hq. ring.
Qed.

Lemma is_zero_dec x : is_zero x \/ ~ is_zero x.
Proof.
  destruct x as [q | | |]; cbn [is_zero]; try tauto.
  destruct (Qeq_dec q 0); tauto.
Qed.

(** [np_modf] computes the parts of a float; the tests of
    [interpolate_shift] on them. *)
Lemma modf_parts x fr ir :
  parts_of x fr ir ->
  (below eps32 fr -> frac_is_zero (fst (np_modf x)) = true) /\
  (at_least eps64 fr -> frac_is_zero (fst (np_modf x)) = false) /\
  (is_zero ir -> feq (snd (np_modf x)) (Finite 0) = true) /\
  (~ is_zero ir -> feq (snd (np_modf x)) (Finite 0) = false).
Proof.
  intros H. destruct H as [q n f Hs | | |]; cbn [np_modf fst snd below at_least is_zero].
  - pose proof (splits_frac q n f Hs) as Hf.
    rewrite <- (splits_int q n f Hs) in *.
    unfold frac_is_zero, epsilon. cbn [fabs flt feq].
    repeat split.
    + intros Hb. apply Qltb_lt. rewrite Hf.
      eapply Qlt_trans; [exact Hb | reflexivity].
    + intros Hb. apply Qltb_ge. rewrite Hf. exact Hb.
    + intros Hz. apply Qeq_bool_iff. exact Hz.
    + intros Hz. destruct (Qeq_bool (inject_Z n) 0) eqn:E; [| reflexivity].
      apply Qeq_bool_iff in E. contradiction.
  - repeat split; try reflexivity; try tauto.
    intros Hb. exfalso. revert Hb. apply Qlt_not_le. reflexivity.
  - repeat split; try reflexivity; try tauto.
    intros Hb. exfalso. revert Hb. apply Qlt_not_le. reflexivity.
  - repeat split; try reflexivity; try tauto.
Qed.

(** ** [interpolate_shift]: dispatch *)

(** C6 (as amended): for a complex64 array of two or three dimensions and
    a shift [(row, col)], the dispatch is on the offsets as rounded to
    float32, with fractional parts [fr], [fc] and integral parts [ir],
    [ic].  If both fractional parts are below float32(1e-6) in magnitude
    and both integral parts are zero, the input handle itself is returned
    and no kernel is launched; if both fractional parts are that small
    and an integral part is not zero, the integer-shift kernel is launched
    from the input into a fresh output, which is returned; if a
    fractional part is at least 1e-6 in magnitude, or NaN, the
    linear-interpolation kernel is launched from the input into a fresh
    output, which is returned, with the float32 offsets as arguments. *)
Theorem interpolate_shift_dispatch (w : world InterpolatedShiftKernel)
    (array : gpuarray) (row col fr ir fc ic : pyfloat) :
  adtype array = complex64 ->
  (length (shape array) = 2%nat \/ length (shape array) = 3%nat) ->
  parts_of (to_float32 row) fr ir ->
  parts_of (to_float32 col) fc ic ->
  let res := interpolate_shift array [row; col] w in
  let evs := new_events (dev w) (dev (fst res)) in
  (below eps32 fr -> below eps32 fc -> is_zero ir -> is_zero ic ->
     snd res = inr array /\ launches evs = []) /\
  (below eps32 fr -> below eps32 fc -> ~ (is_zero ir /\ is_zero ic) ->
     exists out L,
       snd res = inr out /\ ref out = next_ref (dev w) /\ launches evs = [L] /\
       lkernel L = integer_shift_cuda (self w) /\
       input_of L = Some (ref array) /\ output_of L = Some (ref out)) /\
  (at_least eps64 fr \/ at_least eps64 fc ->
     exists out L,
       snd res = inr out /\ ref out = next_ref (dev w) /\ launches evs = [L] /\
       lkernel L = linear_interpolate_cuda (self w) /\
       input_of L = Some (ref array) /\ output_of L = Some (ref out) /\
       skipn 4 (largs L) = [AFloat (to_float32 row); AFloat (to_float32 col)]).
Proof.
  intros Hd Hn Pr Pc res evs. subst res evs.
  destruct (modf_parts _ _ _ Pr) as (R1 & R2 & R3 & R4).
  destruct (modf_parts _ _ _ Pc) as (C1 & C2 & C3 & C4).
  unfold interpolate_shift. cbn [map]. rewrite Hd. cbn [dtype_eqb negb].
  destruct (np_modf (to_float32 row)) as [fr' ir'].
  destruct (np_modf (to_float32 col)) as [fc' ic'].
  cbn [fst snd] in R1, R2, R3, R4, C1, C2, C3, C4.
  destruct w as [s [n st]].
  assert (Hsh : (exists r c, shape array = [r; c]) \/
                (exists i r c, shape array = [i; r; c])).
  { destruct (shape array) as [| a [| b [| c [| ? ?]]]]; simpl in Hn;
      try (destruct Hn; discriminate); eauto. }
  unfold bind, ret, raise, get_self, gpu_empty, alloc, run_kernel, enqueue.
  destruct Hsh as [(r & c & ->) | (i & r & c & ->)]; cbn [self dev next_ref stream fst snd].
  all: destruct (frac_is_zero fr') eqn:Fr, (frac_is_zero fc') eqn:Fc; cbn [andb].
  all: destruct (feq ir' (Finite 0)) eqn:Ir, (feq ic' (Finite 0)) eqn:Ic; cbn [andb].
  all: cbn [self dev next_ref stream fst snd].
  all: split; [intros Br Bc Zr Zc | split; [intros Br Bc NZ | intros AL]].
  all: try (specialize (R1 Br); discriminate R1).
  all: try (specialize (C1 Bc); discriminate C1).
  all: try (specialize (R3 Zr); discriminate R3).
  all: try (specialize (C3 Zc); discriminate C3).
  all: try (destruct AL as [AL | AL];
            [specialize (R2 AL); discriminate R2 | specialize (C2 AL); discriminate C2]).
  all: try (exfalso; apply NZ; split;
            [ destruct (is_zero_dec ir) as [Z | Z];
              [exact Z | specialize (R4 Z); discriminate R4]
            | destruct (is_zero_dec ic) as [Z | Z];
              [exact Z | specialize (C4 Z); discriminate C4] ]).
  all: try (flatten_stream; split; reflexivity).
  all: try (eexists; eexists; flatten_stream; repeat split; reflexivity).
Qed.

Lemma splits_integer n : splits (inject_Z n) n 0.
Proof.
  unfold splits. split; [ring |]. split; [reflexivity |].
  split; intros _; apply Qle_refl.
Qed.

Lemma splits_fraction f : (0 <= f)%Q -> (f < 1)%Q -> splits f 0 f.
Proof.
  intros H0 H1. unfold splits. split; [ring |].
  split; [rewrite Qabs_pos by exact H0; exact H1 |].
  split; intros H; [exact H0 | exact H].
Qed.

(** Three runs of [interpolate_shift_dispatch] on a 4x5 array: the shift
    (0.0, 0.0) returns the input itself; the shift (64.000002, 0.0), whose
    row offset is 64 as a float32, launches the integer-shift kernel; the
    shift (0.5, 0.0) launches the linear-interpolation kernel. *)
Lemma interpolate_shift_dispatch_witness :
  let w := World InterpolatedShiftKernel_init shift_dev in
  let array := GpuArray 0 [4; 5] complex64 in
  let res0 := interpolate_shift array [Finite 0; Finite 0] w in
  let res1 := interpolate_shift array
                [Finite (281474985506749 # 4398046511104); Finite 0] w in
  let res2 := interpolate_shift array [Finite (1 # 2); Finite 0] w in
  (snd res0 = inr array /\
   launches (new_events (dev w) (dev (fst res0))) = []) /\
  (exists out L,
     snd res1 = inr out /\ ref out = next_ref (dev w) /\
     launches (new_events (dev w) (dev (fst res1))) = [L] /\
     lkernel L = integer_shift_cuda (self w) /\
     input_of L = Some (ref array) /\ output_of L = Some (ref out)) /\
  (exists out L,
     snd res2 = inr out /\ ref out = next_ref (dev w) /\
     launches (new_events (dev w) (dev (fst res2))) = [L] /\
     lkernel L = linear_interpolate_cuda (self w) /\
     input_of L = Some (ref array) /\ output_of L = Some (ref out) /\
     skipn 4 (largs L) = [AFloat (Finite (1 # 2)); AFloat (Finite 0)]).
Proof.
  intros w array res0 res1 res2.
  split; [| split].
  - apply (interpolate_shift_dispatch w array (Finite 0) (Finite 0)
             (Finite 0) (Finite (inject_Z 0)) (Finite 0) (Finite (inject_Z 0))
             eq_refl (or_introl eq_refl)
             (parts_finite 0 0 0 (splits_integer 0))
             (parts_finite 0 0 0 (splits_integer 0)));
      vm_compute; reflexivity.
  - apply (interpolate_shift_dispatch w array
             (Finite (281474985506749 # 4398046511104)) (Finite 0)
             (Finite 0) (Finite (inject_Z 64)) (Finite 0) (Finite (inject_Z 0))
             eq_refl (or_introl eq_refl)
             (parts_finite 64 64 0 (splits_integer 64))
             (parts_finite 0 0 0 (splits_integer 0))).
    + vm_compute; reflexivity.
    + vm_compute; reflexivity.
    + intros [H _]. vm_compute in H. discriminate H.
  - apply (interpolate_shift_dispatch w array (Finite (1 # 2)) (Finite 0)
             (Finite (1 # 2)) (Finite (inject_Z 0)) (Finite 0) (Finite (inject_Z 0))
             eq_refl (or_introl eq_refl)
             (parts_finite (1 # 2) 0 (1 # 2)
                (splits_fraction (1 # 2) ltac:(vm_compute; discriminate) eq_refl))
             (parts_finite 0 0 0 (splits_integer 0))).
    left. vm_compute. discriminate.
Defined.

(** C6 as stated fails on the code.  The shift (64.000002, 0.0) has a row
    offset whose fractional part, 1.99999999495e-6, exceeds 1e-6; the
    offset is 64 once it is rounded to float32, and the call launches the
    integer-shift kernel, not the interpolation kernel. *)
Lemma interpolate_shift_rounds_offsets :
  let w := World InterpolatedShiftKernel_init shift_dev in
  let array := GpuArray 0 [4; 5] complex64 in
  let row := 281474985506749 # 4398046511104 in
  let res := interpolate_shift array [Finite row; Finite 0] w in
  Finite row = round64 (64000002 # 1000000) /\
  splits row 64 (8796093 # 4398046511104) /\
  (eps64 < 8796093 # 4398046511104)%Q /\
  to_float32 (Finite row) = Finite 64 /\
  exists out,
    snd res = inr out /\
    map lkernel (launches (new_events (dev w) (dev (fst res))))
      = [integer_shift_cuda (self w)].
Proof.
  intros w array row res.
  split; [vm_compute; reflexivity |].
  split.
  { unfold splits, row. repeat split.
    - vm_compute. discriminate.
    - intros H. vm_compute in H. exfalso. apply H. reflexivity. }
  split; [reflexivity |].
  split; [vm_compute; reflexivity |].
  eexists. split; vm_compute; reflexivity.
Qed.

(** ** [convolution]: the passes *)

Lemma more_nil d : more d [] = d.
Proof. destruct d. unfold more. simpl. rewrite List.app_nil_r. reflexivity. Qed.

Lemma more_more d a b : more (more d a) b = more d (a ++ b).
Proof. unfold more. simpl. rewrite List.app_assoc. reflexivity. Qed.

Lemma new_events_more d es : new_events d (more d es) = es.
Proof. apply new_events_app. Qed.

Lemma radius_value_eq s std r : radius s std = inr r -> radius_value s std = r.
Proof. unfold radius_value. intros ->. reflexivity. Qed.

Lemma update_taps_eq s d std :
  update_taps (radius_value s std) std (World s d)
  = (World (tap_self s std) (more d (tap_events s std)), inr tt).
Proof.
  unfold update_taps, tap_self, tap_events, taps_changed. unfold_py.
  cbn [self dev fst snd].
  destruct (negb (radius_value s std =? cached_r s) || negb (feq std (cached_std s)));
    cbn [self dev fst snd]; [reflexivity |].
  rewrite more_nil. reflexivity.
Qed.

Lemma row_pass_eq s d stdx y x batches input output :
  row_pass stdx y x batches input output (World s d) =
    match pass_check s stdx with
    | PassConvert e => (World s d, inl e)
    | PassRadius => (World s d, inl too_large)
    | PassShared => (World (tap_self s stdx) (more d (tap_events s stdx)), inl no_shared)
    | PassOk =>
        (World (tap_self s stdx)
           (more d (tap_events s stdx ++
                    [Launch (row_launch s stdx y x batches input output)])),
         inr tt)
    end.
Proof.
  unfold row_pass, pass_check, row_launch.
  unfold bind at 1. unfold get_self at 1. cbn [self dev fst snd].
  destruct (radius s stdx) as [e | r] eqn:Er; [reflexivity |].
  rewrite (radius_value_eq s stdx r Er).
  unfold bind at 1. unfold lift_exn at 1. unfold ret at 1.
  destruct (r >? max_kernel_radius s); [reflexivity |].
  unfold bind at 1. rewrite <- (radius_value_eq s stdx r Er) at 1.
  rewrite update_taps_eq.
  destruct (_ >? max_shared_per_block s); [reflexivity |].
  unfold run_kernel, enqueue. cbn [self dev]. rewrite <- more_more. reflexivity.
Qed.

Lemma col_pass_eq s d stdy y x batches input output :
  col_pass stdy y x batches input output (World s d) =
    match pass_check s stdy with
    | PassConvert e => (World s d, inl e)
    | PassRadius => (World s d, inl too_large)
    | PassShared => (World (tap_self s stdy) (more d (tap_events s stdy)), inl no_shared)
    | PassOk =>
        (World (tap_self s stdy)
           (more d (tap_events s stdy ++
                    [Launch (col_launch s stdy y x batches input output)])),
         inr tt)
    end.
Proof.
  unfold col_pass, pass_check, col_launch.
  unfold bind at 1. unfold get_self at 1. cbn [self dev fst snd].
  destruct (radius s stdy) as [e | r] eqn:Er; [reflexivity |].
  rewrite (radius_value_eq s stdy r Er).
  unfold bind at 1. unfold lift_exn at 1. unfold ret at 1.
  destruct (r >? max_kernel_radius s); [reflexivity |].
  unfold bind at 1. rewrite <- (radius_value_eq s stdy r Er) at 1.
  rewrite update_taps_eq.
  destruct (_ >? max_shared_per_block s); [reflexivity |].
  unfold run_kernel, enqueue. cbn [self dev]. rewrite <- more_more. reflexivity.
Qed.

Lemma radius_tap_self s std std' : radius (tap_self s std) std' = radius s std'.
Proof. unfold tap_self. destruct (taps_changed _ _ _); reflexivity. Qed.

Lemma radius_value_tap_self s std std' :
  radius_value (tap_self s std) std' = radius_value s std'.
Proof. unfold radius_value. rewrite radius_tap_self. reflexivity. Qed.

Lemma pass_check_tap_self s std std' :
  pass_check (tap_self s std) std' = pass_check s std'.
Proof. unfold tap_self. destruct (taps_changed _ _ _); reflexivity. Qed.

Lemma col_launch_tap_self s std stdy y x b i o :
  col_launch (tap_self s std) stdy y x b i o = col_launch s stdy y x b i o.
Proof. unfold tap_self. destruct (taps_changed _ _ _); reflexivity. Qed.

Lemma launches_tap_events s std : launches (tap_events s std) = [].
Proof. unfold tap_events. destruct (taps_changed _ _ _); reflexivity. Qed.


Lemma pass_check_convert s std e :
  radius s std = inl e -> pass_check s std = PassConvert e.
Proof. intros Hr. unfold pass_check. rewrite Hr. reflexivity. Qed.

(** A standard deviation above the threshold is not at most the threshold. *)
Lemma fgt_active std : fgt std threshold = active std.
Proof. destruct std; reflexivity. Qed.

Lemma fle_at_rest std : fle std threshold = at_rest std.
Proof.
  destruct std as [q | | |]; try reflexivity.
  unfold fle, flt, threshold, at_rest, Qltb, tenth. apply negb_involutive.
Qed.

Lemma fgt_fle a b : fgt a b = true -> fle a b = false.
Proof.
  unfold fgt, fle. intros H.
  destruct a, b; try discriminate H; try reflexivity; rewrite H; reflexivity.
Qed.

Lemma list_eqb_refl l : list_eqb l l = true.
Proof.
  unfold list_eqb. rewrite Nat.eqb_refl. simpl.
  induction l as [| a l IH]; simpl; [reflexivity |].
  rewrite Z.eqb_refl. exact IH.
Qed.

Lemma same_layout_fresh data n :
  same_layout data (GpuArray n (shape data) (adtype data)) = true.
Proof. unfold same_layout. simpl. rewrite list_eqb_refl, dtype_eqb_refl. reflexivity. Qed.

Lemma launches_cons e es :
  launches (e :: es) = match e with Launch l => [l] | _ => [] end ++ launches es.
Proof. reflexivity. Qed.

Ltac only_launches :=
  rewrite ?new_events_same;
  repeat (rewrite ?launches_cons, ?launches_app, ?launches_tap_events;
          cbn [List.app launches flat_map]).

(** Reduce a call of [convolution] whose layout and dimension checks pass
    to the outcomes of its two passes: [Hr] equates the call with a name. *)
Ltac py_step Hr :=
  cbv beta iota zeta delta [bind ret raise py_assert gpu_empty alloc enqueue] in Hr;
  cbn [self dev next_ref stream] in Hr.

Ltac conv_cases s d tmp Htmp Hdims stdx stdy Hr :=
  unfold convolution in Hr;
  (destruct tmp as [t0|];
    [ specialize (Htmp t0 eq_refl) | clear Htmp ]);
  py_step Hr;
  rewrite ?Htmp, ?same_layout_fresh, Hdims in Hr;
  (destruct (fgt stdx threshold) eqn:Ex;
    [ rewrite ?(fgt_fle _ _ Ex) in Hr; rewrite ?(fgt_fle _ _ Ex);
      py_step Hr; rewrite row_pass_eq in Hr; destruct (pass_check s stdx) eqn:Px
    | destruct (fle stdx threshold) eqn:Lx ]);
  py_step Hr;
  (destruct (fgt stdy threshold) eqn:Ey;
    [ rewrite ?(fgt_fle _ _ Ey) in Hr; rewrite ?(fgt_fle _ _ Ey) | destruct (fle stdy threshold) eqn:Ly ]);
  py_step Hr;
  try (rewrite col_pass_eq, ?pass_check_tap_self in Hr;
       destruct (pass_check s stdy) eqn:Py);
  py_step Hr; cbn [negb andb] in Hr; py_step Hr;
  unfold more in Hr; cbn [next_ref stream] in Hr.



(** The radius in double precision: 4 * 0.12499999999999999 + 0.5 rounds
    to 1.0, and 4 * 1e308 is infinite. *)
Lemma radius_examples :
  radius gauss (Finite (9007199254740991 # 72057594037927936)) = inr 1 /\
  radius gauss (round64 (10 ^ 308 # 1))
    = inl (OverflowError "cannot convert float infinity to integer") /\
  radius gauss (Finite (1 # 8)) = inr 1 /\
  radius gauss (Finite (1249 # 10000)) = inr 0.
Proof. repeat split; vm_compute; reflexivity. Qed.


Lemma gauss_constructed :
  GaussianSmoothingKernel_init (Finite 4) "float" (Device 0 []) =
    (Device 1 [Alloc (kernel_gpu gauss) false], inr gauss) /\
  max_kernel_radius gauss = 3072 /\ max_shared_per_block gauss = 24576.
Proof. repeat split. Qed.

Lemma no_tmp_layout data t : @None gpuarray = Some t -> same_layout data t = true.
Proof. discriminate. Qed.



(** ** [convolution]: where the result ends up *)

Lemma convolution_ok_layout s d data mfs tmp w' :
  convolution data mfs tmp (World s d) = (w', inr tt) ->
  forall t, tmp = Some t -> same_layout data t = true.
Proof.
  intros H t ->. unfold convolution in H. py_step H.
  destruct (same_layout data t); [reflexivity | discriminate].
Qed.

(** The standard deviations of the passes are those of [mfs], except that
    one-dimensional data has no row pass: [stdx] is 0.0. *)
Lemma unpack_dims_stds sh mfs batches y x stdy stdx :
  unpack_dims sh mfs = Some (batches, y, x, stdy, stdx) ->
  stdy = fst mfs /\
  (length sh <> 1%nat -> stdx = snd mfs) /\
  (length sh = 1%nat -> stdx = Finite 0).
Proof.
  unfold unpack_dims.
  destruct sh as [| a [| b [| c [| ? ?]]]]; intros H; inversion H; subst;
    simpl; repeat split; intros; congruence.
Qed.

(** NaN is neither above the threshold nor at most the threshold. *)
Lemma nan_unordered :
  fgt NaN threshold = false /\ fle NaN threshold = false /\
  active NaN = false /\ at_rest NaN = false.
Proof. repeat split. Qed.

(** C2: [convolution] on an 8x8 array with [mfs = (nan, nan)] and no
    temporary.  Neither standard deviation exceeds 0.1, no pass runs and
    nothing is launched; but neither is at most 0.1, so the call takes the
    last branch, that of a single pass having run, and copies the
    temporary it has just allocated, uninitialised, over [data].  On a
    device where [data] holds 7 and the memory of the temporary 99,
    [data] holds 99 after the call. *)
Theorem convolution_nan_overwrites_data :
  let data := GpuArray 1 [8; 8] complex64 in
  let t := the_tmp gauss_dev data None in
  let res := convolution data (NaN, NaN) None (World gauss gauss_dev) in
  let evs := new_events gauss_dev (dev (fst res)) in
  let conv := fun (_ : launch) (_ : gmap nat nat) => 0%nat in
  let taps := fun (_ : Z) (_ : pyfloat) (_ : gmap nat nat) => 0%nat in
  let zeros := fun (_ : gpuarray) => 0%nat in
  let h : gmap nat nat := <[ref data := 7%nat]> (<[ref t := 99%nat]> ∅) in
  active NaN = false /\ at_rest NaN = false /\
  snd res = inr tt /\
  evs = [Alloc t false; Copy (ref data) (ref t)] /\
  launches evs = [] /\
  h !! ref data = Some 7%nat /\
  exec_events conv taps zeros evs h !! ref data = Some 99%nat.
Proof.
  intros data t res evs conv taps zeros h.
  assert (Hev : evs = [Alloc t false; Copy (ref data) (ref t)]) by reflexivity.
  split; [reflexivity |]. split; [reflexivity |].
  split; [reflexivity |]. split; [exact Hev |].
  split; [reflexivity |]. split; [reflexivity |].
  rewrite Hev. reflexivity.
Qed.

Section ResultInData.
Context {contents : Type}.
Variable conv_result : launch -> gmap nat contents -> contents.
Variable taps_result : Z -> pyfloat -> gmap nat contents -> contents.
Variable zero_contents : gpuarray -> contents.

Abbreviation exec := (exec_events conv_result taps_result zero_contents).

Lemma exec_app (a b : list event) (h : gmap nat contents) :
  exec (a ++ b) h = exec b (exec a h).
Proof. unfold exec_events. apply fold_left_app. Qed.

(** After a launch, its output buffer holds what the kernel made of the
    memory it found. *)
Lemma exec_last_launch (pre : list event) (L : launch) (o : nat)
    (h : gmap nat contents) :
  output_of L = Some o ->
  exec (pre ++ [Launch L]) h !! o = Some (conv_result L (exec pre h)).
Proof.
  intros Ho. rewrite exec_app. simpl. rewrite Ho. apply lookup_insert_eq.
Qed.

(** After a launch into [t] and the copy of [t] to [dst], both hold the
    output of the launch. *)
Lemma exec_launch_copy (pre : list event) (L : launch) (t dst : nat)
    (h : gmap nat contents) :
  output_of L = Some t ->
  exec (pre ++ [Launch L; Copy dst t]) h !! dst
    = Some (conv_result L (exec pre h)) /\
  exec (pre ++ [Launch L; Copy dst t]) h !! t
    = exec (pre ++ [Launch L; Copy dst t]) h !! dst.
Proof.
  intros Ho. rewrite exec_app. simpl. rewrite Ho, lookup_insert_eq.
  rewrite lookup_insert_eq. split; [reflexivity |].
  destruct (decide (dst = t)) as [-> | Hne].
  - rewrite lookup_insert_eq. reflexivity.
  - rewrite lookup_insert_ne by exact Hne. apply lookup_insert_eq.
Qed.

Lemma exec_two_launches (pre mid : list event) (Lr Lc : launch) (o : nat)
    (h : gmap nat contents) :
  output_of Lc = Some o ->
  exec (pre ++ Launch Lr :: mid ++ [Launch Lc]) h !! o
    = Some (conv_result Lc (exec (pre ++ Launch Lr :: mid) h)).
Proof.
  intros Ho.
  replace (pre ++ Launch Lr :: mid ++ [Launch Lc])
    with ((pre ++ Launch Lr :: mid) ++ [Launch Lc])
    by (rewrite <- List.app_assoc; reflexivity).
  apply exec_last_launch. exact Ho.
Qed.

(** After the copy of a buffer [t] that no event has written, [dst]
    holds what the memory had at [t]. *)
Lemma exec_stale_copy (pre : list event) (t dst : nat) (h : gmap nat contents) :
  exec pre h = h ->
  exec (pre ++ [Copy dst t]) h !! dst = h !! t.
Proof.
  intros Hpre. rewrite exec_app, Hpre. simpl.
  destruct (h !! t) as [c |] eqn:E.
  - apply lookup_insert_eq.
  - apply lookup_delete_eq.
Qed.

(** X26: where the result of a call of [convolution] that does not raise
    ends up, for pass standard deviations [(stdy, stdx)] as unpacked from
    [mfs] and any device memory [h] at the call.  If both exceed 0.1, the
    row kernel runs from [data] into the temporary, the column kernel
    from the temporary into [data], and at the end [data] holds the
    output of the column kernel.  If both are at most 0.1, nothing is
    launched, uploaded or copied and the memory, so [data], is
    unchanged.  If exactly one exceeds 0.1, its kernel runs from [data]
    into the temporary, the temporary is then copied to [data], and at
    the end [data] holds the output of that kernel.  In the remaining
    case, where none exceeds 0.1 and one is NaN, nothing is launched and
    [data] receives what the memory held at the temporary. *)
Theorem convolution_result_location (s : GaussianSmoothingKernel) (d : device)
    (data : gpuarray) (mfs : pyfloat * pyfloat) (tmp : option gpuarray)
    (w' : world GaussianSmoothingKernel)
    (batches y x : Z) (stdy stdx : pyfloat) (h : gmap nat contents) :
  convolution data mfs tmp (World s d) = (w', inr tt) ->
  unpack_dims (shape data) mfs = Some (batches, y, x, stdy, stdx) ->
  let evs := new_events d (dev w') in
  let t := the_tmp d data tmp in
  let Lr := row_launch s stdx y x batches data t in
  let Lc := col_launch s stdy y x batches t data in
  let Lc' := col_launch s stdy y x batches data t in
  (active stdx = true -> active stdy = true ->
     exists pre mid,
       evs = pre ++ Launch Lr :: mid ++ [Launch Lc] /\
       launches pre = [] /\ launches mid = [] /\
       exec evs h !! ref data
         = Some (conv_result Lc (exec (pre ++ Launch Lr :: mid) h))) /\
  (at_rest stdx = true -> at_rest stdy = true ->
     (evs = [] \/ evs = [Alloc t false]) /\ exec evs h = h) /\
  (active stdx = negb (active stdy) ->
     exists pre,
       let L := if active stdx then Lr else Lc' in
       evs = pre ++ [Launch L; Copy (ref data) (ref t)] /\
       launches pre = [] /\
       exec evs h !! ref data = Some (conv_result L (exec pre h)) /\
       exec evs h !! ref t = exec evs h !! ref data) /\
  (active stdx = false -> active stdy = false ->
   at_rest stdx && at_rest stdy = false ->
     launches evs = [] /\ exec evs h !! ref data = h !! ref t).
Proof.
  intros Hok Hdims evs t Lr Lc Lc'. subst evs t Lr Lc Lc'.
  pose proof (convolution_ok_layout _ _ _ _ _ _ Hok) as Htmp.
  unfold the_tmp.
  rewrite <- !(fgt_active stdx), <- !(fgt_active stdy),
    <- !(fle_at_rest stdx), <- !(fle_at_rest stdy).
  conv_cases s d tmp Htmp Hdims stdx stdy Hok.
  all: try discriminate Hok.
  all: injection Hok as <-; cbn [dev]; flatten_stream;
    rewrite ?col_launch_tap_self, ?new_events_same.
  all: repeat split; try discriminate; intros; auto.
  all: try (only_launches; reflexivity).
  all: match goal with
       | |- exists pre mid, ?a :: ?p ++ Launch ?Lr :: ?m ++ [Launch ?Lc] = _ /\ _ =>
           exists (a :: p), m;
           split; [reflexivity |]; split; [only_launches; reflexivity |];
           split; [only_launches; reflexivity |];
           apply (exec_two_launches (a :: p) m Lr Lc); reflexivity
       | |- exists pre mid, ?p ++ Launch ?Lr :: ?m ++ [Launch ?Lc] = _ /\ _ =>
           exists p, m;
           split; [reflexivity |]; split; [only_launches; reflexivity |];
           split; [only_launches; reflexivity |];
           apply (exec_two_launches p m Lr Lc); reflexivity
       | |- exists pre, ?a :: ?p ++ [Launch ?L; Copy ?dst ?t] = _ /\ _ =>
           exists (a :: p);
           split; [reflexivity |]; split; [only_launches; reflexivity |];
           apply (exec_launch_copy (a :: p) L t dst); reflexivity
       | |- exists pre, ?p ++ [Launch ?L; Copy ?dst ?t] = _ /\ _ =>
           exists p;
           split; [reflexivity |]; split; [only_launches; reflexivity |];
           apply (exec_launch_copy p L t dst); reflexivity
       | |- exec_events _ _ _ [Copy ?dst ?t] ?h !! _ = _ =>
           apply (exec_stale_copy [] t dst h); reflexivity
       | |- exec_events _ _ _ [Alloc ?a false; Copy ?dst ?t] ?h !! _ = _ =>
           apply (exec_stale_copy [Alloc a false] t dst h); reflexivity
       end.
Qed.
End ResultInData.

(** A run of [convolution_result_location]: an 8x8 array smoothed along
    rows only, [mfs = (0.0, 1.0)], on a device whose memory is empty; the
    contents of a buffer are modelled by a number, which a launch
    increments from what buffer 1 holds. *)
Lemma convolution_result_location_witness :
  let data := GpuArray 1 [8; 8] complex64 in
  let t := the_tmp gauss_dev data None in
  let conv := fun (_ : launch) (h : gmap nat nat) => S (default 0%nat (h !! 1%nat)) in
  let taps := fun (_ : Z) (_ : pyfloat) (_ : gmap nat nat) => 0%nat in
  let zeros := fun (_ : gpuarray) => 0%nat in
  let w' := fst (convolution data (Finite 0, Finite 1) None (World gauss gauss_dev)) in
  let evs := new_events gauss_dev (dev w') in
  let L := row_launch gauss (Finite 1) 8 8 1 data t in
  exists pre,
    evs = pre ++ [Launch L; Copy (ref data) (ref t)] /\
    launches pre = [] /\
    exec_events conv taps zeros evs ∅ !! ref data
      = Some (conv L (exec_events conv taps zeros pre ∅)) /\
    exec_events conv taps zeros evs ∅ !! ref t
      = exec_events conv taps zeros evs ∅ !! ref data.
Proof.
  intros data t conv taps zeros w' evs L.
  destruct (convolution_result_location conv taps zeros gauss gauss_dev data
              (Finite 0, Finite 1) None w' 1 8 8 (Finite 0) (Finite 1) ∅
              eq_refl eq_refl)
    as (_ & _ & H & _).
  apply H. reflexivity.
Defined.

(** * Further properties of the wrappers *)

(** ** Grids *)

(** [(n + b - 1) // b] blocks of [b] cover [n] elements, the last block
    not being empty. *)
Lemma ceil_div_cover n b :
  0 < b -> b * ((n + b - 1) / b - 1) < n <= b * ((n + b - 1) / b).
Proof.
  intros Hb.
  pose proof (Z.div_mod (n + b - 1) b ltac:(lia)).
  pose proof (Z.mod_pos_bound (n + b - 1) b Hb). lia.
Qed.

(** ** [transpose]: acceptance *)

Lemma transpose_raise_untouched (w : world TransposeKernel) (input output : gpuarray) e :
  snd (transpose input output w) = inl e -> fst (transpose input output w) = w.
Proof.
  unfold transpose. unfold_py.
  destruct (shape input) as [| i0 [| i1 [| ? ?]]]; simpl; try reflexivity.
  destruct (shape output) as [| o0 [| o1 so]]; simpl; try reflexivity.
  destruct (i0 =? o1); simpl; [| reflexivity].
  destruct (i1 =? o0); simpl; [| reflexivity].
  destruct (dtype_eqb (adtype input) int32); simpl; [| reflexivity].
  destruct (dtype_eqb (adtype output) int32); simpl; [discriminate | reflexivity].
Qed.

(** X1: [transpose] goes through exactly when the input is two-dimensional,
    both arrays are int32 and the first two extents of the output are the
    input's extents in reverse order; in every other case it raises and
    leaves instance and device as they were. *)
Theorem transpose_accepts_iff (w : world TransposeKernel) (input output : gpuarray) :
  (snd (transpose input output w) = inr tt <->
     length (shape input) = 2%nat /\ adtype input = int32 /\ adtype output = int32 /\
     firstn 2 (shape output) = rev (shape input)) /\
  (forall e, snd (transpose input output w) = inl e ->
     fst (transpose input output w) = w).
Proof.
  split; [| intros e; apply transpose_raise_untouched].
  split.
  - intros H. destruct (transpose_launch_conditions w input output H)
      as (H1 & H2 & H3 & H4 & _). auto.
  - intros (H1 & H2 & H3 & H4).
    unfold transpose. unfold_py.
    destruct (shape input) as [| i0 [| i1 [| ? ?]]]; simpl in H1; try discriminate.
    simpl in H4.
    destruct (shape output) as [| o0 [| o1 so]]; simpl in H4; try discriminate.
    inversion H4; subst. simpl.
    rewrite !Z.eqb_refl, H2, H3. reflexivity.
Qed.

(** X2: the launch of an accepted [transpose] of a [height] x [width]
    array has one 16x16 block per tile: the grid covers the width and the
    height with no empty row or column of blocks, and the kernel is given
    the width and the height. *)
Theorem transpose_grid_covers (w : world TransposeKernel) (input output : gpuarray)
    (height width : Z) :
  shape input = [height; width] ->
  snd (transpose input output w) = inr tt ->
  exists gx gy,
    launches (new_events (dev w) (dev (fst (transpose input output w))))
      = [MkLaunch (transpose_cuda (self w))
           [ABuf (ref input); ABuf (ref output);
            AInt32 (np_int32 width); AInt32 (np_int32 height)]
           (16, 16, 1) (gx, gy, 1) 0] /\
    16 * (gx - 1) < width <= 16 * gx /\
    16 * (gy - 1) < height <= 16 * gy.
Proof.
  intros Hs Hok.
  exists ((width + 15) / 16), ((height + 15) / 16).
  split.
  - revert Hok. unfold transpose. unfold_py. rewrite Hs. simpl.
    destruct (shape output) as [| o0 [| o1 so]]; simpl; try discriminate.
    destruct (height =? o1); simpl; [| discriminate].
    destruct (width =? o0); simpl; [| discriminate].
    destruct (dtype_eqb (adtype input) int32); simpl; [| discriminate].
    destruct (dtype_eqb (adtype output) int32); simpl; [| discriminate].
    intros _. destruct w as [s [n st]]. simpl. rewrite new_events_app. reflexivity.
  - pose proof (ceil_div_cover width 16 ltac:(lia)).
    pose proof (ceil_div_cover height 16 ltac:(lia)).
    replace (width + 16 - 1) with (width + 15) in * by lia.
    replace (height + 16 - 1) with (height + 15) in * by lia. lia.
Qed.

Lemma transpose_grid_covers_witness :
  let w := World TransposeKernel_init (Device 2 []) in
  let input := GpuArray 0 [20; 33] int32 in
  let output := GpuArray 1 [33; 20] int32 in
  exists gx gy,
    launches (new_events (dev w) (dev (fst (transpose input output w))))
      = [MkLaunch (transpose_cuda (self w))
           [ABuf (ref input); ABuf (ref output);
            AInt32 (np_int32 33); AInt32 (np_int32 20)]
           (16, 16, 1) (gx, gy, 1) 0] /\
    16 * (gx - 1) < 33 <= 16 * gx /\
    16 * (gy - 1) < 20 <= 16 * gy.
Proof.
  intros w input output.
  apply (transpose_grid_covers w input output 20 33); reflexivity.
Defined.

(** ** [dot]: failures *)

(** X3: [dot] on arrays of different dtype or of different size fails its
    assertion and leaves the instance (its scratch buffer too) and the
    device as they were: nothing is allocated or launched. *)
Theorem dot_rejects_mismatch (w : world ArrayUtilsKernel) (A B : gpuarray)
    (out : option gpuarray) :
  adtype A <> adtype B \/ size A <> size B ->
  exists msg, dot A B out w = (w, inl (AssertionError msg)).
Proof.
  intros H. unfold dot. unfold_py.
  destruct (dtype_eqb (adtype A) (adtype B)) eqn:Ed; simpl.
  - apply dtype_eqb_eq in Ed.
    destruct (Z.eqb_spec (size A) (size B)) as [Es | Es]; simpl.
    + destruct H; contradiction.
    + eexists. reflexivity.
  - eexists. reflexivity.
Qed.

Lemma dot_rejects_mismatch_witness :
  let w := World (ArrayUtilsKernel_init float64) reduction_dev in
  exists msg,
    dot (GpuArray 0 [8] float32) (GpuArray 1 [9] float32) None w
      = (w, inl (AssertionError msg)).
Proof.
  intros w.
  apply (dot_rejects_mismatch w (GpuArray 0 [8] float32) (GpuArray 1 [9] float32) None).
  right. vm_compute. discriminate.
Defined.

(** X4: on an instance whose accumulator type is neither float32 nor
    float64, a [dot] that passes its assertions raises the unbound-local
    error for [elsize]: no kernel is launched, but the scratch buffer has
    already been brought to the block count. *)
Theorem dot_unbound_elsize (s : ArrayUtilsKernel) (d : device) (A B : gpuarray)
    (out : option gpuarray) :
  adtype A = adtype B ->
  size A = size B ->
  elsize_of (acc_dtype s) = None ->
  let res := dot A B out (World s d) in
  snd res = inl UnboundLocalError /\
  launches (new_events d (dev (fst res))) = [] /\
  exists c, Ctmp (self (fst res)) = Some c /\ dot_grid B <= size c.
Proof.
  intros Hd Hs He res. subst res.
  unfold dot, grow_Ctmp. unfold_py. simpl.
  rewrite Hd, dtype_eqb_refl, Hs, Z.eqb_refl. simpl.
  destruct out as [o|], (Ctmp s) as [c|] eqn:HC; simpl;
    try destruct (size c <? dot_grid B) eqn:E; simpl; rewrite He; simpl.
  all: split; [reflexivity |].
  all: split; [flatten_stream; rewrite ?new_events_same; reflexivity |].
  all: eexists; split; [try exact HC; reflexivity |].
  all: rewrite ?size_singleton; try apply Z.ltb_ge in E; lia.
Qed.

Lemma dot_unbound_elsize_witness :
  let res := dot (GpuArray 0 [2048] float32) (GpuArray 1 [2048] float32) None
               (World (ArrayUtilsKernel_init int32) reduction_dev) in
  snd res = inl UnboundLocalError /\
  launches (new_events reduction_dev (dev (fst res))) = [] /\
  exists c, Ctmp (self (fst res)) = Some c /\
            dot_grid (GpuArray 1 [2048] float32) <= size c.
Proof.
  exact (dot_unbound_elsize (ArrayUtilsKernel_init int32) reduction_dev
           (GpuArray 0 [2048] float32) (GpuArray 1 [2048] float32) None
           eq_refl eq_refl eq_refl).
Defined.

(** ** [fill3D]: what is launched *)

Lemma some_nonpositive_dec v : some_nonpositive v \/ all_positive v.
Proof. destruct v as [[a b] c]. unfold some_nonpositive, all_positive. lia. Qed.

Lemma all_positive_checks (Alim Blim off : vec3) :
  negatable off ->
  all_positive (overlap3 Alim Blim off) ->
  all3 (zip3 Z.ltb (B_start off) Blim) && all3 (zip3 Z.ltb (A_start off) Alim) = true.
Proof.
  intros Hneg H.
  destruct (all3 _ && all3 _) eqn:E; [reflexivity |].
  apply (start_checks_overlap _ _ _ Hneg) in E.
  destruct (overlap3 Alim Blim off) as [[a b] c].
  unfold some_nonpositive, all_positive in *. lia.
Qed.

(** A call of [fill3D] that passes every check. *)
Lemma fill3D_run (w : world CropPadKernel) (A B : gpuarray) (off : vec3) tb ta :
  3 <= ndim A ->
  ndim A = ndim B ->
  leading_match 3 (shape A) (shape B) = true ->
  exact3 (last3 (shape A)) (last3 (shape B)) off ->
  all_positive (overlap3 (last3 (shape A)) (last3 (shape B)) off) ->
  map2ctype (adtype B) = inr tb ->
  map2ctype (adtype A) = inr ta ->
  fill3D A B off w =
    (World (fill3D_load (self w) tb ta)
       (more (dev w) [Launch (fill3D_launch (fill3D_pick (self w) tb ta) A B off)]),
     inr tt).
Proof.
  intros HA HAB Hlead Hex Hpos Hb Ha.
  apply (all_positive_checks _ _ _ (exact_negatable _ _ _ Hex)) in Hpos.
  unfold fill3D, fill3D_launch, fill3D_pick, fill3D_load.
  rewrite <- HAB, (ndim_ltb_3 A HA), Z.eqb_refl. simpl.
  unfold_py. rewrite Hlead, Hpos, <- (lengths_agree _ _ _ Hex), vec3_eqb_refl, Hb, Ha. simpl.
  destruct w as [s d]. simpl.
  destruct (fill3D_cuda s !! _); simpl;
    destruct (last3 (shape A)) as [[? ?] ?], (last3 (shape B)) as [[? ?] ?],
      (map3 np_int32 (A_start off)) as [[? ?] ?],
      (map3 np_int32 (B_start off)) as [[? ?] ?],
      (lengths _ _ off) as [[? ?] ?]; reflexivity.
Qed.

Lemma fill3D_raise_same (w : world CropPadKernel) (A B : gpuarray) (off : vec3) e :
  snd (fill3D A B off w) = inl e -> fst (fill3D A B off w) = w.
Proof.
  unfold fill3D. unfold_py.
  destruct ((ndim A <? 3) || (ndim B <? 3)); simpl; [reflexivity |].
  destruct (ndim A =? ndim B); simpl; [| reflexivity].
  destruct (leading_match 3 (shape A) (shape B)); simpl; [| reflexivity].
  destruct (all3 _ && all3 _); simpl; [| reflexivity].
  destruct (vec3_eqb _ _); simpl; [| reflexivity].
  destruct (map2ctype (adtype B)) as [eb|tb]; simpl; [reflexivity |].
  destruct (map2ctype (adtype A)) as [ea|ta]; simpl; [reflexivity |].
  destruct (fill3D_cuda (self w) !! _); simpl;
    destruct (last3 (shape A)) as [[? ?] ?], (last3 (shape B)) as [[? ?] ?],
      (map3 np_int32 (A_start off)) as [[? ?] ?],
      (map3 np_int32 (B_start off)) as [[? ?] ?],
      (lengths _ _ off) as [[? ?] ?]; simpl; discriminate.
Qed.

(** X5: whenever [fill3D] raises - too few dimensions, mismatching
    leading dimensions, no overlap, an element type without C mapping -
    the instance, its kernel cache included, and the device are exactly as
    before the call. *)
Theorem fill3D_raise_untouched (w : world CropPadKernel) (A B : gpuarray)
    (off : vec3) (e : exn) :
  snd (fill3D A B off w) = inl e ->
  fst (fill3D A B off w) = w /\
  new_events (dev w) (dev (fst (fill3D A B off w))) = [].
Proof.
  intros H. rewrite (fill3D_raise_same w A B off e H).
  split; [reflexivity | apply new_events_same].
Qed.

Lemma fill3D_raise_untouched_witness :
  let w := World CropPadKernel_init crop_dev in
  let A := GpuArray 0 [2; 8; 8] float16 in
  let B := GpuArray 1 [2; 6; 6] complex64 in
  fst (fill3D A B (0, 1, 1) w) = w /\
  new_events (dev w) (dev (fst (fill3D A B (0, 1, 1) w))) = [].
Proof.
  intros w A B.
  apply (fill3D_raise_untouched w A B (0, 1, 1) (ValueError "No mapping for dtype")).
  reflexivity.
Defined.

Lemma overlap_in_bounds a b o :
  0 < overlap a b o ->
  0 <= (if o <? 0 then 0 else o) /\ 0 <= (if - o <? 0 then 0 else - o) /\
  (if o <? 0 then 0 else o) + overlap a b o <= a /\
  (if - o <? 0 then 0 else - o) + overlap a b o <= b.
Proof.
  unfold overlap. destruct (Z.ltb_spec o 0), (Z.ltb_spec (- o) 0); lia.
Qed.

Lemma overlap_int32 a b o :
  int32_range a -> int32_range b -> int32_range o -> 0 < overlap a b o ->
  np_int64 (- o) = - o /\
  np_int32 (if o <? 0 then 0 else o) = (if o <? 0 then 0 else o) /\
  np_int32 (if - o <? 0 then 0 else - o) = (if - o <? 0 then 0 else - o) /\
  np_int32 (np_int64 (Z.min (np_int64 (o + b)) a - np_int32 (if o <? 0 then 0 else o)))
    = overlap a b o.
Proof.
  unfold int32_range. intros Ha Hb Ho Hpos.
  pose proof (overlap_in_bounds a b o Hpos) as (H1 & H2 & H3 & H4).
  assert (E0 : np_int64 (- o) = - o) by (apply np_int64_opp; lia).
  assert (E1 : np_int32 (if o <? 0 then 0 else o) = (if o <? 0 then 0 else o))
    by (apply np_int32_small; destruct (o <? 0); lia).
  assert (E2 : np_int32 (if - o <? 0 then 0 else - o) = (if - o <? 0 then 0 else - o)).
  { apply np_int32_small. unfold overlap in *.
    destruct (Z.ltb_spec (- o) 0); lia. }
  rewrite E1. repeat split; try assumption.
  rewrite np_int32_int64, (np_int64_small (o + b)) by (unfold int64_range; lia).
  unfold overlap in *.
  rewrite np_int32_small; destruct (Z.ltb_spec o 0); lia.
Qed.

(** X6: a [fill3D] on arrays of at least three dimensions with matching
    leading dimensions, extents and offsets in the int32 range, a positive
    overlap on the three trailing axes and element types with a C mapping
    does not raise and launches one kernel.  The start offsets it passes
    are [max(offset, 0)] for [A] and [max(-offset, 0)] for [B], the lengths
    are the overlaps, and the box they describe lies inside both arrays:
    on every axis start + length is at most the extent. *)
Theorem fill3D_copies_overlap (w : world CropPadKernel) (A B : gpuarray) (off : vec3)
    (tb ta : string) :
  3 <= ndim A ->
  ndim A = ndim B ->
  leading_match 3 (shape A) (shape B) = true ->
  map2ctype (adtype B) = inr tb ->
  map2ctype (adtype A) = inr ta ->
  all_int32 (last3 (shape A)) -> all_int32 (last3 (shape B)) -> all_int32 off ->
  all_positive (overlap3 (last3 (shape A)) (last3 (shape B)) off) ->
  let res := fill3D A B off w in
  let Alim := last3 (shape A) in
  let Blim := last3 (shape B) in
  exists k,
    snd res = inr tt /\
    new_events (dev w) (dev (fst res)) = [Launch (fill3D_launch k A B off)] /\
    map3 np_int32 (A_start off) = A_start off /\
    map3 np_int32 (B_start off) = B_start off /\
    lengths Alim Blim off = overlap3 Alim Blim off /\
    vec3_le (0, 0, 0) (A_start off) /\ vec3_le (0, 0, 0) (B_start off) /\
    vec3_le (vec3_add (A_start off) (overlap3 Alim Blim off)) Alim /\
    vec3_le (vec3_add (B_start off) (overlap3 Alim Blim off)) Blim.
Proof.
  intros HA HAB Hlead Hb Ha HrA HrB Hro Hpos res Alim Blim. subst res Alim Blim.
  rewrite (fill3D_run w A B off tb ta HA HAB Hlead (int32_exact _ _ _ HrA HrB Hro) Hpos Hb Ha).
  exists (fill3D_pick (self w) tb ta).
  split; [reflexivity |]. split; [apply new_events_more |].
  destruct (last3 (shape A)) as [[a0 a1] a2], (last3 (shape B)) as [[b0 b1] b2],
    off as [[o0 o1] o2].
  unfold all_int32, all_positive, overlap3 in *.
  destruct HrA as (? & ? & ?), HrB as (? & ? & ?), Hro as (? & ? & ?),
    Hpos as (P0 & P1 & P2).
  destruct (overlap_int32 a0 b0 o0) as (N0 & E0a & E0b & E0l); try assumption.
  destruct (overlap_int32 a1 b1 o1) as (N1 & E1a & E1b & E1l); try assumption.
  destruct (overlap_int32 a2 b2 o2) as (N2 & E2a & E2b & E2l); try assumption.
  destruct (overlap_in_bounds a0 b0 o0 P0) as (? & ? & ? & ?).
  destruct (overlap_in_bounds a1 b1 o1 P1) as (? & ? & ? & ?).
  destruct (overlap_in_bounds a2 b2 o2 P2) as (? & ? & ? & ?).
  unfold lengths, A_start, B_start, vec3_le, vec3_add, zip3, map3.
  rewrite N0, N1, N2.
  rewrite E0a, E1a, E2a, E0b, E1b, E2b.
  unfold A_start, map3, zip3 in *.
  split; [reflexivity |]. split; [reflexivity |].
  split; [rewrite <- E0l, <- E1l, <- E2l; rewrite ?E0a, ?E1a, ?E2a; reflexivity |].
  repeat split; assumption.
Qed.

Lemma fill3D_copies_overlap_witness :
  let w := World CropPadKernel_init crop_dev in
  let A := GpuArray 0 [2; 4; 8; 8] complex64 in
  let B := GpuArray 1 [2; 4; 6; 6] float32 in
  let off := (0, 1, -1) in
  exists k,
    snd (fill3D A B off w) = inr tt /\
    new_events (dev w) (dev (fst (fill3D A B off w))) = [Launch (fill3D_launch k A B off)] /\
    map3 np_int32 (A_start off) = A_start off /\
    map3 np_int32 (B_start off) = B_start off /\
    lengths (last3 (shape A)) (last3 (shape B)) off
      = overlap3 (last3 (shape A)) (last3 (shape B)) off /\
    vec3_le (0, 0, 0) (A_start off) /\ vec3_le (0, 0, 0) (B_start off) /\
    vec3_le (vec3_add (A_start off) (overlap3 (last3 (shape A)) (last3 (shape B)) off))
      (last3 (shape A)) /\
    vec3_le (vec3_add (B_start off) (overlap3 (last3 (shape A)) (last3 (shape B)) off))
      (last3 (shape B)).
Proof.
  intros w A B off.
  apply (fill3D_copies_overlap w A B off "float" "complex<float>");
    try reflexivity; vm_compute; intuition discriminate.
Defined.

(** ** [fill3D]: the kernel cache *)

Lemma key_split (a a' r r' : string) :
  no_comma a = true -> no_comma a' = true ->
  (a ++ "," ++ r)%string = (a' ++ "," ++ r')%string -> a = a' /\ r = r'.
Proof.
  revert a'. induction a as [| c a IH]; intros [| c' a'] Ha Ha' H; simpl in *.
  - inversion H. auto.
  - inversion H; subst. rewrite Ascii.eqb_refl in Ha'. discriminate.
  - inversion H; subst. rewrite Ascii.eqb_refl in Ha. discriminate.
  - inversion H; subst.
    apply andb_true_iff in Ha as [_ Ha]. apply andb_true_iff in Ha' as [_ Ha'].
    destruct (IH a' Ha Ha' H2) as [-> ->]. auto.
Qed.

Lemma map2ctype_no_comma d t : map2ctype d = inr t -> no_comma t = true.
Proof. destruct d; simpl; intros H; inversion H; reflexivity. Qed.

(** The key of the cache determines the two C types. *)
Lemma fill3D_key_inj db da tb ta db' da' tb' ta' :
  map2ctype db = inr tb -> map2ctype da = inr ta ->
  map2ctype db' = inr tb' -> map2ctype da' = inr ta' ->
  (tb ++ "," ++ ta)%string = (tb' ++ "," ++ ta')%string ->
  tb = tb' /\ ta = ta'.
Proof.
  intros Hb Ha Hb' Ha' H.
  apply key_split in H; eauto using map2ctype_no_comma.
Qed.

(** A call of [fill3D] that returns: what it did. *)
Lemma fill3D_ok_inv (w : world CropPadKernel) (A B : gpuarray) (off : vec3) :
  snd (fill3D A B off w) = inr tt ->
  exists tb ta,
    map2ctype (adtype B) = inr tb /\ map2ctype (adtype A) = inr ta /\
    fill3D A B off w =
      (World (fill3D_load (self w) tb ta)
         (more (dev w) [Launch (fill3D_launch (fill3D_pick (self w) tb ta) A B off)]),
       inr tt).
Proof.
  unfold fill3D, fill3D_launch, fill3D_pick, fill3D_load. unfold_py.
  destruct ((ndim A <? 3) || (ndim B <? 3)); simpl; [discriminate |].
  destruct (ndim A =? ndim B); simpl; [| discriminate].
  destruct (leading_match 3 (shape A) (shape B)); simpl; [| discriminate].
  destruct (all3 _ && all3 _); simpl; [| discriminate].
  destruct (vec3_eqb _ _); simpl; [| discriminate].
  destruct (map2ctype (adtype B)) as [eb|tb]; simpl; [discriminate |].
  destruct (map2ctype (adtype A)) as [ea|ta]; simpl; [discriminate |].
  intros _. exists tb, ta. split; [reflexivity |]. split; [reflexivity |].
  destruct w as [s d]. simpl.
  destruct (fill3D_cuda s !! _); simpl;
    destruct (last3 (shape A)) as [[? ?] ?], (last3 (shape B)) as [[? ?] ?],
      (map3 np_int32 (A_start off)) as [[? ?] ?],
      (map3 np_int32 (B_start off)) as [[? ?] ?],
      (lengths _ _ off) as [[? ?] ?]; reflexivity.
Qed.

Lemma fill3D_load_ok s db da tb ta :
  map2ctype db = inr tb -> map2ctype da = inr ta ->
  fill3D_cache_ok s -> fill3D_cache_ok (fill3D_load s tb ta).
Proof.
  intros Hb Ha Hok. unfold fill3D_load.
  destruct (fill3D_cuda s !! _) eqn:E; [exact Hok |].
  intros key k. simpl. rewrite lookup_insert.
  destruct (decide ((tb ++ "," ++ ta)%string = key)) as [<- | Hne].
  - intros H. inversion H; subst. exists db, da, tb, ta. auto.
  - apply Hok.
Qed.

Lemma fill3D_cache_ok_step (w : world CropPadKernel) (A B : gpuarray) (off : vec3) :
  fill3D_cache_ok (self w) -> fill3D_cache_ok (self (fst (fill3D A B off w))).
Proof.
  intros Hok.
  destruct (snd (fill3D A B off w)) as [e | []] eqn:E.
  - rewrite (fill3D_raise_same w A B off e E). exact Hok.
  - destruct (fill3D_ok_inv w A B off E) as (tb & ta & Hb & Ha & ->). simpl.
    eapply fill3D_load_ok; eauto.
Qed.

Lemma fill3D_cache_ok_calls cs : forall w,
  fill3D_cache_ok (self w) ->
  fill3D_cache_ok (self (fold_left (fun w c => run_fill3D c w) cs w)).
Proof.
  induction cs as [| [[A B] off] cs IH]; intros w Hok; simpl; [exact Hok |].
  apply IH. apply fill3D_cache_ok_step. exact Hok.
Qed.

Lemma fill3D_cache_ok_init : fill3D_cache_ok CropPadKernel_init.
Proof. intros key k H. simpl in H. rewrite lookup_empty in H. discriminate. Qed.

(** X7: after any sequence of [fill3D] calls on a new [CropPadKernel],
    raising ones included, a further call that returns has launched the
    kernel loaded for exactly its own pair of element types
    ([IN_TYPE] of [B], [OUT_TYPE] of [A]), whether it was cached or loaded
    by this call; that kernel is in the cache afterwards and no earlier
    cache entry has changed. *)
Theorem fill3D_kernel_matches_types (cs : list (gpuarray * gpuarray * vec3))
    (d : device) (A B : gpuarray) (off : vec3) :
  let w := fold_left (fun w c => run_fill3D c w) cs (World CropPadKernel_init d) in
  let res := fill3D A B off w in
  snd res = inr tt ->
  exists tb ta,
    map2ctype (adtype B) = inr tb /\ map2ctype (adtype A) = inr ta /\
    new_events (dev w) (dev (fst res))
      = [Launch (fill3D_launch (fill3D_kernel tb ta) A B off)] /\
    fill3D_cuda (self (fst res)) !! (tb ++ "," ++ ta)%string
      = Some (fill3D_kernel tb ta) /\
    (forall key k, fill3D_cuda (self w) !! key = Some k ->
                   fill3D_cuda (self (fst res)) !! key = Some k).
Proof.
  intros w res Hok. subst res.
  assert (Hinv : fill3D_cache_ok (self w)).
  { apply fill3D_cache_ok_calls. apply fill3D_cache_ok_init. }
  destruct (fill3D_ok_inv w A B off Hok) as (tb & ta & Hb & Ha & ->).
  exists tb, ta. split; [exact Hb |]. split; [exact Ha |].
  cbn [fst snd dev self]. rewrite new_events_more.
  unfold fill3D_pick, fill3D_load.
  destruct (fill3D_cuda (self w) !! (tb ++ "," ++ ta)%string) as [k|] eqn:E.
  - destruct (Hinv _ _ E) as (db' & da' & tb' & ta' & Hb' & Ha' & Hkey & ->).
    destruct (fill3D_key_inj _ _ _ _ _ _ _ _ Hb Ha Hb' Ha' Hkey) as [<- <-].
    split; [reflexivity |]. split; [exact E |]. auto.
  - split; [reflexivity |]. simpl.
    split; [apply lookup_insert_eq |].
    intros key k Hk. rewrite lookup_insert_ne; [exact Hk |].
    intros <-. congruence.
Qed.

Lemma fill3D_kernel_matches_types_witness :
  let A := GpuArray 0 [2; 8; 8] complex64 in
  let B := GpuArray 1 [2; 6; 6] float32 in
  let C := GpuArray 2 [2; 6; 6] complex64 in
  let w := fold_left (fun w c => run_fill3D c w) [(A, C, (0, 0, 0)); (A, B, (0, 9, 0))]
             (World CropPadKernel_init crop_dev) in
  exists tb ta,
    map2ctype (adtype B) = inr tb /\ map2ctype (adtype A) = inr ta /\
    new_events (dev w) (dev (fst (fill3D A B (0, 1, 1) w)))
      = [Launch (fill3D_launch (fill3D_kernel tb ta) A B (0, 1, 1))] /\
    fill3D_cuda (self (fst (fill3D A B (0, 1, 1) w))) !! (tb ++ "," ++ ta)%string
      = Some (fill3D_kernel tb ta) /\
    (forall key k, fill3D_cuda (self w) !! key = Some k ->
                   fill3D_cuda (self (fst (fill3D A B (0, 1, 1) w))) !! key = Some k).
Proof.
  intros A B C w.
  apply (fill3D_kernel_matches_types [(A, C, (0, 0, 0)); (A, B, (0, 9, 0))]
           crop_dev A B (0, 1, 1)).
  reflexivity.
Defined.

(** ** [fill3D]: the checks where the int64 arithmetic is exact *)

(** X27: for arrays [A], [B] of at least three dimensions with matching
    leading dimensions and an offset whose components lie strictly
    between -2^63 and 2^63: if the overlap
    [min(offset + B_extent, A_extent) - max(offset, 0)] is zero or
    negative on one of the three trailing axes, [fill3D(A, B, offset)]
    raises the no-overlap assertion, and instance and device are exactly
    as before; and the call raises that assertion only in this case. *)
Theorem fill3D_rejects_no_overlap (w : world CropPadKernel) (A B : gpuarray)
    (off : vec3) :
  3 <= ndim A ->
  ndim A = ndim B ->
  leading_match 3 (shape A) (shape B) = true ->
  negatable off ->
  (some_nonpositive (overlap3 (last3 (shape A)) (last3 (shape B)) off) ->
     fill3D A B off w = (w, inl (AssertionError no_overlap_msg)) /\
     new_events (dev w) (dev (fst (fill3D A B off w))) = []) /\
  (snd (fill3D A B off w) = inl (AssertionError no_overlap_msg) ->
     some_nonpositive (overlap3 (last3 (shape A)) (last3 (shape B)) off)).
Proof.
  intros HA HAB Hlead Hneg. split.
  - intros Hno. rewrite (fill3D_without_overlap w A B off HA HAB Hlead Hneg Hno).
    split; [reflexivity | apply new_events_same].
  - apply fill3D_assertion_only_without_overlap. exact Hneg.
Qed.

(** A run of [fill3D_rejects_no_overlap]: a 6x6 block placed at column
    offset 8 of an 8x8 array, in a batch of 2x4. *)
Lemma fill3D_rejects_no_overlap_witness :
  let w := World CropPadKernel_init crop_dev in
  let A := GpuArray 0 [2; 4; 8; 8] complex64 in
  let B := GpuArray 1 [2; 4; 6; 6] complex64 in
  fill3D A B (0, 0, 8) w = (w, inl (AssertionError no_overlap_msg)) /\
  new_events (dev w) (dev (fst (fill3D A B (0, 0, 8) w))) = [].
Proof.
  intros w A B.
  apply (fill3D_rejects_no_overlap w A B (0, 0, 8)).
  - vm_compute. discriminate.
  - reflexivity.
  - reflexivity.
  - unfold negatable. lia.
  - right. right. vm_compute. discriminate.
Defined.

(** X28: where the int64 arithmetic of [fill3D] is exact - on every
    trailing axis the offset lies strictly between -2^63 and 2^63 and
    neither [offset + B_extent] nor [A_extent - offset] leaves the int64
    range, as is the case for extents below 2^62 and offsets of
    magnitude at most 2^62 - the two overlap lengths
    [min(offset + B_extent, A_extent) - A_start] and
    [min(A_extent - offset, B_extent) - B_start], as the code stores them
    (int32), are equal on every axis, and the call does not raise the
    'left and right lengths are not matching' assertion. *)
Theorem fill3D_lengths_consistent_exact (w : world CropPadKernel) (A B : gpuarray)
    (off : vec3) :
  exact3 (last3 (shape A)) (last3 (shape B)) off \/
    moderate (last3 (shape A)) (last3 (shape B)) off ->
  lengths (last3 (shape A)) (last3 (shape B)) off
    = lengths2 (last3 (shape A)) (last3 (shape B)) off /\
  snd (fill3D A B off w) <> inl (AssertionError mismatch_msg).
Proof.
  intros Hex.
  assert (Hex' : exact3 (last3 (shape A)) (last3 (shape B)) off)
    by (destruct Hex as [H | H]; [exact H | exact (moderate_exact _ _ _ H)]).
  clear Hex.
  split; [exact (lengths_agree _ _ _ Hex') |].
  unfold fill3D. unfold_py.
  destruct ((ndim A <? 3) || (ndim B <? 3)); simpl; [discriminate |].
  destruct (ndim A =? ndim B); simpl; [| discriminate].
  destruct (leading_match 3 (shape A) (shape B)); simpl; [| discriminate].
  destruct (all3 (zip3 Z.ltb (B_start off) (last3 (shape B))) &&
            all3 (zip3 Z.ltb (A_start off) (last3 (shape A)))); simpl;
    [| discriminate].
  rewrite <- (lengths_agree _ _ _ Hex'), vec3_eqb_refl. simpl.
  destruct (map2ctype (adtype B)) as [e|tb] eqn:EB; simpl;
    [destruct (adtype B); simpl in EB; inversion EB; discriminate |].
  destruct (map2ctype (adtype A)) as [e|ta] eqn:EA; simpl;
    [destruct (adtype A); simpl in EA; inversion EA; discriminate |].
  destruct (fill3D_cuda (self w) !! _); simpl;
    destruct (last3 (shape A)) as [[? ?] ?], (last3 (shape B)) as [[? ?] ?],
      (map3 np_int32 (A_start off)) as [[? ?] ?],
      (map3 np_int32 (B_start off)) as [[? ?] ?],
      (lengths _ _ off) as [[? ?] ?]; simpl; discriminate.
Qed.

(** A run of [fill3D_lengths_consistent_exact]: a 6x6 block at offset
    (1, -1) of an 8x8 array, in a batch of 2x4. *)
Lemma fill3D_lengths_consistent_exact_witness :
  let w := World CropPadKernel_init crop_dev in
  let A := GpuArray 0 [2; 4; 8; 8] complex64 in
  let B := GpuArray 1 [2; 4; 6; 6] complex64 in
  lengths (last3 (shape A)) (last3 (shape B)) (0, 1, -1)
    = lengths2 (last3 (shape A)) (last3 (shape B)) (0, 1, -1) /\
  snd (fill3D A B (0, 1, -1) w) <> inl (AssertionError mismatch_msg).
Proof.
  intros w A B.
  apply (fill3D_lengths_consistent_exact w A B (0, 1, -1)).
  right. vm_compute. intuition discriminate.
Defined.

(** ** [crop_pad_2d_simple]: the window that is copied *)

Lemma combine_same_prefix (l x y : list Z) :
  combine (l ++ x) (l ++ y) = combine l l ++ combine x y.
Proof. induction l as [| a l IH]; simpl; [reflexivity | rewrite IH; reflexivity]. Qed.

Lemma forallb_firstn {T} (P : T -> bool) (l : list T) n :
  forallb P l = true -> forallb P (firstn n l) = true.
Proof.
  revert n. induction l as [| a l IH]; intros [| n] H; simpl in *; try reflexivity.
  apply andb_true_iff in H as [Ha Hl]. rewrite Ha. simpl. apply IH. exact Hl.
Qed.

Lemma forallb_combine_same (l : list Z) :
  forallb (fun p : Z * Z => fst p - snd p =? 0) (combine l l) = true.
Proof.
  induction l as [| a l IH]; simpl; [reflexivity |].
  rewrite Z.sub_diag. simpl. exact IH.
Qed.

Lemma leading_match_same n (l x y : list Z) :
  length x = length y -> (length x <= n)%nat ->
  leading_match n (l ++ x) (l ++ y) = true.
Proof.
  intros Hxy Hn. unfold leading_match, but_last.
  rewrite combine_same_prefix.
  rewrite List.firstn_app.
  replace (length (combine l l ++ combine y x) - n - length (combine l l))%nat with 0%nat.
  - simpl. rewrite List.app_nil_r. apply forallb_firstn. apply forallb_combine_same.
  - rewrite List.length_app, !List.length_combine. lia.
Qed.

Lemma batched_shape_dims A la a1 a2 :
  shape A = la ++ [a1; a2] -> shape (batched A) = batch_dims la ++ [a1; a2].
Proof.
  intros H. unfold batched. destruct la as [| a la].
  - assert (E : (ndim A =? 2) = true) by (unfold ndim; rewrite H; reflexivity).
    rewrite E. simpl. rewrite H. reflexivity.
  - assert (E : (ndim A =? 2) = false).
    { unfold ndim. rewrite H. apply Z.eqb_neq.
      rewrite List.length_app. simpl length. lia. }
    rewrite E. exact H.
Qed.

Lemma last3_batch_dims la a1 a2 :
  last3 (batch_dims la ++ [a1; a2]) = (List.last la 1, a1, a2).
Proof.
  unfold last3, from_end. rewrite List.rev_app_distr. simpl.
  destruct la as [| a la]; [reflexivity |].
  destruct (@exists_last _ (a :: la) ltac:(discriminate)) as (l' & e & Hl).
  rewrite Hl. simpl batch_dims.
  replace (batch_dims (l' ++ [e])) with (l' ++ [e])
    by (destruct l'; reflexivity).
  rewrite List.rev_app_distr, List.last_last. reflexivity.
Qed.

Lemma ndim_batched A la a1 a2 :
  shape A = la ++ [a1; a2] -> 3 <= ndim (batched A).
Proof.
  intros H. unfold ndim. rewrite (batched_shape_dims A la a1 a2 H), List.length_app.
  simpl. destruct la; simpl; lia.
Qed.

(** Centred on each other, two extents overlap on the smaller one. *)
Lemma centred_overlap a b : 0 < a -> 0 < b -> overlap a b (a / 2 - b / 2) = Z.min a b.
Proof.
  intros Ha Hb. unfold overlap.
  pose proof (Z.div_mod a 2 ltac:(lia)).
  pose proof (Z.div_mod b 2 ltac:(lia)).
  pose proof (Z.mod_pos_bound a 2 ltac:(lia)).
  pose proof (Z.mod_pos_bound b 2 ltac:(lia)). lia.
Qed.

Lemma lengths_overlap3 (Alim Blim off : vec3) :
  all_int32 Alim -> all_int32 Blim -> all_int32 off ->
  all_positive (overlap3 Alim Blim off) ->
  lengths Alim Blim off = overlap3 Alim Blim off.
Proof.
  destruct Alim as [[a0 a1] a2], Blim as [[b0 b1] b2], off as [[o0 o1] o2].
  unfold all_int32, all_positive, overlap3.
  intros (? & ? & ?) (? & ? & ?) (? & ? & ?) (P0 & P1 & P2).
  destruct (overlap_int32 a0 b0 o0) as (_ & _ & _ & E0); try assumption.
  destruct (overlap_int32 a1 b1 o1) as (_ & _ & _ & E1); try assumption.
  destruct (overlap_int32 a2 b2 o2) as (_ & _ & _ & E2); try assumption.
  unfold lengths, A_start, zip3, map3. rewrite E0, E1, E2. reflexivity.
Qed.

Lemma half_difference_range a b :
  0 < a < 2 ^ 31 -> 0 < b < 2 ^ 31 -> int32_range (a / 2 - b / 2).
Proof.
  intros Ha Hb. unfold int32_range.
  pose proof (Z.div_mod a 2 ltac:(lia)).
  pose proof (Z.div_mod b 2 ltac:(lia)).
  pose proof (Z.mod_pos_bound a 2 ltac:(lia)).
  pose proof (Z.mod_pos_bound b 2 ltac:(lia)). lia.
Qed.

(** X8: for arrays [A], [B] with the same leading dimensions, positive
    extents in the int32 range and element types with a C mapping,
    [crop_pad_2d_simple] never fails the overlap check of [fill3D]: it
    returns after one launch on the batched views, and the box that launch
    copies has, on the two trailing axes, the smaller of the two extents,
    and the whole batch extent on the third. *)
Theorem crop_pad_centred_window (w : world CropPadKernel) (A B : gpuarray)
    (la : list Z) (a1 a2 b1 b2 : Z) (tb ta : string) :
  shape A = la ++ [a1; a2] ->
  shape B = la ++ [b1; b2] ->
  0 < a1 < 2 ^ 31 -> 0 < a2 < 2 ^ 31 -> 0 < b1 < 2 ^ 31 -> 0 < b2 < 2 ^ 31 ->
  0 < List.last la 1 < 2 ^ 31 ->
  map2ctype (adtype B) = inr tb ->
  map2ctype (adtype A) = inr ta ->
  let res := crop_pad_2d_simple A B w in
  let off := (0, a1 / 2 - b1 / 2, a2 / 2 - b2 / 2) in
  exists k,
    snd res = inr tt /\
    new_events (dev w) (dev (fst res))
      = [Launch (fill3D_launch k (batched A) (batched B) off)] /\
    lengths (last3 (shape (batched A))) (last3 (shape (batched B))) off
      = (List.last la 1, Z.min a1 b1, Z.min a2 b2).
Proof.
  intros HA HB Ha1 Ha2 Hb1 Hb2 He Htb Hta res off. subst res off.
  assert (Hn : ndim A = ndim B).
  { unfold ndim. rewrite HA, HB, !List.length_app. reflexivity. }
  assert (Hge : (ndim A >=? 2) = true).
  { unfold ndim. rewrite HA, List.length_app. simpl. apply Z.geb_le. lia. }
  pose proof (batched_shape_dims A la a1 a2 HA) as HsA.
  pose proof (batched_shape_dims B la b1 b2 HB) as HsB.
  assert (Hcall : crop_pad_2d_simple A B w
                  = fill3D (batched A) (batched B)
                      (0, a1 / 2 - b1 / 2, a2 / 2 - b2 / 2) w).
  { assert (Hlead : leading_match 2 (shape B) (shape A) = true)
      by (rewrite HA, HB; apply leading_match_same; simpl; lia).
    unfold crop_pad_2d_simple. unfold_py.
    rewrite Hge, Hn, Z.eqb_refl, Hlead. simpl.
    fold (batched B). rewrite <- Hn. fold (batched A).
    unfold center_offset.
    destruct (batched_last2 A la a1 a2 HA) as [-> ->].
    destruct (batched_last2 B la b1 b2 HB) as [-> ->].
    reflexivity. }
  assert (Hov : overlap3 (last3 (shape (batched A))) (last3 (shape (batched B)))
                  (0, a1 / 2 - b1 / 2, a2 / 2 - b2 / 2)
                = (List.last la 1, Z.min a1 b1, Z.min a2 b2)).
  { rewrite HsA, HsB, !last3_batch_dims. unfold overlap3.
    rewrite !centred_overlap by lia. f_equal. f_equal.
    unfold overlap. lia. }
  assert (Hpos : all_positive (overlap3 (last3 (shape (batched A)))
                                 (last3 (shape (batched B)))
                                 (0, a1 / 2 - b1 / 2, a2 / 2 - b2 / 2))).
  { rewrite Hov. unfold all_positive. lia. }
  assert (HrA : all_int32 (last3 (shape (batched A))))
    by (rewrite HsA, last3_batch_dims; unfold all_int32, int32_range; lia).
  assert (HrB : all_int32 (last3 (shape (batched B))))
    by (rewrite HsB, last3_batch_dims; unfold all_int32, int32_range; lia).
  assert (Hro : all_int32 (0, a1 / 2 - b1 / 2, a2 / 2 - b2 / 2)).
  { unfold all_int32. split; [unfold int32_range; lia |].
    split; apply half_difference_range; assumption. }
  rewrite Hcall.
  rewrite (fill3D_run w (batched A) (batched B) _ tb ta).
  - eexists. split; [reflexivity |]. split; [apply new_events_more |].
    rewrite lengths_overlap3; [exact Hov | | | | exact Hpos]; assumption.
  - apply (ndim_batched A la a1 a2 HA).
  - unfold ndim. rewrite HsA, HsB, !List.length_app. reflexivity.
  - rewrite HsA, HsB. apply leading_match_same; simpl; lia.
  - apply int32_exact; assumption.
  - exact Hpos.
  - unfold batched. destruct (ndim B =? 2); exact Htb.
  - unfold batched. destruct (ndim A =? 2); exact Hta.
Qed.

Lemma crop_pad_centred_window_witness :
  let w := World CropPadKernel_init crop_dev in
  let A := GpuArray 0 [3; 4; 4] complex64 in
  let B := GpuArray 1 [3; 7; 2] complex64 in
  let off := (0, 4 / 2 - 7 / 2, 4 / 2 - 2 / 2) in
  exists k,
    snd (crop_pad_2d_simple A B w) = inr tt /\
    new_events (dev w) (dev (fst (crop_pad_2d_simple A B w)))
      = [Launch (fill3D_launch k (batched A) (batched B) off)] /\
    lengths (last3 (shape (batched A))) (last3 (shape (batched B))) off
      = (List.last [3] 1, Z.min 4 7, Z.min 4 2).
Proof.
  intros w A B off.
  apply (crop_pad_centred_window w A B [3] 4 4 7 2 "complex<float>" "complex<float>");
    try reflexivity; simpl; lia.
Defined.

(** ** [convolution]: budgets of a constructed instance *)

Lemma constructed_pass_check nstd ktype kg r0 std0 std r :
  let s := set_taps (GaussianSmoothingKernel_fields nstd ktype kg) r0 std0 in
  radius s std = inr r ->
  pass_check s std =
    if r >? 3072 then PassRadius
    else if r >? 94 then PassShared else PassOk.
Proof.
  intros s Hr. unfold pass_check. rewrite Hr.
  change (max_kernel_radius s) with 3072.
  change (blockdim_x s) with 4. change (blockdim_y s) with 16.
  change (max_shared_per_block s) with 24576.
  unfold complex64_itemsize.
  destruct (r >? 3072); [reflexivity |].
  destruct (Z.gtb_spec r 94), (Z.gtb_spec ((4 + 2 * r) * 16 * 8) 24576);
    try reflexivity; lia.
Qed.

(** X9: on an instance as the constructor builds it (whatever its
    [num_stdevs] and its cached taps), a pass of [convolution] whose
    radius [r] is from 0 to 94 launches its kernel, and a pass launches
    only if its radius is at most 94; for a radius from 95 to 3071 the
    pass raises the shared-memory error, and it raises the
    kernel-too-large error exactly when the radius is above 3072.  When
    [int] raises on the double [num_stdevs * std + 0.5] (an infinity or
    NaN), the pass raises that error.  The row pass and the column pass
    have the same limits. *)
Theorem constructed_pass_limits (nstd : pyfloat) (ktype : string) (kg : nat) (r0 : Z)
    (std0 : pyfloat) (d : device) (std : pyfloat) (y x batches : Z)
    (input output : gpuarray) :
  let s := set_taps (GaussianSmoothingKernel_fields nstd ktype kg) r0 std0 in
  let row := snd (row_pass std y x batches input output (World s d)) in
  let col := snd (col_pass std y x batches input output (World s d)) in
  (forall r, radius s std = inr r ->
     (0 <= r <= 94 -> row = inr tt /\ col = inr tt) /\
     (row = inr tt -> r <= 94) /\ (col = inr tt -> r <= 94) /\
     (94 < r < 3072 -> row = inl no_shared /\ col = inl no_shared) /\
     (row = inl too_large <-> 3072 < r) /\ (col = inl too_large <-> 3072 < r)) /\
  (forall e, radius s std = inl e -> row = inl e /\ col = inl e).
Proof.
  intros s row col. subst row col.
  rewrite row_pass_eq, col_pass_eq. split.
  - intros r Hr.
    pose proof (constructed_pass_check nstd ktype kg r0 std0 std r) as Hc.
    cbv zeta in Hc. fold s in Hc. rewrite (Hc Hr).
    destruct (Z.gtb_spec r 3072); [| destruct (Z.gtb_spec r 94)]; simpl;
      repeat split; intros; try discriminate; try lia; reflexivity.
  - intros e He. rewrite (pass_check_convert s std e He). split; reflexivity.
Qed.

(** ** [convolution]: rejected calls, the configuration, the taps *)

Lemma set_taps_same s : set_taps s (cached_r s) (cached_std s) = s.
Proof. destruct s. reflexivity. Qed.

Lemma set_taps_tap_self s std :
  set_taps s (cached_r (tap_self s std)) (cached_std (tap_self s std)) = tap_self s std.
Proof.
  unfold tap_self. destruct (taps_changed _ _ _); [reflexivity | apply set_taps_same].
Qed.

Lemma set_taps_tap_self2 s std std' :
  set_taps s (cached_r (tap_self (tap_self s std) std'))
    (cached_std (tap_self (tap_self s std) std'))
  = tap_self (tap_self s std) std'.
Proof.
  unfold tap_self. destruct (taps_changed s _ _); destruct (taps_changed _ _ _);
    try reflexivity; apply set_taps_same.
Qed.

Lemma convolution_bad_layout s d data mfs t :
  same_layout data t = false ->
  convolution data mfs (Some t) (World s d) = (World s d, inl (AssertionError "")).
Proof.
  intros H. unfold convolution. unfold_py. rewrite H. reflexivity.
Qed.

Lemma convolution_bad_dims s d data mfs tmp :
  (forall t, tmp = Some t -> same_layout data t = true) ->
  unpack_dims (shape data) mfs = None ->
  convolution data mfs tmp (World s d) =
    (World s (match tmp with
              | Some _ => d
              | None => Device (S (next_ref d))
                          (stream d ++ [Alloc (the_tmp d data None) false])
              end),
     inl (NotImplementedError "input needs to be of dimensions 0 < ndims <= 3")).
Proof.
  intros Htmp Hdims. unfold convolution. unfold_py.
  destruct tmp as [t|]; simpl.
  - rewrite (Htmp t eq_refl), Hdims. destruct d. reflexivity.
  - rewrite same_layout_fresh, Hdims. reflexivity.
Qed.

Lemma unpack_dims_none sh mfs :
  unpack_dims sh mfs = None <-> (length sh = 0 \/ 3 < length sh)%nat.
Proof.
  unfold unpack_dims.
  destruct sh as [| a [| b [| c [| e sh]]]]; simpl; split; intros H;
    try discriminate; try reflexivity; try lia.
Qed.

(** X10: [convolution] rejects a temporary whose shape or dtype differs
    from that of [data] by a failed assertion with nothing enqueued, and
    data of no or of more than three dimensions by a not-implemented
    error; in the latter case no kernel is launched and no taps are
    uploaded, the cached taps are kept, and the only event is the
    allocation of the temporary when none was given. *)
Theorem convolution_rejects (s : GaussianSmoothingKernel) (d : device)
    (data : gpuarray) (mfs : pyfloat * pyfloat) (tmp : option gpuarray) :
  let res := convolution data mfs tmp (World s d) in
  (forall t, tmp = Some t -> same_layout data t = false ->
     res = (World s d, inl (AssertionError ""))) /\
  ((forall t, tmp = Some t -> same_layout data t = true) ->
   (length (shape data) = 0 \/ 3 < length (shape data))%nat ->
   snd res = inl (NotImplementedError "input needs to be of dimensions 0 < ndims <= 3") /\
   self (fst res) = s /\
   new_events d (dev (fst res))
     = match tmp with
       | Some _ => []
       | None => [Alloc (the_tmp d data None) false]
       end).
Proof.
  intros res. subst res. split.
  - intros t -> H. apply convolution_bad_layout. exact H.
  - intros Htmp Hlen. apply (unpack_dims_none _ mfs) in Hlen.
    rewrite (convolution_bad_dims s d data mfs tmp Htmp Hlen). simpl.
    repeat split. destruct tmp; [apply new_events_same | apply new_events_app].
Qed.

Lemma convolution_rejects_witness :
  let data := GpuArray 1 [2; 3; 8; 8] complex64 in
  let res := convolution data (Finite 1, Finite 1) None (World gauss gauss_dev) in
  snd res = inl (NotImplementedError "input needs to be of dimensions 0 < ndims <= 3") /\
  self (fst res) = gauss /\
  new_events gauss_dev (dev (fst res)) = [Alloc (the_tmp gauss_dev data None) false].
Proof.
  intros data res.
  apply (convolution_rejects gauss gauss_dev data (Finite 1, Finite 1) None).
  - apply no_tmp_layout.
  - right. simpl. lia.
Defined.

(** X11: whatever a call of [convolution] does, raising or not, it
    changes nothing of the instance but the cached radius and standard
    deviation of the taps: [num_stdevs], the block dimensions, the two
    budgets, the kernels and the tap buffer stay as they are. *)
Theorem convolution_keeps_configuration (s : GaussianSmoothingKernel) (d : device)
    (data : gpuarray) (mfs : pyfloat * pyfloat) (tmp : option gpuarray) :
  let s' := self (fst (convolution data mfs tmp (World s d))) in
  set_taps s (cached_r s') (cached_std s') = s'.
Proof.
  intros s'. subst s'.
  destruct (match tmp with Some t => same_layout data t | None => true end) eqn:El.
  - assert (Htmp : forall t, tmp = Some t -> same_layout data t = true)
      by (intros t ->; exact El).
    destruct (unpack_dims (shape data) mfs) as [[[[[batches y] x] stdy] stdx] |] eqn:Hdims.
    + remember (convolution data mfs tmp (World s d)) as r eqn:Hr.
      conv_cases s d tmp Htmp Hdims stdx stdy Hr.
      all: subst r; cbn [fst self].
      all: first [ apply set_taps_same | apply set_taps_tap_self
                 | apply set_taps_tap_self2 ].
    + rewrite (convolution_bad_dims s d data mfs tmp Htmp Hdims). apply set_taps_same.
  - destruct tmp as [t|]; [| discriminate].
    rewrite (convolution_bad_layout s d data mfs t El). apply set_taps_same.
Qed.

(** Equal standard deviations give the same radius. *)
Lemma round_binary_compat p e q q' :
  (q == q')%Q -> round_binary p e q = round_binary p e q'.
Proof.
  intros H. unfold round_binary. rewrite (Qred_complete _ _ H). reflexivity.
Qed.

Lemma fmul_compat n a b : feq a b = true -> fmul n a = fmul n b.
Proof.
  intros H.
  destruct a as [a | | |], b as [b | | |]; cbn [feq] in H; try discriminate H;
    try reflexivity.
  apply Qeq_bool_iff in H.
  destruct n as [n | | |]; cbn [fmul]; try reflexivity.
  - apply round_binary_compat. rewrite H. reflexivity.
  - rewrite (Qcompare_comp a b H 0%Q 0%Q (Qeq_refl 0)). reflexivity.
  - rewrite (Qcompare_comp a b H 0%Q 0%Q (Qeq_refl 0)). reflexivity.
Qed.

Lemma radius_compat s a b : feq a b = true -> radius s a = radius s b.
Proof. intros H. unfold radius. rewrite (fmul_compat _ a b H). reflexivity. Qed.

Lemma radius_value_compat s a b :
  feq a b = true -> radius_value s a = radius_value s b.
Proof. intros H. unfold radius_value. rewrite (radius_compat s a b H). reflexivity. Qed.

Lemma feq_sym a b : feq a b = true -> feq b a = true.
Proof.
  destruct a, b; cbn [feq]; try discriminate; try reflexivity.
  rewrite !Qeq_bool_iff. intros H. symmetry. exact H.
Qed.

Lemma feq_trans a b c : feq a b = true -> feq b c = true -> feq a c = true.
Proof.
  destruct a, b, c; cbn [feq]; try discriminate; try reflexivity.
  rewrite !Qeq_bool_iff. intros H1 H2. rewrite H1. exact H2.
Qed.

(** An active standard deviation is not NaN: it equals itself. *)
Lemma active_feq std : active std = true -> feq std std = true.
Proof.
  destruct std; cbn [active feq]; try discriminate; try reflexivity.
  intros _. apply Qeq_bool_refl.
Qed.

(** Once a pass has seen a standard deviation, a pass with an equal one
    finds the taps cached. *)
Lemma taps_cached_after s std std' :
  feq std' std = true ->
  taps_changed (tap_self s std) (radius_value (tap_self s std) std') std' = false.
Proof.
  intros H. rewrite radius_value_tap_self, (radius_value_compat s std' std H).
  unfold tap_self.
  destruct (taps_changed s (radius_value s std) std) eqn:E.
  - unfold taps_changed. simpl. rewrite Z.eqb_refl, H. reflexivity.
  - unfold taps_changed in *.
    apply orb_false_iff in E as [E1 E2].
    apply negb_false_iff in E1, E2. rewrite E1. simpl.
    rewrite (feq_trans _ _ _ H E2). reflexivity.
Qed.

Lemma tap_self_cached s std :
  taps_changed s (radius_value s std) std = false ->
  tap_self s std = s /\ tap_events s std = [].
Proof. intros H. unfold tap_self, tap_events. rewrite H. auto. Qed.

Lemma uploads_app a b : uploads (a ++ b) = uploads a ++ uploads b.
Proof. unfold uploads. apply flat_map_app. Qed.

Lemma uploads_tap_events s std : (length (uploads (tap_events s std)) <= 1)%nat.
Proof. unfold tap_events. destruct (taps_changed _ _ _); simpl; lia. Qed.

(** The uploads of a call are those of its passes. *)
Lemma convolution_uploads s d data mfs tmp batches y x stdy stdx :
  (forall t, tmp = Some t -> same_layout data t = true) ->
  unpack_dims (shape data) mfs = Some (batches, y, x, stdy, stdx) ->
  let res := convolution data mfs tmp (World s d) in
  (snd res = inr tt ->
     self (fst res) = self_after_col s stdy stdx /\
     uploads (new_events d (dev (fst res)))
       = (if active stdx then uploads (tap_events s stdx) else []) ++
         (if active stdy
          then uploads (tap_events (self_after_row s stdx) stdy) else [])) /\
  ((active stdx = true -> tap_events s stdx = []) ->
   (active stdy = true -> tap_events (self_after_row s stdx) stdy = []) ->
   uploads (new_events d (dev (fst res))) = []).
Proof.
  intros Htmp Hdims res. subst res.
  unfold self_after_col, self_after_row.
  rewrite <- !(fgt_active stdx), <- !(fgt_active stdy).
  remember (convolution data mfs tmp (World s d)) as r eqn:Hr.
  conv_cases s d tmp Htmp Hdims stdx stdy Hr.
  all: subst r; cbn [fst snd self dev].
  all: flatten_stream; rewrite ?new_events_same.
  all: split; [ intros Hok; first [discriminate Hok | split; [reflexivity |]]
              | intros Hx Hy; try rewrite (Hx eq_refl); try rewrite (Hy eq_refl) ].
  all: repeat (rewrite ?uploads_app; cbn [uploads flat_map List.app]).
  all: rewrite ?List.app_nil_r; try reflexivity.
Qed.

(** X12: the taps are uploaded only when they change.  In a call of
    [convolution] that returns and in which a single pass is active, or
    both with equal standard deviations, at most one upload takes place;
    and the same call made again on the instance, with any temporary,
    uploads nothing. *)
Theorem convolution_repeat_no_upload (s : GaussianSmoothingKernel) (d : device)
    (data : gpuarray) (mfs : pyfloat * pyfloat) (tmp tmp2 : option gpuarray)
    (w1 : world GaussianSmoothingKernel) (batches y x : Z) (stdy stdx : pyfloat) :
  convolution data mfs tmp (World s d) = (w1, inr tt) ->
  unpack_dims (shape data) mfs = Some (batches, y, x, stdy, stdx) ->
  active stdx = false \/ active stdy = false \/
    feq stdy stdx = true ->
  (length (uploads (new_events d (dev w1))) <= 1)%nat /\
  uploads (new_events (dev w1) (dev (fst (convolution data mfs tmp2 w1)))) = [].
Proof.
  intros Hok Hdims Hone.
  pose proof (convolution_ok_layout _ _ _ _ _ _ Hok) as Htmp.
  destruct (convolution_uploads s d data mfs tmp batches y x stdy stdx Htmp Hdims)
    as [Hfirst _].
  rewrite Hok in Hfirst. destruct (Hfirst eq_refl) as [Hself Hup]. clear Hfirst.
  cbn [fst] in Hself, Hup.
  split.
  - rewrite Hup. unfold self_after_row.
    pose proof (uploads_tap_events s stdx) as U1.
    pose proof (uploads_tap_events s stdy) as U2.
    pose proof (uploads_tap_events (tap_self s stdx) stdy) as U3.
    destruct (active stdx) eqn:Ex, (active stdy) eqn:Ey;
      rewrite ?List.app_nil_r; simpl; try lia.
    destruct Hone as [H | [H | H]]; try discriminate.
    rewrite List.length_app.
    destruct (tap_self_cached (tap_self s stdx) stdy (taps_cached_after s stdx stdy H))
      as [_ ->]. simpl. lia.
  - destruct w1 as [s1 d1]. cbn [self dev] in *.
    destruct (match tmp2 with Some t => same_layout data t | None => true end) eqn:El.
    + assert (Htmp2 : forall t, tmp2 = Some t -> same_layout data t = true)
        by (intros t ->; exact El).
      apply (convolution_uploads s1 d1 data mfs tmp2 batches y x stdy stdx Htmp2 Hdims).
      * intros Ex. subst s1. unfold self_after_col, self_after_row. rewrite Ex.
        destruct (active stdy) eqn:Ey.
        -- destruct Hone as [H | [H | H]]; try congruence.
           apply tap_self_cached. apply taps_cached_after.
           apply feq_sym. exact H.
        -- apply tap_self_cached. apply taps_cached_after.
           apply active_feq. exact Ex.
      * intros Ey. subst s1. unfold self_after_col, self_after_row. rewrite Ey.
        destruct (active stdx) eqn:Ex.
        -- destruct Hone as [H | [H | H]]; try congruence.
           assert (Hx : tap_self (tap_self (tap_self s stdx) stdy) stdx
                        = tap_self (tap_self s stdx) stdy).
           { apply tap_self_cached. apply taps_cached_after.
             apply feq_sym. exact H. }
           rewrite Hx. apply tap_self_cached. apply taps_cached_after.
           apply active_feq. exact Ey.
        -- apply tap_self_cached. apply taps_cached_after.
           apply active_feq. exact Ey.
    + destruct tmp2 as [t|]; [| discriminate].
      rewrite (convolution_bad_layout s1 d1 data mfs t El). simpl.
      rewrite new_events_same. reflexivity.
Qed.

Lemma convolution_repeat_no_upload_witness :
  let data := GpuArray 1 [8; 8] complex64 in
  let w1 := fst (convolution data (Finite 1, Finite 1) None (World gauss gauss_dev)) in
  (length (uploads (new_events gauss_dev (dev w1))) <= 1)%nat /\
  uploads (new_events (dev w1) (dev (fst (convolution data (Finite 1, Finite 1) None w1)))) = [].
Proof.
  intros data w1.
  apply (convolution_repeat_no_upload gauss gauss_dev data (Finite 1, Finite 1)
           None None w1 1 8 8 (Finite 1) (Finite 1)).
  - reflexivity.
  - reflexivity.
  - right. right. reflexivity.
Defined.

(** ** [mass_center]: rejected calls and launches *)

(** X13: [mass_center] rejects an array that is not float32 by a
    not-implemented error and a float32 array of fewer than two dimensions
    by an index error, in both cases with nothing enqueued; on an array
    whose total is zero it raises a division by zero once the sum has been
    read back, before any allocation or launch. *)
Theorem mass_center_rejects (w : world MassCenterKernel) (array : gpuarray) (total : Q) :
  let res := mass_center array total w in
  (adtype array <> float32 ->
     res = (w, inl (NotImplementedError "mass_center is only implemented for float32"))) /\
  (adtype array = float32 -> (length (shape array) < 2)%nat ->
     res = (w, inl IndexError)) /\
  (adtype array = float32 -> (2 <= length (shape array))%nat ->
   Qeq_bool total 0 = true ->
     snd res = inl ZeroDivisionError /\ self (fst res) = self w /\
     new_events (dev w) (dev (fst res)) = [SumGet (ref array)]).
Proof.
  intros res. subst res.
  split; [| split].
  - intros Hd. unfold mass_center. unfold_py.
    destruct (dtype_eqb (adtype array) float32) eqn:E; simpl; [| reflexivity].
    apply dtype_eqb_eq in E. contradiction.
  - intros Hd Hn. unfold mass_center. unfold_py. rewrite Hd. simpl.
    destruct (shape array) as [| a [| b sh]]; simpl in *; try reflexivity; lia.
  - intros Hd Hn Ht.
    destruct (shape array) as [| a [| b sh]] eqn:Hs; simpl in Hn; try lia.
    unfold mass_center. rewrite Hd, Hs.
    destruct w as [s d].
    destruct sh as [| c sh].
    + assert (G : (ndim array >=? 3) = false) by (unfold ndim; rewrite Hs; reflexivity).
      rewrite G. unfold_py. simpl. rewrite Ht. simpl.
      split; [reflexivity |]. split; [reflexivity |]. apply new_events_app.
    + assert (G : (ndim array >=? 3) = true).
      { unfold ndim. rewrite Hs. apply Z.geb_le. simpl length. lia. }
      rewrite G. unfold_py. simpl. rewrite Ht. simpl.
      split; [reflexivity |]. split; [reflexivity |]. apply new_events_app.
Qed.

Lemma mass_center_rejects_witness :
  let w := World MassCenterKernel_init centroid_dev in
  let array := GpuArray 0 [4; 5] float32 in
  snd (mass_center array 0 w) = inl ZeroDivisionError /\
  self (fst (mass_center array 0 w)) = self w /\
  new_events (dev w) (dev (fst (mass_center array 0 w))) = [SumGet (ref array)].
Proof.
  intros w array.
  apply (mass_center_rejects w array 0).
  - reflexivity.
  - simpl. lia.
  - reflexivity.
Defined.

(** X14: on a float32 array with a non-zero total, [mass_center] allocates
    the three per-axis sum vectors and the output and then launches, in
    this order, for a two-dimensional array the indexed sum over the first
    axis, the tiled sum over the last axis and the final gather, and for
    an array of three or more dimensions the indexed sums over the first
    and the second axis, the tiled sum over the third and the final
    gather.  The final launch has one block per component of the output
    and writes the vector that is returned. *)
Theorem mass_center_launches (w : world MassCenterKernel) (array : gpuarray)
    (total : Q) (a b : Z) (sh : list Z) :
  adtype array = float32 ->
  Qeq_bool total 0 = false ->
  shape array = a :: b :: sh ->
  let res := mass_center array total w in
  let evs := new_events (dev w) (dev (fst res)) in
  let s := self w in
  exists out final,
    snd res = inr out /\
    map shape (allocs evs) = [[a]; [b]; [third_extent array]; shape out] /\
    map lkernel (launches evs)
      = (match sh with
         | [] => [indexed_sum_middim_cuda s; indexed_sum_lastdim_cuda s]
         | _ => [indexed_sum_middim_cuda s; indexed_sum_middim_cuda s;
                 indexed_sum_lastdim_cuda s]
         end) ++ [final_sums_cuda s] /\
    List.last (launches evs) final = final /\
    lkernel final = final_sums_cuda s /\
    lgrid final = (size out, 1, 1) /\
    List.last (largs final) (AInt32 0) = ABuf (ref out).
Proof.
  intros Hd Ht Hs res evs s. subst res evs s.
  unfold mass_center, third_extent. rewrite Hd, Hs.
  destruct w as [s d].
  destruct sh as [| c sh].
  - assert (G : (ndim array >=? 3) = false) by (unfold ndim; rewrite Hs; reflexivity).
    rewrite G. unfold_py. simpl. rewrite Ht. simpl. flatten_stream.
    eexists. eexists. split; [reflexivity |]. simpl.
    repeat split; try reflexivity;
      simpl; f_equal; f_equal; unfold size, prod; simpl; lia.
  - assert (G : (ndim array >=? 3) = true).
    { unfold ndim. rewrite Hs. apply Z.geb_le. simpl length. lia. }
    rewrite G. unfold_py. simpl. rewrite Ht. simpl. flatten_stream.
    eexists. eexists. split; [reflexivity |]. simpl.
    repeat split; try reflexivity;
      simpl; f_equal; f_equal; unfold size, prod; simpl; lia.
Qed.

Lemma mass_center_launches_witness :
  let w := World MassCenterKernel_init centroid_dev in
  let array := GpuArray 0 [4; 5; 6] float32 in
  let evs := new_events (dev w) (dev (fst (mass_center array 3 w))) in
  exists out final,
    snd (mass_center array 3 w) = inr out /\
    map shape (allocs evs) = [[4]; [5]; [third_extent array]; shape out] /\
    map lkernel (launches evs)
      = [indexed_sum_middim_cuda (self w); indexed_sum_middim_cuda (self w);
         indexed_sum_lastdim_cuda (self w)] ++ [final_sums_cuda (self w)] /\
    List.last (launches evs) final = final /\
    lkernel final = final_sums_cuda (self w) /\
    lgrid final = (size out, 1, 1) /\
    List.last (largs final) (AInt32 0) = ABuf (ref out).
Proof.
  intros w array evs.
  apply (mass_center_launches w array 3 4 5 [6]); reflexivity.
Defined.

(** ** [interpolate_shift]: rejected calls, the output buffer *)

(** X15: [interpolate_shift] rejects a shift that has not two components,
    an array that is not complex64 and an array of other than two or three
    dimensions, each by a not-implemented error with nothing enqueued.
    Every call that returns has allocated exactly one buffer of the shape
    and dtype of the input, also when it returns the input itself. *)
Theorem interpolate_shift_rejects (w : world InterpolatedShiftKernel)
    (array : gpuarray) (shift : list pyfloat) :
  let res := interpolate_shift array shift w in
  (length shift <> 2%nat ->
     res = (w, inl (NotImplementedError "Shift only applied to 2D array."))) /\
  (length shift = 2%nat -> adtype array <> complex64 ->
     res = (w, inl (NotImplementedError "Only complex single precision supported"))) /\
  (length shift = 2%nat -> adtype array = complex64 ->
   length (shape array) <> 2%nat -> length (shape array) <> 3%nat ->
     res = (w, inl (NotImplementedError "Only 2- or 3-dimensional arrays supported"))) /\
  (forall out, snd res = inr out ->
     allocs (new_events (dev w) (dev (fst res)))
       = [GpuArray (next_ref (dev w)) (shape array) (adtype array)]).
Proof.
  intros res. subst res. unfold interpolate_shift.
  destruct shift as [| r [| c [| ? ?]]]; cbn [map length].
  1, 2, 4: repeat split; intros; try lia; try reflexivity; discriminate.
  destruct (np_modf (to_float32 r)) as [fr ir], (np_modf (to_float32 c)) as [fc ic].
  unfold_py. destruct w as [s d]. cbn [self dev fst snd].
  split; [intros H; lia |].
  destruct (dtype_eqb (adtype array) complex64) eqn:Ed; cbn [negb].
  - apply dtype_eqb_eq in Ed.
    split; [intros _ H; contradiction |].
    destruct (shape array) as [| x0 [| x1 [| x2 [| ? ?]]]] eqn:Hs;
      cbn [self dev fst snd length].
    1, 2, 5: split; [reflexivity | intros; discriminate].
    all: split; [intros; lia |].
    all: destruct (frac_is_zero fr && frac_is_zero fc); cbn [self dev fst snd].
    all: try destruct (feq ir (Finite 0) && feq ic (Finite 0)); cbn [self dev fst snd].
    all: intros out _; cbn [self dev next_ref stream fst snd]; flatten_stream; reflexivity.
  - split.
    + intros _ _. reflexivity.
    + split; [intros _ H; apply dtype_eqb_eq in H; congruence | intros; discriminate].
Qed.

Lemma interpolate_shift_rejects_witness :
  let w := World InterpolatedShiftKernel_init shift_dev in
  let array := GpuArray 0 [4; 5] complex64 in
  snd (interpolate_shift array [Finite 0; Finite 0] w) = inr array /\
  allocs (new_events (dev w) (dev (fst (interpolate_shift array [Finite 0; Finite 0] w))))
    = [GpuArray (next_ref (dev w)) (shape array) (adtype array)].
Proof.
  intros w array. split; [reflexivity |].
  destruct (interpolate_shift_rejects w array [Finite 0; Finite 0]) as (_ & _ & _ & H).
  apply (H array). reflexivity.
Defined.

(** ** Signed indices and slices *)

Lemma py_getitem_nth {K} (sh : list Z) (i : Z) (j : nat) (w : world K) :
  (if i <? 0 then i + Z.of_nat (length sh) else i) = Z.of_nat j ->
  (j < length sh)%nat ->
  py_getitem sh i w = (w, inr (nth j sh 0)).
Proof.
  intros Hi Hj. unfold py_getitem. cbv zeta. rewrite Hi, Nat2Z.id.
  replace ((0 <=? Z.of_nat j) && (Z.of_nat j <? Z.of_nat (length sh))) with true;
    [reflexivity |].
  symmetry. apply andb_true_iff. split; [apply Z.leb_le | apply Z.ltb_lt]; lia.
Qed.

Lemma py_getitem_out {K} (sh : list Z) (i : Z) (w : world K) :
  i < - Z.of_nat (length sh) \/ Z.of_nat (length sh) <= i ->
  py_getitem sh i w = (w, inl IndexError).
Proof.
  intros H. unfold py_getitem. cbv zeta.
  replace ((0 <=? _) && (_ <? Z.of_nat (length sh))) with false; [reflexivity |].
  symmetry. apply andb_false_iff.
  destruct (Z.ltb_spec i 0); [left; apply Z.leb_gt | right; apply Z.ltb_ge]; lia.
Qed.

Lemma py_getitem_last2 {K} (lead : list Z) (r c : Z) (w : world K) :
  py_getitem (lead ++ [r; c]) (-2) w = (w, inr r) /\
  py_getitem (lead ++ [r; c]) (-1) w = (w, inr c).
Proof.
  split.
  - rewrite (py_getitem_nth _ _ (length lead)).
    + rewrite List.app_nth2, Nat.sub_diag by lia. reflexivity.
    + rewrite List.length_app. simpl. lia.
    + rewrite List.length_app. simpl. lia.
  - rewrite (py_getitem_nth _ _ (S (length lead))).
    + rewrite List.app_nth2 by lia.
      replace (S (length lead) - length lead)%nat with 1%nat by lia. reflexivity.
    + rewrite List.length_app. simpl. lia.
    + rewrite List.length_app. simpl. lia.
Qed.

Lemma py_getitem_short {K} (sh : list Z) (w : world K) :
  (length sh < 2)%nat -> py_getitem sh (-2) w = (w, inl IndexError).
Proof.
  intros H. apply py_getitem_out. lia.
Qed.

Lemma slice_bound_neg (sh : list Z) (i : Z) (k : nat) :
  i = - Z.of_nat k -> (0 < k <= length sh)%nat ->
  slice_bound sh i = (length sh - k)%nat.
Proof.
  intros -> H. unfold slice_bound.
  replace (- Z.of_nat k <? 0) with true by (symmetry; apply Z.ltb_lt; lia). lia.
Qed.

Lemma slice_bound_pos (sh : list Z) (i : Z) (k : nat) :
  i = Z.of_nat k -> slice_bound sh i = Nat.min k (length sh).
Proof.
  intros ->. unfold slice_bound.
  replace (Z.of_nat k <? 0) with false by (symmetry; apply Z.ltb_ge; lia). lia.
Qed.

Lemma py_slice_to_last2 (lead : list Z) (r c : Z) :
  py_slice_to (lead ++ [r; c]) (-2) = lead.
Proof.
  unfold py_slice_to.
  rewrite (slice_bound_neg (lead ++ [r; c]) (-2) 2 eq_refl)
    by (rewrite List.length_app; simpl; lia).
  rewrite List.length_app. simpl length.
  replace (length lead + 2 - 2)%nat with (length lead + 0)%nat by lia.
  rewrite List.firstn_app_2. simpl. apply List.app_nil_r.
Qed.

(** ** [max_abs2] *)

Lemma max_abs2_run (w : world MaxAbs2Kernel) (X out : gpuarray)
    (lead : list Z) (rows cols : Z) (tin tout : string) :
  shape X = lead ++ [rows; cols] ->
  map2ctype (adtype X) = inr tin ->
  map2ctype (adtype out) = inr tout ->
  max_abs2 X out w =
    match max_abs2_cuda (self w) !! max_abs2_version tin tout (np_int32 rows) with
    | Some e =>
        (World (self w)
           (more (dev w) [Launch (max_abs2_step1_launch e X lead rows cols);
                          Launch (max_abs2_step2_launch e out rows)]),
         inr tt)
    | None =>
        let e := max_abs2_new_entry tin tout (np_int32 rows) out (next_ref (dev w)) in
        (World {| max_abs2_cuda :=
                    <[max_abs2_version tin tout (np_int32 rows) := e]>
                      (max_abs2_cuda (self w)) |}
           (Device (S (next_ref (dev w)))
              (stream (dev w) ++
               [Alloc (scratchmem e) false;
                Launch (max_abs2_step1_launch e X lead rows cols);
                Launch (max_abs2_step2_launch e out rows)])),
         inr tt)
    end.
Proof.
  intros Hs Hin Hout. unfold max_abs2.
  unfold bind at 1. rewrite Hs, (proj1 (py_getitem_last2 lead rows cols w)).
  unfold bind at 1. rewrite (proj2 (py_getitem_last2 lead rows cols w)).
  rewrite py_slice_to_last2, Hin, Hout.
  unfold_py. destruct w as [s d]. simpl.
  destruct (max_abs2_cuda s !! _) as [e|]; simpl.
  - unfold more. simpl. rewrite <- List.app_assoc. reflexivity.
  - rewrite <- !List.app_assoc. reflexivity.
Qed.

Lemma shape_last2 (sh : list Z) :
  (2 <= length sh)%nat -> exists lead r c, sh = lead ++ [r; c].
Proof.
  intros Hge.
  destruct (@exists_last _ sh) as (l1 & c & H1);
    [destruct sh; simpl in *; [lia | discriminate] |].
  destruct (@exists_last _ l1) as (l2 & r & H2).
  { intros ->. rewrite H1 in Hge. simpl in Hge. lia. }
  exists l2, r, c. rewrite H1, H2, <- List.app_assoc. reflexivity.
Qed.

Lemma max_abs2_short (w : world MaxAbs2Kernel) (X out : gpuarray) :
  (length (shape X) < 2)%nat -> max_abs2 X out w = (w, inl IndexError).
Proof.
  intros H. unfold max_abs2. unfold bind at 1.
  rewrite py_getitem_short by exact H. reflexivity.
Qed.

Lemma max_abs2_unmapped (w : world MaxAbs2Kernel) (X out : gpuarray) e :
  (2 <= length (shape X))%nat ->
  map2ctype (adtype X) = inl e \/
    ((exists tin, map2ctype (adtype X) = inr tin) /\ map2ctype (adtype out) = inl e) ->
  max_abs2 X out w = (w, inl e).
Proof.
  intros Hge Hd.
  destruct (shape_last2 _ Hge) as (lead & r & c & Hs).
  unfold max_abs2.
  unfold bind at 1. rewrite Hs, (proj1 (py_getitem_last2 lead r c w)).
  unfold bind at 1. rewrite (proj2 (py_getitem_last2 lead r c w)).
  unfold_py.
  destruct Hd as [-> | [[tin ->] ->]]; reflexivity.
Qed.

Lemma max_abs2_raise_same (w : world MaxAbs2Kernel) (X out : gpuarray) e :
  snd (max_abs2 X out w) = inl e -> fst (max_abs2 X out w) = w.
Proof.
  destruct (Nat.lt_ge_cases (length (shape X)) 2) as [Hlt | Hge].
  - rewrite (max_abs2_short w X out Hlt). reflexivity.
  - destruct (map2ctype (adtype X)) as [ein | tin] eqn:Hin.
    + rewrite (max_abs2_unmapped w X out ein Hge) by (left; exact Hin). reflexivity.
    + destruct (map2ctype (adtype out)) as [eout | tout] eqn:Hout.
      * rewrite (max_abs2_unmapped w X out eout Hge) by (right; split; [eauto | exact Hout]).
        reflexivity.
      * destruct (shape_last2 _ Hge) as (lead & r & c & Hs).
        rewrite (max_abs2_run w X out lead r c tin tout Hs Hin Hout).
        destruct (max_abs2_cuda (self w) !! _); simpl; discriminate.
Qed.

(** X16: [max_abs2] rejects an input of fewer than two dimensions by an
    index error and an input or output whose element type has no C mapping
    by a value error; whenever it raises, the instance with its cache and
    the device are as before the call. *)
Theorem max_abs2_rejects (w : world MaxAbs2Kernel) (X out : gpuarray) :
  let res := max_abs2 X out w in
  ((length (shape X) < 2)%nat -> res = (w, inl IndexError)) /\
  ((2 <= length (shape X))%nat ->
   adtype X = float16 \/ adtype out = float16 ->
   res = (w, inl (ValueError "No mapping for dtype"))) /\
  (forall e, snd res = inl e -> fst res = w).
Proof.
  intros res. subst res.
  split; [| split].
  - apply max_abs2_short.
  - intros Hge Hd. apply max_abs2_unmapped; [exact Hge |].
    destruct (map2ctype (adtype X)) as [ein | tin] eqn:Hin.
    + left. destruct (adtype X); simpl in Hin; inversion Hin; reflexivity.
    + right. split; [eauto |].
      destruct Hd as [Hd | Hd]; rewrite Hd in *; [discriminate | reflexivity].
  - intros e. apply max_abs2_raise_same.
Qed.

Lemma max_abs2_rejects_witness :
  let w := World MaxAbs2Kernel_init (Device 2 []) in
  max_abs2 (GpuArray 0 [7] complex64) (GpuArray 1 [1] float32) w = (w, inl IndexError) /\
  max_abs2 (GpuArray 0 [3; 4; 5] complex64) (GpuArray 1 [3] float16) w
    = (w, inl (ValueError "No mapping for dtype")).
Proof.
  intros w. split.
  - apply (max_abs2_rejects w (GpuArray 0 [7] complex64) (GpuArray 1 [1] float32)).
    simpl. lia.
  - apply (max_abs2_rejects w (GpuArray 0 [3; 4; 5] complex64) (GpuArray 1 [3] float16)).
    + simpl. lia.
    + right. reflexivity.
Defined.

(** X17: a [max_abs2] on an input of trailing extents [rows] x [cols] with
    element types that have a C mapping returns after two launches: step 1
    on one block row per row of the input, into the scratch vector of the
    cache entry of its version, then step 2 on a single block from that
    scratch vector into [out].  If the entry was cached, nothing is
    allocated and the instance is unchanged, so a call made again reuses
    kernels and scratch; if not, the only allocation is a scratch vector
    of [rows] elements of the dtype of [out], cached under the version. *)
Theorem max_abs2_launches (w : world MaxAbs2Kernel) (X out : gpuarray)
    (lead : list Z) (rows cols : Z) (tin tout : string) :
  shape X = lead ++ [rows; cols] ->
  map2ctype (adtype X) = inr tin ->
  map2ctype (adtype out) = inr tout ->
  let res := max_abs2 X out w in
  let evs := new_events (dev w) (dev (fst res)) in
  let key := max_abs2_version tin tout (np_int32 rows) in
  exists e,
    snd res = inr tt /\
    max_abs2_cuda (self (fst res)) !! key = Some e /\
    launches evs = [max_abs2_step1_launch e X lead rows cols;
                    max_abs2_step2_launch e out rows] /\
    (max_abs2_cuda (self w) !! key = Some e ->
       allocs evs = [] /\ self (fst res) = self w) /\
    (max_abs2_cuda (self w) !! key = None ->
       allocs evs = [scratchmem e] /\
       e = max_abs2_new_entry tin tout (np_int32 rows) out (next_ref (dev w))) /\
    (max_abs2_cuda (self w) !! key <> None ->
       max_abs2_cuda (self w) !! key = Some e).
Proof.
  intros Hs Hin Hout res evs key. subst res evs key.
  rewrite (max_abs2_run w X out lead rows cols tin tout Hs Hin Hout).
  destruct (max_abs2_cuda (self w) !! _) as [e|] eqn:E; cbv zeta; cbn [fst snd self dev].
  - exists e. rewrite new_events_more.
    repeat split; try assumption; try reflexivity; intros; discriminate.
  - eexists. rewrite new_events_app. cbn [max_abs2_cuda].
    split; [reflexivity |]. split; [apply lookup_insert_eq |].
    split; [reflexivity |].
    split; [intros; discriminate |].
    split; [intros _; split; reflexivity | intros H; contradiction].
Qed.

Lemma max_abs2_launches_witness :
  let w := World MaxAbs2Kernel_init (Device 2 []) in
  let X := GpuArray 0 [3; 4; 5] complex64 in
  let out := GpuArray 1 [3] float32 in
  let w1 := fst (max_abs2 X out w) in
  let key := max_abs2_version "complex<float>" "float" (np_int32 4) in
  exists e,
    snd (max_abs2 X out w1) = inr tt /\
    max_abs2_cuda (self (fst (max_abs2 X out w1))) !! key = Some e /\
    launches (new_events (dev w1) (dev (fst (max_abs2 X out w1))))
      = [max_abs2_step1_launch e X [3] 4 5; max_abs2_step2_launch e out 4] /\
    allocs (new_events (dev w1) (dev (fst (max_abs2 X out w1)))) = [] /\
    self (fst (max_abs2 X out w1)) = self w1.
Proof.
  intros w X out w1 key.
  destruct (max_abs2_launches w1 X out [3] 4 5 "complex<float>" "float"
              eq_refl eq_refl eq_refl) as (e & H1 & H2 & H3 & H4 & _ & H6).
  exists e. split; [exact H1 |]. split; [exact H2 |]. split; [exact H3 |].
  apply H4. apply H6. vm_compute. discriminate.
Defined.

Lemma map2ctype_inj d d' t : map2ctype d = inr t -> map2ctype d' = inr t -> d = d'.
Proof.
  destruct d, d'; simpl; intros H H'; inversion H; subst; inversion H'; reflexivity.
Qed.

(** The version of [max_abs2] determines the two C types and the row count. *)
Lemma max_abs2_version_inj tin tout gy tin' tout' gy' :
  no_comma tin = true -> no_comma tout = true ->
  no_comma tin' = true -> no_comma tout' = true ->
  max_abs2_version tin tout gy = max_abs2_version tin' tout' gy' ->
  tin = tin' /\ tout = tout' /\ gy = gy'.
Proof.
  intros H1 H2 H3 H4 H. unfold max_abs2_version in H.
  apply key_split in H as [-> H]; [| assumption | assumption].
  apply key_split in H as [-> H]; [| assumption | assumption].
  apply pretty_Z_inj in H. auto.
Qed.

Lemma max_abs2_cache_ok_step (w : world MaxAbs2Kernel) (X out : gpuarray) :
  max_abs2_cache_ok (self w) -> max_abs2_cache_ok (self (fst (max_abs2 X out w))).
Proof.
  intros Hok.
  destruct (snd (max_abs2 X out w)) as [e | []] eqn:E.
  - rewrite (max_abs2_raise_same w X out e E). exact Hok.
  - destruct (Nat.lt_ge_cases (length (shape X)) 2) as [Hlt | Hge];
      [rewrite (max_abs2_short w X out Hlt) in E; discriminate |].
    destruct (map2ctype (adtype X)) as [ein | tin] eqn:Hin;
      [rewrite (max_abs2_unmapped w X out ein Hge) in E by (left; exact Hin);
       discriminate |].
    destruct (map2ctype (adtype out)) as [eout | tout] eqn:Hout;
      [rewrite (max_abs2_unmapped w X out eout Hge) in E
         by (right; split; [eauto | exact Hout]); discriminate |].
    destruct (shape_last2 _ Hge) as (lead & r & c & Hs).
    rewrite (max_abs2_run w X out lead r c tin tout Hs Hin Hout).
    destruct (max_abs2_cuda (self w) !! _) eqn:El; cbv zeta; cbn [fst self];
      [exact Hok |].
    intros key e. cbn [max_abs2_cuda]. rewrite lookup_insert.
    destruct (decide (max_abs2_version tin tout (np_int32 r) = key)) as [<- | Hne].
    + intros H. inversion H; subst.
      exists (adtype X), out, tin, tout, (np_int32 r), (next_ref (dev w)). auto.
    + apply Hok.
Qed.

Lemma max_abs2_cache_ok_calls cs : forall w,
  max_abs2_cache_ok (self w) ->
  max_abs2_cache_ok (self (fold_left (fun w c => run_max_abs2 c w) cs w)).
Proof.
  induction cs as [| [X out] cs IH]; intros w Hok; simpl; [exact Hok |].
  apply IH. apply max_abs2_cache_ok_step. exact Hok.
Qed.

(** X18: after any sequence of [max_abs2] calls on a new [MaxAbs2Kernel],
    raising ones included, a further call on an input of trailing extents
    [rows] x [cols] that returns has used kernels compiled for exactly its
    pair of element types and a scratch vector of exactly [rows] elements
    (as int32) of the dtype of [out], whether the entry was cached by an
    earlier call or created by this one. *)
Theorem max_abs2_scratch_exact (cs : list (gpuarray * gpuarray)) (d : device)
    (X out : gpuarray) (lead : list Z) (rows cols : Z) :
  let w := fold_left (fun w c => run_max_abs2 c w) cs (World MaxAbs2Kernel_init d) in
  let res := max_abs2 X out w in
  shape X = lead ++ [rows; cols] ->
  snd res = inr tt ->
  exists e tin tout,
    map2ctype (adtype X) = inr tin /\ map2ctype (adtype out) = inr tout /\
    launches (new_events (dev w) (dev (fst res)))
      = [max_abs2_step1_launch e X lead rows cols; max_abs2_step2_launch e out rows] /\
    shape (scratchmem e) = [np_int32 rows] /\
    adtype (scratchmem e) = adtype out /\
    step1 e = Kernel "max_abs2_step1"
                [("IN_TYPE", tin); ("OUT_TYPE", tout); ("BDIM_X", "64")] /\
    step2 e = Kernel "max_abs2_step2"
                [("IN_TYPE", tin); ("OUT_TYPE", tout); ("BDIM_X", "64")].
Proof.
  intros w res Hs E. subst res.
  assert (Hinv : max_abs2_cache_ok (self w)).
  { apply max_abs2_cache_ok_calls. intros key e H. simpl in H.
    rewrite lookup_empty in H. discriminate. }
  assert (Hge : (2 <= length (shape X))%nat)
    by (rewrite Hs, List.length_app; simpl; lia).
  destruct (map2ctype (adtype X)) as [ein | tin] eqn:Hin;
    [rewrite (max_abs2_unmapped w X out ein Hge) in E by (left; exact Hin);
     discriminate |].
  destruct (map2ctype (adtype out)) as [eout | tout] eqn:Hout;
    [rewrite (max_abs2_unmapped w X out eout Hge) in E
       by (right; split; [eauto | exact Hout]); discriminate |].
  rewrite (max_abs2_run w X out lead rows cols tin tout Hs Hin Hout).
  destruct (max_abs2_cuda (self w) !! _) as [e|] eqn:El; cbv zeta; cbn [fst dev].
  - destruct (Hinv _ _ El) as (din & dout & tin' & tout' & gy & r & Hdi & Hdo & Hkey & ->).
    apply max_abs2_version_inj in Hkey as (<- & <- & <-);
      eauto using map2ctype_no_comma.
    eexists. exists tin, tout. rewrite new_events_more.
    repeat split; try reflexivity.
    simpl. apply (map2ctype_inj _ _ tout); assumption.
  - eexists. exists tin, tout. rewrite new_events_app.
    repeat split; reflexivity.
Qed.

Lemma max_abs2_scratch_exact_witness :
  let X := GpuArray 0 [3; 4; 5] complex64 in
  let out := GpuArray 1 [3] float32 in
  let Y := GpuArray 2 [6; 5] complex64 in
  let w := fold_left (fun w c => run_max_abs2 c w) [(X, out); (Y, out)]
             (World MaxAbs2Kernel_init (Device 3 [])) in
  exists e tin tout,
    map2ctype (adtype X) = inr tin /\ map2ctype (adtype out) = inr tout /\
    launches (new_events (dev w) (dev (fst (max_abs2 X out w))))
      = [max_abs2_step1_launch e X [3] 4 5; max_abs2_step2_launch e out 4] /\
    shape (scratchmem e) = [np_int32 4] /\
    adtype (scratchmem e) = adtype out /\
    step1 e = Kernel "max_abs2_step1"
                [("IN_TYPE", tin); ("OUT_TYPE", tout); ("BDIM_X", "64")] /\
    step2 e = Kernel "max_abs2_step2"
                [("IN_TYPE", tin); ("OUT_TYPE", tout); ("BDIM_X", "64")].
Proof.
  intros X out Y w.
  apply (max_abs2_scratch_exact [(X, out); (Y, out)] (Device 3 []) X out [3] 4 5);
    reflexivity.
Defined.

(** ** [delxf] and [delxb] *)

Lemma py_slice_to_split (hi : list Z) (e : Z) (lo : list Z) :
  py_slice_to (hi ++ e :: lo) (Z.of_nat (length hi)) = hi.
Proof.
  unfold py_slice_to. rewrite (slice_bound_pos _ _ (length hi) eq_refl).
  rewrite List.length_app. simpl length.
  replace (Nat.min (length hi) (length hi + S (length lo))) with (length hi + 0)%nat by lia.
  rewrite List.firstn_app_2. simpl. apply List.app_nil_r.
Qed.

Lemma py_slice_from_split (hi : list Z) (e : Z) (lo : list Z) :
  py_slice_from (hi ++ e :: lo) (Z.of_nat (length hi) + 1) = lo.
Proof.
  unfold py_slice_from.
  rewrite (slice_bound_pos _ _ (S (length hi))) by lia.
  rewrite List.length_app. simpl length.
  replace (Nat.min (S (length hi)) (length hi + S (length lo))) with (S (length hi)) by lia.
  replace (hi ++ e :: lo) with ((hi ++ [e]) ++ lo) by (rewrite <- List.app_assoc; reflexivity).
  rewrite List.skipn_app.
  replace (S (length hi)) with (length (hi ++ [e])) at 1
    by (rewrite List.length_app; simpl; lia).
  rewrite List.skipn_all. simpl.
  replace (S (length hi) - length (hi ++ [e]))%nat with 0%nat
    by (rewrite List.length_app; simpl; lia).
  reflexivity.
Qed.

Lemma py_slice_to_but_last (hi : list Z) (e : Z) :
  py_slice_to (hi ++ [e]) (-1) = hi.
Proof.
  unfold py_slice_to.
  rewrite (slice_bound_neg (hi ++ [e]) (-1) 1 eq_refl)
    by (rewrite List.length_app; simpl; lia).
  rewrite List.length_app. simpl length.
  replace (length hi + 1 - 1)%nat with (length hi + 0)%nat by lia.
  rewrite List.firstn_app_2. simpl. apply List.app_nil_r.
Qed.

Lemma py_getitem_split {K} (hi : list Z) (e : Z) (lo : list Z) (w : world K) :
  py_getitem (hi ++ e :: lo) (Z.of_nat (length hi)) w = (w, inr e).
Proof.
  rewrite (py_getitem_nth _ _ (length hi)).
  - rewrite List.nth_middle. reflexivity.
  - replace (Z.of_nat (length hi) <? 0) with false; [reflexivity |].
    symmetry. apply Z.ltb_ge. lia.
  - rewrite List.length_app. simpl. lia.
Qed.

Lemma prod_app (a b : list Z) : prod (a ++ b) = prod a * prod b.
Proof.
  unfold prod. induction a as [| x a IH]; simpl.
  - destruct (fold_right Z.mul 1 b); reflexivity.
  - rewrite IH. lia.
Qed.

(** The normalisation of the axis. *)
Lemma axis_normalised n k axis :
  0 <= k < n -> n < 2 ^ 31 -> axis = k \/ axis = k - n ->
  np_int32 (if axis <? 0 then n + axis else axis) = k.
Proof.
  intros Hk Hn [-> | ->].
  - replace (k <? 0) with false by (symmetry; apply Z.ltb_ge; lia).
    apply np_int32_small. lia.
  - replace (k - n <? 0) with true by (symmetry; apply Z.ltb_lt; lia).
    replace (n + (k - n)) with k by lia. apply np_int32_small. lia.
Qed.

(** A forward difference along an axis of the array. *)
Lemma delxf_run (s : DerivativesKernel) (d : device) (input out : gpuarray)
    (hi : list Z) (e : Z) (lo : list Z) (axis : Z) :
  adtype input = dk_dtype s ->
  shape input = hi ++ e :: lo ->
  ndim input < 2 ^ 31 ->
  axis = Z.of_nat (length hi) \/ axis = Z.of_nat (length hi) - ndim input ->
  delxf input out axis (World s d) =
    (World s (more d [Launch (delx_launch (delxf_last s) (delxf_mid s) s
                                input out hi e lo)]),
     inr tt).
Proof.
  intros Hd Hs Hn Hax.
  assert (Hnd : ndim input = Z.of_nat (length hi) + 1 + Z.of_nat (length lo)).
  { unfold ndim. rewrite Hs, List.length_app. simpl length. lia. }
  unfold delxf. unfold bind at 1. unfold get_self at 1. cbn [self].
  rewrite Hd, dtype_eqb_refl. cbn [negb].
  rewrite (axis_normalised (ndim input) (Z.of_nat (length hi)) axis) by (try assumption; lia).
  rewrite Hs. fold (ndim input). unfold delx_launch.
  destruct lo as [| l lo].
  - replace (Z.of_nat (length hi) =? ndim input - 1) with true
      by (symmetry; apply Z.eqb_eq; simpl in Hnd; lia).
    unfold bind at 1. rewrite py_getitem_split, py_slice_to_but_last.
    reflexivity.
  - replace (Z.of_nat (length hi) =? ndim input - 1) with false
      by (symmetry; apply Z.eqb_neq; simpl length in Hnd; lia).
    unfold bind at 1. rewrite py_getitem_split, py_slice_to_split, py_slice_from_split.
    reflexivity.
Qed.

Lemma py_getitem_eq {K} (sh : list Z) (i : Z) (w : world K) :
  py_getitem sh i w = (w, getitem_result sh i).
Proof.
  unfold py_getitem, getitem_result. cbv zeta.
  destruct ((0 <=? _) && (_ <? _)); reflexivity.
Qed.

(** [delxb] is [delxf] with the kernels exchanged. *)
Lemma delxb_as_delxf (s : DerivativesKernel) (d : device) (input out : gpuarray)
    (axis : Z) :
  delxb input out axis (World s d) =
    (World s (dev (fst (delxf input out axis (World (swap_direction s) d)))),
     snd (delxf input out axis (World (swap_direction s) d))).
Proof.
  unfold delxb, delxf. unfold_py. cbn [self dev].
  change (dk_dtype (swap_direction s)) with (dk_dtype s).
  destruct (dtype_eqb (adtype input) (dk_dtype s)); cbn [negb];
    [| destruct d; reflexivity].
  destruct (_ =? ndim input - 1); rewrite !py_getitem_eq;
    destruct (getitem_result _ _); cbn [fst snd self dev];
    try reflexivity; destruct d; reflexivity.
Qed.

Lemma delxb_run (s : DerivativesKernel) (d : device) (input out : gpuarray)
    (hi : list Z) (e : Z) (lo : list Z) (axis : Z) :
  adtype input = dk_dtype s ->
  shape input = hi ++ e :: lo ->
  ndim input < 2 ^ 31 ->
  axis = Z.of_nat (length hi) \/ axis = Z.of_nat (length hi) - ndim input ->
  delxb input out axis (World s d) =
    (World s (more d [Launch (delx_launch (delxb_last s) (delxb_mid s) s
                                input out hi e lo)]),
     inr tt).
Proof.
  intros Hd Hs Hn Hax.
  rewrite delxb_as_delxf.
  rewrite (delxf_run (swap_direction s) d input out hi e lo axis Hd Hs Hn Hax).
  reflexivity.
Qed.

(** X19: for an array of the dtype of the instance whose shape splits into
    [hi ++ e :: lo] and the axis of [e], given by its index or by its
    negative index, [delxf] and [delxb] return after one launch that
    leaves the instance unchanged: along the last axis the last-axis
    kernel with the product of the leading extents and [e], on one block
    row per four leading rows; along any other axis the mid-axis kernel
    with the product of the trailing extents, the product of the leading
    extents and [e].  The three numbers multiply to the size of the array. *)
Theorem delx_valid_axis (s : DerivativesKernel) (d : device) (input out : gpuarray)
    (hi : list Z) (e : Z) (lo : list Z) (axis : Z) :
  adtype input = dk_dtype s ->
  shape input = hi ++ e :: lo ->
  ndim input < 2 ^ 31 ->
  axis = Z.of_nat (length hi) \/ axis = Z.of_nat (length hi) - ndim input ->
  delxf input out axis (World s d) =
    (World s (more d [Launch (delx_launch (delxf_last s) (delxf_mid s) s
                                input out hi e lo)]), inr tt) /\
  delxb input out axis (World s d) =
    (World s (more d [Launch (delx_launch (delxb_last s) (delxb_mid s) s
                                input out hi e lo)]), inr tt) /\
  prod hi * e * prod lo = size input.
Proof.
  intros Hd Hs Hn Hax.
  split; [apply delxf_run; assumption |].
  split; [apply delxb_run; assumption |].
  unfold size. rewrite Hs, prod_app. unfold prod at 4. simpl. fold (prod lo). lia.
Qed.

Lemma deriv_constructed : DerivativesKernel_init float32 = inr deriv.
Proof. reflexivity. Qed.

Lemma delx_valid_axis_witness :
  let input := GpuArray 0 [3; 4; 5] float32 in
  let out := GpuArray 1 [3; 4; 5] float32 in
  let d := Device 2 [] in
  delxf input out (-2) (World deriv d) =
    (World deriv (more d [Launch (delx_launch (delxf_last deriv) (delxf_mid deriv) deriv
                                    input out [3] 4 [5])]), inr tt) /\
  delxb input out (-2) (World deriv d) =
    (World deriv (more d [Launch (delx_launch (delxb_last deriv) (delxb_mid deriv) deriv
                                    input out [3] 4 [5])]), inr tt) /\
  prod [3] * 4 * prod [5] = size input.
Proof.
  intros input out d.
  apply (delx_valid_axis deriv d input out [3] 4 [5] (-2)).
  - reflexivity.
  - reflexivity.
  - vm_compute. reflexivity.
  - right. reflexivity.
Defined.

(** X20: [delxb] does on an instance what [delxf] does on the instance
    with forward and backward kernels exchanged, for every input, output
    and axis, valid or not: the same exception or return and the same
    events; and neither ever changes the instance. *)
Theorem delxb_mirrors_delxf (s : DerivativesKernel) (d : device)
    (input out : gpuarray) (axis : Z) :
  let b := delxb input out axis (World s d) in
  let f := delxf input out axis (World (swap_direction s) d) in
  snd b = snd f /\ dev (fst b) = dev (fst f) /\
  self (fst b) = s /\ self (fst f) = swap_direction s.
Proof.
  intros b f. subst b f. rewrite delxb_as_delxf. cbn [fst snd self dev].
  repeat split.
  unfold delxf. unfold_py. cbn [self dev].
  destruct (dtype_eqb (adtype input) _); cbn [negb]; [| reflexivity].
  destruct (_ =? ndim input - 1); rewrite !py_getitem_eq;
    destruct (getitem_result _ _); reflexivity.
Qed.

Lemma delxf_bad_dtype (s : DerivativesKernel) (d : device) (input out : gpuarray) axis :
  adtype input <> dk_dtype s ->
  delxf input out axis (World s d) = (World s d, inl (ValueError "Invalid input data type")).
Proof.
  intros H. unfold delxf. unfold_py. cbn [self].
  destruct (dtype_eqb (adtype input) (dk_dtype s)) eqn:E; [| reflexivity].
  apply dtype_eqb_eq in E. contradiction.
Qed.

Lemma delxf_axis_beyond (s : DerivativesKernel) (d : device) (input out : gpuarray) axis :
  adtype input = dk_dtype s ->
  ndim input <= axis < 2 ^ 31 ->
  delxf input out axis (World s d) = (World s d, inl IndexError).
Proof.
  intros Hd Hax. unfold delxf. unfold_py. cbn [self].
  rewrite Hd, dtype_eqb_refl. cbn [negb].
  assert (H0 : 0 <= ndim input) by (unfold ndim; lia).
  replace (axis <? 0) with false by (symmetry; apply Z.ltb_ge; lia).
  rewrite np_int32_small by lia.
  replace (axis =? ndim input - 1) with false by (symmetry; apply Z.eqb_neq; lia).
  rewrite py_getitem_out by (unfold ndim in *; lia). reflexivity.
Qed.

(** X21: [delxf] and [delxb] reject an input whose dtype is not that of
    the instance by a value error, and an axis from the number of
    dimensions upwards by an index error; in both cases instance and
    device are as before. *)
Theorem delx_rejects (s : DerivativesKernel) (d : device) (input out : gpuarray)
    (axis : Z) :
  (adtype input <> dk_dtype s ->
     delxf input out axis (World s d)
       = (World s d, inl (ValueError "Invalid input data type")) /\
     delxb input out axis (World s d)
       = (World s d, inl (ValueError "Invalid input data type"))) /\
  (adtype input = dk_dtype s -> ndim input <= axis < 2 ^ 31 ->
     delxf input out axis (World s d) = (World s d, inl IndexError) /\
     delxb input out axis (World s d) = (World s d, inl IndexError)).
Proof.
  split.
  - intros H. split; [apply delxf_bad_dtype; exact H |].
    rewrite delxb_as_delxf, delxf_bad_dtype by exact H. reflexivity.
  - intros Hd Hax. split; [apply delxf_axis_beyond; assumption |].
    rewrite delxb_as_delxf, delxf_axis_beyond by assumption. reflexivity.
Qed.

Lemma delx_rejects_witness :
  let input := GpuArray 0 [3; 4; 5] float32 in
  let out := GpuArray 1 [3; 4; 5] float32 in
  let d := Device 2 [] in
  delxf input out 3 (World deriv d) = (World deriv d, inl IndexError) /\
  delxb input out 3 (World deriv d) = (World deriv d, inl IndexError).
Proof.
  intros input out d.
  apply (delx_rejects deriv d input out 3).
  - reflexivity.
  - vm_compute. split; [discriminate | reflexivity].
Defined.

(** X22: the axis [-ndim - 1] is not rejected.  For an array of the dtype
    of the instance with shape [hi ++ [e]], [delxf] with that axis returns
    after launching the mid-axis kernel with the size of the whole array
    as its lower dimension, the product of [hi] as its higher dimension
    and [e] as the extent; [delxb] does the same with its kernel. *)
Theorem delx_axis_below_range (s : DerivativesKernel) (d : device)
    (input out : gpuarray) (hi : list Z) (e : Z) :
  adtype input = dk_dtype s ->
  shape input = hi ++ [e] ->
  ndim input < 2 ^ 31 ->
  let L := fun k =>
    MkLaunch k
      [ABuf (ref input); ABuf (ref out); AInt32 (np_int32 (size input));
       AInt32 (np_int32 (prod hi)); AInt32 (np_int32 e)]
      (mid_axis_block s)
      ((np_int32 (size input) + dim_x (mid_axis_block s) - 1) / dim_x (mid_axis_block s),
       1, np_int32 (prod hi))
      0 in
  delxf input out (- ndim input - 1) (World s d)
    = (World s (more d [Launch (L (delxf_mid s))]), inr tt) /\
  delxb input out (- ndim input - 1) (World s d)
    = (World s (more d [Launch (L (delxb_mid s))]), inr tt).
Proof.
  intros Hd Hs Hn L. subst L.
  assert (Hnd : ndim input = Z.of_nat (length hi) + 1).
  { unfold ndim. rewrite Hs, List.length_app. simpl length. lia. }
  assert (Hf : forall s0, dk_dtype s0 = dk_dtype s ->
    delxf input out (- ndim input - 1) (World s0 d)
    = (World s0 (more d [Launch
         (MkLaunch (delxf_mid s0)
            [ABuf (ref input); ABuf (ref out); AInt32 (np_int32 (size input));
             AInt32 (np_int32 (prod hi)); AInt32 (np_int32 e)]
            (mid_axis_block s0)
            ((np_int32 (size input) + dim_x (mid_axis_block s0) - 1)
               / dim_x (mid_axis_block s0), 1, np_int32 (prod hi)) 0)]), inr tt)).
  { intros s0 H0. unfold delxf. unfold bind at 1. unfold get_self at 1. cbn [self].
    rewrite H0, Hd, dtype_eqb_refl. cbn [negb].
    replace (- ndim input - 1 <? 0) with true by (symmetry; apply Z.ltb_lt; lia).
    replace (ndim input + (- ndim input - 1)) with (-1) by lia.
    change (np_int32 (-1)) with (-1).
    replace (-1 =? ndim input - 1) with false by (symmetry; apply Z.eqb_neq; lia).
    unfold bind at 1. rewrite py_getitem_eq.
    assert (Hg : getitem_result (shape input) (-1) = inr e).
    { pose proof (@py_getitem_nth unit (shape input) (-1) (length hi)
                    (World tt d)) as H.
      rewrite py_getitem_eq in H.
      rewrite Hs in *. rewrite List.length_app in H. simpl length in H.
      specialize (H ltac:(simpl; lia) ltac:(lia)).
      rewrite List.nth_middle in H. inversion H. reflexivity. }
    rewrite Hg. change (-1 + 1) with 0.
    replace (py_slice_from (shape input) 0) with (shape input)
      by (unfold py_slice_from;
          rewrite (slice_bound_pos (shape input) 0 0 eq_refl); reflexivity).
    replace (py_slice_to (shape input) (-1)) with hi
      by (rewrite Hs; symmetry; apply py_slice_to_but_last).
    reflexivity. }
  split; [apply Hf; reflexivity |].
  rewrite delxb_as_delxf, Hf by reflexivity. reflexivity.
Qed.

Lemma delx_axis_below_range_witness :
  let input := GpuArray 0 [3; 4; 5] float32 in
  let out := GpuArray 1 [3; 4; 5] float32 in
  let d := Device 2 [] in
  snd (delxf input out (-4) (World deriv d)) = inr tt /\
  launches (stream (dev (fst (delxf input out (-4) (World deriv d)))))
    = [MkLaunch (delxf_mid deriv)
         [ABuf 0; ABuf 1; AInt32 60; AInt32 12; AInt32 5] (256, 4, 1) (1, 1, 12) 0].
Proof.
  intros input out d.
  destruct (delx_axis_below_range deriv d input out [3; 4] 5 eq_refl eq_refl eq_refl)
    as [H _].
  change (- ndim input - 1) with (-4) in H. rewrite H. split; reflexivity.
Defined.

(** ** [Abs2SumKernel] *)

(** X23: the constructor of [Abs2SumKernel] fails exactly on an element
    type without C mapping.  For complex64 input the output type is
    float32; for every other type, complex128 included, the output type is
    the input type itself, since the comparison meant for double-precision
    complex input tests a string that [map2ctype] never returns; so the
    output type is float64 only for float64 input. *)
Theorem abs2sum_output_type (dt : dtype) :
  (forall e, Abs2SumKernel_init dt = inl e -> dt = float16) /\
  (forall k, Abs2SumKernel_init dt = inr k ->
     map2ctype dt = inr (in_stype k) /\
     (dt = complex64 -> out_dtype k = float32 /\ out_stype k = "float") /\
     (dt <> complex64 -> out_dtype k = dt /\ out_stype k = in_stype k) /\
     (out_dtype k = float64 -> dt = float64)).
Proof.
  split.
  - intros e. destruct dt; simpl; intros H; try discriminate; reflexivity.
  - intros k. destruct dt; simpl; intros H; inversion H; subst; simpl;
      repeat split; intros; try reflexivity; try discriminate; try contradiction.
Qed.

Lemma abs2sum_output_type_witness :
  exists k, Abs2SumKernel_init complex128 = inr k /\
    out_dtype k = complex128 /\ out_stype k = in_stype k.
Proof.
  eexists. split; [reflexivity |].
  destruct (abs2sum_output_type complex128) as [_ H].
  destruct (H _ eq_refl) as (_ & _ & H3 & _).
  apply H3. discriminate.
Defined.

(** X24: [abs2sum] on an array of shape (nmodes, row, col) returns a new
    array of shape (row, col) and of the output type of the instance,
    after one launch with one block of 32 threads per row; it leaves the
    instance unchanged.  On an array of any other number of dimensions it
    raises, an index error for none and a value error otherwise, with
    nothing enqueued. *)
Theorem abs2sum_launch (w : world Abs2SumKernel) (array : gpuarray) :
  let res := abs2sum array w in
  (forall nmodes row col, shape array = [nmodes; row; col] ->
     let out := GpuArray (next_ref (dev w)) [row; col] (out_dtype (self w)) in
     snd res = inr out /\ self (fst res) = self w /\
     new_events (dev w) (dev (fst res))
       = [Alloc out false;
          Launch (MkLaunch (abs2sum_cuda (self w))
                    [ABuf (ref array); AInt32 (np_int32 nmodes); AInt32 (np_int32 row);
                     AInt32 (np_int32 col); ABuf (ref out)]
                    (32, 1, 1) (1, row, 1) 0)]) /\
  (length (shape array) <> 3%nat ->
     fst res = w /\
     exists e, snd res = inl e /\
       (length (shape array) = 0%nat -> e = IndexError) /\
       (length (shape array) <> 0%nat -> exists msg, e = ValueError msg)).
Proof.
  intros res. subst res. destruct w as [s d].
  assert (Hrun : forall a rest,
    shape array = a :: rest ->
    abs2sum array (World s d) =
      match rest with
      | [] => raise (ValueError "not enough values to unpack (expected 2, got 0)")
      | [_] => raise (ValueError "not enough values to unpack (expected 2, got 1)")
      | [row; col] =>
          s <- get_self ;;
          out <- gpu_empty rest (out_dtype s) ;;
          run_kernel (abs2sum_cuda s)
            [ABuf (ref array); AInt32 (np_int32 a); AInt32 (np_int32 row);
             AInt32 (np_int32 col); ABuf (ref out)]
            (32, 1, 1) (1, row, 1) 0 ;;;
          ret out
      | _ => raise (ValueError "too many values to unpack (expected 2)")
      end (World s d)).
  { intros a rest Hs. unfold abs2sum. unfold bind at 1.
    rewrite py_getitem_eq, Hs.
    replace (getitem_result (a :: rest) 0) with (@inr exn Z a) by reflexivity.
    replace (py_slice_from (a :: rest) 1) with rest; [reflexivity |].
    unfold py_slice_from. rewrite (slice_bound_pos (a :: rest) 1 1 eq_refl).
    reflexivity. }
  split.
  - intros nmodes row col Hs. rewrite (Hrun _ _ Hs). unfold_py. simpl.
    repeat split. flatten_stream. reflexivity.
  - intros Hn.
    destruct (shape array) as [| a rest] eqn:Hs.
    + unfold abs2sum. unfold bind at 1. rewrite py_getitem_eq, Hs. simpl.
      split; [reflexivity |]. eexists. split; [reflexivity |].
      split; intros; [reflexivity | contradiction].
    + rewrite (Hrun a rest eq_refl).
      destruct rest as [| b [| c [| ? ?]]]; simpl in Hn; try lia;
        (split; [reflexivity |]); eexists; (split; [reflexivity |]);
        split; intros; try discriminate; eauto.
Qed.

Lemma abs2sum_launch_witness :
  exists k, Abs2SumKernel_init complex64 = inr k /\
    snd (abs2sum (GpuArray 0 [2; 8; 9] complex64) (World k (Device 1 [])))
      = inr (GpuArray 1 [8; 9] float32).
Proof.
  eexists. split; [reflexivity |].
  match goal with
  | |- snd (abs2sum ?a ?w) = _ =>
      destruct (abs2sum_launch w a) as [H _];
      destruct (H 2 8 9 eq_refl) as [H1 _]; exact H1
  end.
Defined.

(** ** [ClipMagnitudesKernel] *)

(** X25: [clip_magnitudes_to_range] never raises and never changes the
    instance; it enqueues one launch on blocks of 256 threads with the
    two bounds and the number of pixels.  For an array of fewer than 2^31
    elements the pixel count passed is the size of the array and the
    blocks cover it with the last block not empty; an empty array gets an
    empty grid. *)
Theorem clip_magnitudes_covers (w : world ClipMagnitudesKernel) (array : gpuarray)
    (clip_min clip_max : Q) :
  0 <= size array < 2 ^ 31 ->
  exists gx,
    clip_magnitudes_to_range array clip_min clip_max w
      = (World (self w)
           (more (dev w)
              [Launch (MkLaunch (clip_magnitudes_cuda (self w))
                         [ABuf (ref array); AFloat32 clip_min; AFloat32 clip_max;
                          AInt32 (size array)]
                         (256, 1, 1) (gx, 1, 1) 0)]),
         inr tt) /\
    256 * (gx - 1) < size array <= 256 * gx /\
    (size array = 0 -> gx = 0).
Proof.
  intros Hsz. exists ((size array + 256 - 1) / 256).
  split; [| split].
  - unfold clip_magnitudes_to_range. unfold_py. fold (size array).
    rewrite np_int32_small by lia. reflexivity.
  - apply ceil_div_cover. lia.
  - intros ->. reflexivity.
Qed.

Lemma clip_magnitudes_covers_witness :
  let w := World ClipMagnitudesKernel_init (Device 1 []) in
  let array := GpuArray 0 [3; 100] complex64 in
  exists gx,
    clip_magnitudes_to_range array 0 1 w
      = (World (self w)
           (more (dev w)
              [Launch (MkLaunch (clip_magnitudes_cuda (self w))
                         [ABuf (ref array); AFloat32 0; AFloat32 1; AInt32 (size array)]
                         (256, 1, 1) (gx, 1, 1) 0)]),
         inr tt) /\
    256 * (gx - 1) < size array <= 256 * gx /\
    (size array = 0 -> gx = 0).
Proof.
  intros w array.
  apply (clip_magnitudes_covers w array 0 1).
  vm_compute. split; [discriminate | reflexivity].
Defined.

(** ** Further runs *)

Lemma transpose_accepts_iff_witness :
  let w := World TransposeKernel_init (Device 2 []) in
  snd (transpose (GpuArray 0 [2; 3] int32) (GpuArray 1 [3; 2] int32) w) = inr tt /\
  fst (transpose (GpuArray 0 [2; 3] int32) (GpuArray 1 [2; 3] int32) w) = w.
Proof.
  intros w. split.
  - apply (transpose_accepts_iff w (GpuArray 0 [2; 3] int32) (GpuArray 1 [3; 2] int32)).
    repeat split.
  - apply (proj2 (transpose_accepts_iff w (GpuArray 0 [2; 3] int32)
                    (GpuArray 1 [2; 3] int32))
             (ValueError "Input/Output must be of flipped shape")).
    reflexivity.
Defined.

Lemma constructed_pass_limits_witness :
  let data := GpuArray 1 [8; 8] complex64 in
  let tmp := GpuArray 2 [8; 8] complex64 in
  (snd (row_pass (Finite 1) 8 8 1 data tmp (World gauss gauss_dev)) = inr tt /\
   snd (col_pass (Finite 1) 8 8 1 data tmp (World gauss gauss_dev)) = inr tt) /\
  (snd (row_pass (Finite 30) 8 8 1 data tmp (World gauss gauss_dev)) = inl no_shared /\
   snd (col_pass (Finite 30) 8 8 1 data tmp (World gauss gauss_dev)) = inl no_shared) /\
  (snd (row_pass PosInf 8 8 1 data tmp (World gauss gauss_dev))
     = inl (OverflowError "cannot convert float infinity to integer") /\
   snd (col_pass PosInf 8 8 1 data tmp (World gauss gauss_dev))
     = inl (OverflowError "cannot convert float infinity to integer")).
Proof.
  intros data tmp.
  destruct (constructed_pass_limits (Finite 4) "float" 0 0 (Finite 0) gauss_dev
              (Finite 1) 8 8 1 data tmp) as [H1 _].
  destruct (constructed_pass_limits (Finite 4) "float" 0 0 (Finite 0) gauss_dev
              (Finite 30) 8 8 1 data tmp) as [H30 _].
  destruct (constructed_pass_limits (Finite 4) "float" 0 0 (Finite 0) gauss_dev
              PosInf 8 8 1 data tmp) as [_ Hinf].
  split; [| split].
  - destruct (H1 4 ltac:(vm_compute; reflexivity)) as (H & _). apply H. lia.
  - destruct (H30 120 ltac:(vm_compute; reflexivity)) as (_ & _ & _ & H & _).
    apply H. lia.
  - apply Hinf. vm_compute. reflexivity.
Defined.
